(** * Mock interview application: session state machine and request shaping

    A shallow embedding of [app.py] (the Streamlit script) and of the
    backend helpers it shares with [utils.py].  Python strings are
    sequences of code points, modelled as [string]; Python's [int] is [Z];
    [Optional[str]] is [option string]; a [dict] that is serialised as
    JSON is an association list of a small JSON type.  The completion
    provider, the clock and the database are external: they are fields of
    an environment record and every call made to them is recorded in a
    trace. *)

From Stdlib Require Import String Ascii List ZArith QArith Bool Arith Lia.
From Stdlib Require Import DecimalString Sorting.Sorted Sorting.Permutation.
From Stdlib Require DecimalNat DecimalFacts.
Import ListNotations.

Local Close Scope Q_scope.
Local Open Scope string_scope.
Local Open Scope list_scope.

(** ** Python strings *)

Module PyStr.

(** The line feed, written [\n] in the source. *)
Definition nl : string := String (ascii_of_nat 10) EmptyString.

(** [str.isspace] on one character, for the code points below 256:
    TAB, LF, VT, FF, CR, the separators FS, GS, RS, US, the space, NEL
    and the no-break space. *)
Definition isspace (c : ascii) : bool :=
  let n := nat_of_ascii c in
  (((9 <=? n) && (n <=? 13)) || ((28 <=? n) && (n <=? 32))
   || (n =? 133) || (n =? 160))%nat.

Fixpoint lstrip (s : string) : string :=
  match s with
  | EmptyString => EmptyString
  | String c r => if isspace c then lstrip r else s
  end.

Fixpoint rstrip (s : string) : string :=
  match s with
  | EmptyString => EmptyString
  | String c r =>
      match rstrip r with
      | EmptyString => if isspace c then EmptyString else String c EmptyString
      | r' => String c r'
      end
  end.

(** [s.strip()] *)
Definition strip (s : string) : string := rstrip (lstrip s).

(** Truth value of a [str]: only the empty string is false. *)
Definition truthy (s : string) : bool :=
  match s with EmptyString => false | String _ _ => true end.

(** Truth value of an [Optional[str]]. *)
Definition truthy_opt (o : option string) : bool :=
  match o with None => false | Some s => truthy s end.

(** [a or b] on strings. *)
Definition or_else (a b : string) : string := if truthy a then a else b.

(** The string is empty or made of whitespace only. *)
Fixpoint blank (s : string) : bool :=
  match s with
  | EmptyString => true
  | String c r => isspace c && blank r
  end.

(** [str(n)] for an [int]. *)
Definition of_Z (z : Z) : string := NilZero.string_of_int (Z.to_int z).

(** [str(n)] for a list index or a length. *)
Definition of_nat (n : nat) : string := NilZero.string_of_uint (Nat.to_uint n).

End PyStr.

Import PyStr.

(** ** JSON values: what a record handed to the database may hold *)

#[warnings="-register-all"]
Inductive json : Type :=
| JNull
| JStr (s : string)
| JList (l : list json)
| JObj (fields : list (string * json)).

Definition json_of_opt (o : option string) : json :=
  match o with None => JNull | Some s => JStr s end.

(** [d.get(k)] on a dict kept in insertion order. *)
Fixpoint dict_get {A : Type} (d : list (string * A)) (k : string) : option A :=
  match d with
  | [] => None
  | (k', v) :: r => if String.eqb k' k then Some v else dict_get r k
  end.

Definition dict_keys {A : Type} (d : list (string * A)) : list string :=
  map fst d.

(** ** The completion provider boundary *)

Inductive role := system | assistant | user.

Record message := { msg_role : role; msg_content : string }.

Record request := {
  req_model : string;
  req_messages : list message;
  req_max_tokens : Z;
  req_temperature : Q
}.

(** The client object built by [openai.OpenAI]. *)
Record client := { api_key : string; base_url : string }.

(** What [client.chat.completions.create] followed by reading
    [choices[0].message.content] does: it yields the text, or raises.
    The source distinguishes two exception classes and catches every
    other one with [except Exception]. *)
Inductive api_result :=
| Reply (content : string)
| AuthenticationError
| RateLimitError
| OtherException (e : string).

(** A calendar date and time as [datetime] holds it. *)
Record datetime := {
  year : nat; month : nat; day : nat;
  hour : nat; minute : nat; second : nat; microsecond : nat
}.

(** Everything outside the program.  The provider may answer each call
    differently, so it also receives the number of calls made before. *)
Record env := {
  provider : nat -> client -> request -> api_result;
  OpenAI_raises : string -> option string;
  utcnow : datetime;
  push_raises : json -> option string
}.

(** ** Session state, as the script keeps it in [st.session_state] *)

Record session := {
  interview_started : bool;
  questions : list string;
  answers : list string;
  evaluation : string;
  ss_client : option client;
  max_questions : Z;
  feedback : list (option string);
  job_title : option string  (* the key is absent until Start sets it *)
}.

Definition set_interview_started (b : bool) (s : session) : session :=
  {| interview_started := b; questions := questions s; answers := answers s;
     evaluation := evaluation s; ss_client := ss_client s;
     max_questions := max_questions s; feedback := feedback s;
     job_title := job_title s |}.

Definition set_questions (l : list string) (s : session) : session :=
  {| interview_started := interview_started s; questions := l;
     answers := answers s; evaluation := evaluation s;
     ss_client := ss_client s; max_questions := max_questions s;
     feedback := feedback s; job_title := job_title s |}.

Definition set_answers (l : list string) (s : session) : session :=
  {| interview_started := interview_started s; questions := questions s;
     answers := l; evaluation := evaluation s; ss_client := ss_client s;
     max_questions := max_questions s; feedback := feedback s;
     job_title := job_title s |}.

Definition set_evaluation (e : string) (s : session) : session :=
  {| interview_started := interview_started s; questions := questions s;
     answers := answers s; evaluation := e; ss_client := ss_client s;
     max_questions := max_questions s; feedback := feedback s;
     job_title := job_title s |}.

Definition set_client (c : option client) (s : session) : session :=
  {| interview_started := interview_started s; questions := questions s;
     answers := answers s; evaluation := evaluation s; ss_client := c;
     max_questions := max_questions s; feedback := feedback s;
     job_title := job_title s |}.

Definition set_max_questions (n : Z) (s : session) : session :=
  {| interview_started := interview_started s; questions := questions s;
     answers := answers s; evaluation := evaluation s;
     ss_client := ss_client s; max_questions := n; feedback := feedback s;
     job_title := job_title s |}.

Definition set_feedback (l : list (option string)) (s : session) : session :=
  {| interview_started := interview_started s; questions := questions s;
     answers := answers s; evaluation := evaluation s;
     ss_client := ss_client s; max_questions := max_questions s;
     feedback := l; job_title := job_title s |}.

Definition set_job_title (j : option string) (s : session) : session :=
  {| interview_started := interview_started s; questions := questions s;
     answers := answers s; evaluation := evaluation s;
     ss_client := ss_client s; max_questions := max_questions s;
     feedback := feedback s; job_title := j |}.

(** ** Effects *)

(** What a run of the script does to the outside, in order. *)
Inductive effect :=
| ApiCall (c : client) (r : request)
| StError (text : string)
| StWarning (text : string)
| StSuccess (text : string)
| Print (text : string)
| StoreSession (session_data : json)   (* [store_session] was called *)
| DbPush (session_data : json).        (* [db_ref.push().set] succeeded *)

Record world := {
  session_state : option session;  (* [None]: no key is set *)
  api_calls : nat;
  trace : list effect
}.

Definition with_session (o : option session) (w : world) : world :=
  {| session_state := o; api_calls := api_calls w; trace := trace w |}.

Definition emit_in (e : effect) (w : world) : world :=
  {| session_state := session_state w; api_calls := api_calls w;
     trace := trace w ++ [e] |}.

Definition count_call (w : world) : world :=
  {| session_state := session_state w; api_calls := S (api_calls w);
     trace := trace w |}.

(** How a piece of the script ends: normally, with [st.rerun()] (which
    abandons the run), or with an exception nobody catches. *)
Inductive outcome (A : Type) :=
| Done (a : A)
| Rerun
| Raised (e : string).
Arguments Done {A} a.
Arguments Rerun {A}.
Arguments Raised {A} e.

Definition M (A : Type) : Type := world -> outcome A * world.

Definition ret {A} (a : A) : M A := fun w => (Done a, w).

Definition bind {A B} (m : M A) (k : A -> M B) : M B :=
  fun w =>
    match m w with
    | (Done a, w') => k a w'
    | (Rerun, w') => (Rerun, w')
    | (Raised e, w') => (Raised e, w')
    end.

Declare Scope script_scope.
Delimit Scope script_scope with script.
Notation "x <- m ;; k" := (bind m (fun x => k))
  (at level 61, m at next level, right associativity) : script_scope.
Notation "m ;; k" := (bind m (fun _ => k))
  (at level 61, right associativity) : script_scope.
Local Open Scope script_scope.

Definition emit (e : effect) : M unit := fun w => (Done tt, emit_in e w).
Definition st_rerun {A} : M A := fun w => (Rerun, w).
Definition raise {A} (e : string) : M A := fun w => (Raised e, w).
Definition pass : M unit := ret tt.

(** Reading a key of [st.session_state]. *)
Definition read {A} (f : session -> A) : M A :=
  fun w =>
    match session_state w with
    | Some s => (Done (f s), w)
    | None => (Raised "AttributeError", w)
    end.

(** Assigning to, or mutating in place, a key of [st.session_state]. *)
Definition update (f : session -> session) : M unit :=
  fun w =>
    match session_state w with
    | Some s => (Done tt, with_session (Some (f s)) w)
    | None => (Raised "AttributeError", w)
    end.

(** [st.session_state.job_title], which raises when the key is absent. *)
Definition read_job_title : M string :=
  j <- read job_title ;;
  match j with Some t => ret t | None => raise "AttributeError" end.

(** One call to the provider through a client.  A missing client makes
    the attribute access raise, inside the caller's [try]. *)
Definition chat_completions_create (E : env) (c : option client) (r : request)
  : M api_result :=
  match c with
  | None => ret (OtherException "AttributeError")
  | Some cl =>
      fun w =>
        (Done (provider E (api_calls w) cl r), count_call (emit_in (ApiCall cl r) w))
  end.

(** ** Backend helpers *)

(* From here on [++] joins strings; lists are joined with [%list]. *)
Local Open Scope string_scope.

Definition OPENROUTER_URL : string := "https://openrouter.ai/api/v1".

(** [get_openrouter_client].  The decorator [st.cache_resource] only saves
    recomputation; the result for a given key is the same. *)
Definition get_openrouter_client (E : env) (key : string) : M (option client) :=
  if negb (truthy key) then
    emit (StError "Please provide your OpenRouter API key in the sidebar.") ;;
    ret None
  else
    match OpenAI_raises E key with
    | None => ret (Some {| api_key := key; base_url := OPENROUTER_URL |})
    | Some e => emit (StError ("Failed to create API client: " ++ e)) ;; ret None
    end.

(** The system prompt of [generate_question]. *)
Definition question_system_prompt (job max : string) (interview_type : string)
  : string :=
  let system_prompt :=
    "You are an expert interviewer for a " ++ job ++ " position. "
    ++ "You will conduct a mock interview with a total of " ++ max
    ++ " questions. "
    ++ "Ask one concise, relevant interview question at a time. "
    ++ "Do not number your questions. "
    ++ "Base your next question on the candidate's previous answers." in
  if interview_type =? "Technical" then
    system_prompt
    ++ " This is a technical interview. "
    ++ "Ask a technical question related to the job, testing their "
    ++ "knowledge and problem-solving skills."
  else if interview_type =? "Behavioral (STAR format)" then
    system_prompt
    ++ " This is a behavioral interview. "
    ++ "Ask a behavioral question that the user should answer using the STAR method. "
    ++ "Start your question with 'Tell me about a time when...' or 'Describe a situation where...'"
  else
    system_prompt
    ++ " This is a general interview. Ask a common, non-technical question.".

(** The loop over [zip(previous_questions, previous_answers)]. *)
Fixpoint history_messages (qs as_ : list string) : list message :=
  match qs, as_ with
  | q :: qs', a :: as' =>
      {| msg_role := assistant; msg_content := q |}
      :: {| msg_role := user; msg_content := a |}
      :: history_messages qs' as'
  | _, _ => []
  end.

Definition question_messages (job : string) (max : Z) (interview_type : string)
    (previous_questions previous_answers : list string) : list message :=
  ([{| msg_role := system;
       msg_content := question_system_prompt job (of_Z max) interview_type |}]
   ++ history_messages previous_questions previous_answers
   ++ [{| msg_role := user;
          msg_content :=
            match previous_questions with
            | [] => "Please ask me the first question."
            | _ :: _ => "Please ask me the next question."
            end |}])%list.

Definition question_request (job model_name : string) (max : Z)
    (interview_type : string) (previous_questions previous_answers : list string)
  : request :=
  {| req_model := model_name;
     req_messages :=
       question_messages job max interview_type previous_questions previous_answers;
     req_max_tokens := 150;
     req_temperature := 7 # 10 |}.

Definition generate_question (E : env) (c : option client)
    (job model_name : string) (max : Z) (interview_type : string)
    (previous_questions previous_answers : list string) : M (option string) :=
  r <- chat_completions_create E c
         (question_request job model_name max interview_type
            previous_questions previous_answers) ;;
  match r with
  | Reply content => ret (Some (strip content))
  | AuthenticationError =>
      emit (StError "Authentication Error: Please check your OpenRouter API key.") ;;
      ret None
  | RateLimitError =>
      emit (StError "Rate Limit Exceeded: Please wait and try again or check your plan.") ;;
      ret None
  | OtherException e =>
      emit (StError ("An API error occurred: " ++ e)) ;;
      ret None
  end.

Definition feedback_request (model_name question answer : string) : request :=
  {| req_model := model_name;
     req_messages :=
       [{| msg_role := system;
           msg_content :=
             "You are an expert interview coach. "
             ++ "Provide 2-3 bullet points of constructive, concise feedback on the user's "
             ++ "answer to the interview question. "
             ++ "Focus on what they did well and how they could improve. "
             ++ "Start with 'Here's some feedback on your answer:'" |};
        {| msg_role := user;
           msg_content :=
             "Question: " ++ question ++ nl ++ nl ++ "Answer: " ++ answer |}];
     req_max_tokens := 200;
     req_temperature := 4 # 10 |}.

(** The text of an exception, as [f"{e}"] prints it. *)
Definition exception_text (r : api_result) : string :=
  match r with
  | Reply _ => ""
  | AuthenticationError => "AuthenticationError"
  | RateLimitError => "RateLimitError"
  | OtherException e => e
  end.

Definition get_feedback_for_answer (E : env) (c : option client)
    (model_name question answer : string) : M (option string) :=
  r <- chat_completions_create E c (feedback_request model_name question answer) ;;
  match r with
  | Reply content => ret (Some (strip content))
  | _ =>
      emit (Print ("Error getting per-question feedback: " ++ exception_text r)) ;;
      ret None
  end.

(** The loop of [evaluate_answers] over [enumerate(zip(questions, answers))],
    started at index [i]. *)
Fixpoint transcript_from (i : nat) (qs as_ : list string) : string :=
  match qs, as_ with
  | q :: qs', a :: as' =>
      "Question " ++ of_nat (i + 1) ++ ": " ++ q ++ nl
      ++ "Answer " ++ of_nat (i + 1) ++ ": " ++ a ++ nl ++ nl
      ++ transcript_from (S i) qs' as'
  | _, _ => ""
  end.

Definition evaluation_request (job model_name : string)
    (qs as_ : list string) : request :=
  {| req_model := model_name;
     req_messages :=
       [{| msg_role := system;
           msg_content :=
             "You are an expert hiring manager for a " ++ job ++ " position. "
             ++ "Your task is to provide a final, overall evaluation of the candidate's "
             ++ "performance based on the following interview transcript." |};
        {| msg_role := user;
           msg_content :=
             "Here is the interview transcript:" ++ nl ++ nl
             ++ transcript_from 0 qs as_
             ++ "Please provide a concise, overall evaluation of the candidate's performance. "
             ++ "Focus on: " ++ nl ++ "1. Overall Strengths " ++ nl
             ++ "2. Key Areas for Improvement. " ++ nl ++ nl
             ++ "Provide your final feedback in clear, constructive bullet points." |}];
     req_max_tokens := 500;
     req_temperature := 5 # 10 |}.

Definition evaluate_answers (E : env) (c : option client)
    (job model_name : string) (qs as_ : list string) : M (option string) :=
  r <- chat_completions_create E c (evaluation_request job model_name qs as_) ;;
  match r with
  | Reply content => ret (Some (strip content))
  | _ =>
      emit (StError ("An API error occurred during evaluation: " ++ exception_text r)) ;;
      ret None
  end.

(** The handle returned by [init_firebase]; [None] when the database is
    not configured. *)
Inductive db_reference := Interviews.

Definition store_session (E : env) (db_ref : option db_reference)
    (session_data : json) : M unit :=
  emit (StoreSession session_data) ;;
  match db_ref with
  | None => emit (Print "Firebase not initialized. Skipping data storage.")
  | Some _ =>
      match push_raises E session_data with
      | None =>
          emit (DbPush session_data) ;;
          emit (StSuccess "Interview session saved to database.")
      | Some e =>
          emit (StWarning ("Warning: Failed to store interview session: " ++ e))
      end
  end.

(** ** Time stamps *)

(** [s.zfill(width)]: zeros in front, up to the width. *)
Definition zfill (width : nat) (s : string) : string :=
  String.concat "" (repeat "0" (width - String.length s)) ++ s.

(** [datetime.isoformat()] of a naive [datetime]: the fraction of a
    second is printed only when it is not zero. *)
Definition isoformat (d : datetime) : string :=
  zfill 4 (of_nat (year d)) ++ "-" ++ zfill 2 (of_nat (month d)) ++ "-"
  ++ zfill 2 (of_nat (day d)) ++ "T" ++ zfill 2 (of_nat (hour d)) ++ ":"
  ++ zfill 2 (of_nat (minute d)) ++ ":" ++ zfill 2 (of_nat (second d))
  ++ (if Nat.eqb (microsecond d) 0 then ""
      else "." ++ zfill 6 (of_nat (microsecond d))).

(** ** The Streamlit script *)

(** What the user did to start this run of the script.  A widget that is
    disabled, or not drawn in this run, cannot have been used. *)
Inductive ui_action :=
| NoAction
| ClickStartInterview
| SubmitAnswer (answer : string)
| ClickNewInterview.

Definition clicked_start (a : ui_action) : bool :=
  match a with ClickStartInterview => true | _ => false end.

Definition clicked_new (a : ui_action) : bool :=
  match a with ClickNewInterview => true | _ => false end.

(** [st.button(label, disabled=...)] *)
Definition st_button (was_clicked disabled : bool) : bool :=
  was_clicked && negb disabled.

Definition fresh_session : session :=
  {| interview_started := false; questions := []; answers := [];
     evaluation := ""; ss_client := None; max_questions := 3;
     feedback := []; job_title := None |}.

(** The arguments [main] passes to [run_interview_app], read from the
    sidebar in every run. *)
Record sidebar := {
  sb_db_ref : option db_reference;
  sb_api_key : string;
  sb_model_name : string;
  sb_max_questions : Z;
  sb_user_name : string;
  sb_job_title : string;
  sb_interview_type : string
}.

(** [if "interview_started" not in st.session_state: ...] *)
Definition initialise : M unit :=
  fun w =>
    match session_state w with
    | None => (Done tt, with_session (Some fresh_session) w)
    | Some _ => (Done tt, w)
    end.

(** [st.session_state.clear()] *)
Definition clear_session : M unit :=
  fun w => (Done tt, with_session None w).

(** [l.pop()] *)
Definition pop {A} (l : list A) : option (list A) :=
  match l with [] => None | _ :: _ => Some (removelast l) end.

Definition pop_answers : M unit :=
  l <- read answers ;;
  match pop l with
  | Some l' => update (set_answers l')
  | None => raise "IndexError"
  end.

Definition pop_feedback : M unit :=
  l <- read feedback ;;
  match pop l with
  | Some l' => update (set_feedback l')
  | None => raise "IndexError"
  end.

(** The record written when the interview completes. *)
Definition session_data_of (user_name job model_name evaluation timestamp : string)
    (qs as_ : list string) (fb : list (option string)) : json :=
  JObj [("user", JStr (or_else user_name "Anonymous"));
        ("job_title", JStr job);
        ("questions", JList (map JStr qs));
        ("answers", JList (map JStr as_));
        ("feedback", JList (map json_of_opt fb));
        ("evaluation", JStr evaluation);
        ("model", JStr model_name);
        ("timestamp", JStr timestamp)].

(** The message shown when the next question could not be generated. *)
Definition next_question_error : effect :=
  StError ("Error generating the next question (API call failed). "
           ++ "Please try submitting your answer again.").

(** The message shown when the interview could not be started. *)
Definition start_error : effect :=
  StError "Failed to start interview. Check API key or model choice.".

Section Script.

Variable E : env.
Variable sb : sidebar.
Variable act : ui_action.

(** The "Start Interview" button and what it triggers. *)
Definition start_block : M unit :=
  started <- read interview_started ;;
  if st_button (clicked_start act) started then
    if truthy (sb_api_key sb) && truthy (sb_job_title sb) then
      c <- get_openrouter_client E (sb_api_key sb) ;;
      match c with
      | Some cl =>
          update (set_questions []) ;;
          update (set_answers []) ;;
          update (set_feedback []) ;;
          update (set_evaluation "") ;;
          update (set_client (Some cl)) ;;
          update (set_job_title (Some (sb_job_title sb))) ;;
          update (set_max_questions (sb_max_questions sb)) ;;
          question <- generate_question E (Some cl) (sb_job_title sb)
                        (sb_model_name sb) (sb_max_questions sb)
                        (sb_interview_type sb) [] [] ;;
          match question with
          | Some q =>
              if truthy q then
                update (fun s => set_questions (questions s ++ [q])%list s) ;;
                update (set_interview_started true) ;;
                st_rerun
              else
                emit (StError "Failed to start interview. Check API key or model choice.")
          | None =>
              emit (StError "Failed to start interview. Check API key or model choice.")
          end
      | None => pass
      end
    else
      emit (StWarning "Please enter your API Key and a Job Title in the sidebar.")
  else pass.

(** Drawing the chat history changes nothing, but it indexes
    [questions] by every position of [answers]. *)
Definition display_chat_history : M unit :=
  started <- read interview_started ;;
  if started then
    na <- read (fun s => length (answers s)) ;;
    nq <- read (fun s => length (questions s)) ;;
    if (nq <? na)%nat then raise "IndexError" else pass
  else pass.

(** The branch taken when the submitted answer is not the last one. *)
Definition ask_next_question : M (option string) :=
  c <- read ss_client ;;
  job <- read_job_title ;;
  mq <- read max_questions ;;
  qs <- read questions ;;
  as_ <- read answers ;;
  next_q <- generate_question E c job (sb_model_name sb) mq
              (sb_interview_type sb) qs as_ ;;
  (if truthy_opt next_q then
     match next_q with
     | Some q => update (fun s => set_questions (questions s ++ [q])%list s)
     | None => pass
     end
   else
     pop_answers ;;
     pop_feedback ;;
     emit next_question_error) ;;
  ret next_q.

(** The branch taken for the last question. *)
Definition finish_interview : M unit :=
  c <- read ss_client ;;
  job <- read_job_title ;;
  qs <- read questions ;;
  as_ <- read answers ;;
  ev <- evaluate_answers E c job (sb_model_name sb) qs as_ ;;
  match ev with
  | Some e =>
      if truthy e then
        update (set_evaluation e) ;;
        job' <- read_job_title ;;
        qs' <- read questions ;;
        as' <- read answers ;;
        fb <- read feedback ;;
        store_session E (sb_db_ref sb)
          (session_data_of (sb_user_name sb) job' (sb_model_name sb) e
             (isoformat (utcnow E)) qs' as' fb)
      else emit (StError "Failed to get final evaluation.")
  | None => emit (StError "Failed to get final evaluation.")
  end.

(** What follows the recording of the answer and of its feedback:
    the next question or the evaluation, then [st.rerun()] when the
    interview moved on. *)
Definition advance : M unit :=
  na <- read (fun s => length (answers s)) ;;
  mq <- read max_questions ;;
  next_q <- (if (Z.of_nat na <? mq)%Z then ask_next_question
             else finish_interview ;; ret None) ;;
  na' <- read (fun s => length (answers s)) ;;
  mq' <- read max_questions ;;
  if truthy_opt next_q || (Z.of_nat na' =? mq')%Z then st_rerun else pass.

(** The body of [if submit_button:]. *)
Definition on_submit (current_q_index : nat) (answer : string) : M unit :=
  if truthy (strip answer) then
    update (fun s => set_answers (answers s ++ [answer])%list s) ;;
    c <- read ss_client ;;
    q <- read (fun s => nth_error (questions s) current_q_index) ;;
    match q with
    | None => raise "IndexError"
    | Some question =>
        fb <- get_feedback_for_answer E c (sb_model_name sb) question answer ;;
        update (fun s => set_feedback (feedback s ++ [fb])%list s) ;;
        advance
    end
  else emit (StWarning "Please provide an answer.").

(** The interview in progress: the answer form is drawn only while a
    question waits for its answer. *)
Definition progress_block : M unit :=
  started <- read interview_started ;;
  ev <- read evaluation ;;
  if started && negb (truthy ev) then
    current_q_index <- read (fun s => length (answers s)) ;;
    nq <- read (fun s => length (questions s)) ;;
    if (current_q_index <? nq)%nat then
      match act with
      | SubmitAnswer answer => on_submit current_q_index answer
      | _ => pass
      end
    else pass
  else pass.

(** The final evaluation and the "Start a New Interview" button. *)
Definition completed_block : M unit :=
  ev <- read evaluation ;;
  if truthy ev then
    emit (StSuccess "Interview completed!") ;;
    if st_button (clicked_new act) false then
      clear_session ;; st_rerun
    else pass
  else pass.

Definition run_interview_app : M unit :=
  initialise ;;
  start_block ;;
  display_chat_history ;;
  progress_block ;;
  completed_block.

End Script.

(** One user action as the browser shows it: the run it triggers and,
    when that run ends in [st.rerun()], the run that follows at once
    with no widget used. *)
Definition interact (E : env) (sb : sidebar) (act : ui_action) : M unit :=
  fun w =>
    match run_interview_app E sb act w with
    | (Rerun, w') => run_interview_app E sb NoAction w'
    | r => r
    end.

(** The world in which the first run of a browser session starts. *)
Definition initial_world : world :=
  {| session_state := None; api_calls := 0; trace := [] |}.

(** The worlds the script can be in between two runs.  The sidebar may
    be edited before every run. *)
Inductive reachable (E : env) : world -> Prop :=
| reach_initial : reachable E initial_world
| reach_run (sb : sidebar) (act : ui_action) (w w' : world) (o : outcome unit) :
    reachable E w ->
    run_interview_app E sb act w = (o, w') ->
    reachable E w'.

(** ** The history page *)

(** The sort key of [show_interview_history]:
    [item[1].get("timestamp", "")].  The stored records of this program
    carry a string there; another kind of value is not ordered by the
    model ([None]). *)
Definition timestamp_key (item : string * json) : option string :=
  match snd item with
  | JObj fields =>
      match dict_get fields "timestamp" with
      | None => Some ""
      | Some (JStr t) => Some t
      | Some _ => None
      end
  | _ => None
  end.

Section SortedReverse.

Context {A : Type}.
Variable key : A -> string.

(** [x] comes from an earlier position than everything in [l]; among
    equal keys the earlier element stays in front, as Python's stable
    sort with [reverse=True] keeps it. *)
Fixpoint insert_reverse (x : A) (l : list A) : list A :=
  match l with
  | [] => [x]
  | y :: r =>
      if String.leb (key y) (key x) then x :: l
      else y :: insert_reverse x r
  end.

(** [sorted(l, key=key, reverse=True)] on string keys, which Python
    compares code point by code point. *)
Fixpoint sorted_reverse (l : list A) : list A :=
  match l with
  | [] => []
  | x :: r => insert_reverse x (sorted_reverse r)
  end.

End SortedReverse.

(** All the keys, when every one of them is a string. *)
Fixpoint keyed (items : list (string * json))
  : option (list (string * (string * json))) :=
  match items with
  | [] => Some []
  | it :: r =>
      match timestamp_key it, keyed r with
      | Some k, Some r' => Some ((k, it) :: r')
      | _, _ => None
      end
  end.

(** The local [sorted_interviews] of [show_interview_history], from
    [interviews.items()]. *)
Definition sorted_interviews (interviews : list (string * json))
  : option (list (string * json)) :=
  match keyed interviews with
  | Some l => Some (map snd (sorted_reverse fst l))
  | None => None
  end.

(** The key of an item whose time stamp is a string or missing. *)
Definition key_of (item : string * json) : string :=
  match timestamp_key item with Some k => k | None => "" end.

(** ** Vocabulary of the specification, read off the script's guards *)

Inductive phase := NotStarted | InProgress | Completed.

(** The script draws the answer form under
    [interview_started and not evaluation] and the final evaluation
    under [evaluation]. *)
Definition phase_of (s : session) : phase :=
  if truthy (evaluation s) then Completed
  else if interview_started s then InProgress
  else NotStarted.

(** The session once an answer and the feedback obtained for it are
    recorded. *)
Definition recorded (answer : string) (fb : option string) (s : session)
  : session :=
  set_feedback (feedback s ++ [fb])%list
    (set_answers (answers s ++ [answer])%list s).

(** How the run ends once the evaluation was requested: the script
    calls [st.rerun()] under [len(answers) == max_questions]. *)
Definition after_evaluation (s : session) : outcome unit :=
  if (Z.of_nat (length (answers s)) =? max_questions s)%Z then Rerun
  else Done tt.

(** The session as the Start button leaves it before the first question
    is requested. *)
Definition reset_for_start (cl : client) (sb : sidebar) (s : session) : session :=
  set_max_questions (sb_max_questions sb)
    (set_job_title (Some (sb_job_title sb))
       (set_client (Some cl)
          (set_evaluation ""
             (set_feedback [] (set_answers [] (set_questions [] s)))))).

(** A question is asked and not answered yet: the answer form is drawn. *)
Definition pending (s : session) : bool :=
  (length (answers s) <? length (questions s))%nat.

(** The shape of the transcript between two runs: one feedback entry
    per answer, and at most one question waiting for its answer. *)
Definition session_inv (s : session) : Prop :=
  length (feedback s) = length (answers s)
  /\ (length (answers s) <= length (questions s) <= length (answers s) + 1)%nat.

Definition world_inv (w : world) : Prop :=
  forall s, session_state w = Some s -> session_inv s.

(** A piece of script that keeps the transcript in shape however it ends. *)
Definition keeps {A} (m : M A) : Prop :=
  forall w o w', world_inv w -> m w = (o, w') -> world_inv w'.

(** A request for text failed: the call raised, or the text is empty
    once stripped, which the script's [if question:] and
    [if evaluation:] cannot tell from [None]. *)
Definition request_failed (r : api_result) : bool :=
  match r with
  | Reply content => negb (truthy (strip content))
  | _ => true
  end.

(** The text a helper returns for a provider result. *)
Definition text_of (r : api_result) : option string :=
  match r with Reply content => Some (strip content) | _ => None end.

(** The call raised. *)
Definition raised (r : api_result) : bool :=
  match r with Reply _ => false | _ => true end.

(** The requests sent to the provider, in order. *)
Fixpoint api_requests (tr : list effect) : list request :=
  match tr with
  | [] => []
  | ApiCall _ r :: tr' => r :: api_requests tr'
  | _ :: tr' => api_requests tr'
  end.

(** The records handed to [store_session], in order. *)
Fixpoint stored_records (tr : list effect) : list json :=
  match tr with
  | [] => []
  | StoreSession d :: tr' => d :: stored_records tr'
  | _ :: tr' => stored_records tr'
  end.

(** A stretch of trace with messages only: no request to the provider
    and no record handed to the store. *)
Definition quiet (tr : list effect) : Prop :=
  api_requests tr = [] /\ stored_records tr = [].

Definition is_digit (c : ascii) : bool :=
  let n := nat_of_ascii c in ((48 <=? n) && (n <=? 57))%nat.

(** Does the string start with [n] digits?  What follows them. *)
Fixpoint digits (n : nat) (s : string) : option string :=
  match n, s with
  | O, _ => Some s
  | S n', String c r => if is_digit c then digits n' r else None
  | S _, EmptyString => None
  end.

Definition literal (c : string) (s : string) : option string :=
  match c, s with
  | String a EmptyString, String b r => if Ascii.eqb a b then Some r else None
  | _, _ => None
  end.

Definition and_then {A B} (o : option A) (f : A -> option B) : option B :=
  match o with Some a => f a | None => None end.

(** The shape of the time stamps this program writes:
    [YYYY-MM-DDTHH:MM:SS], optionally followed by [.ffffff]. *)
Definition iso_shaped (s : string) : bool :=
  match
    and_then (digits 4 s) (fun s =>
    and_then (literal "-" s) (fun s =>
    and_then (digits 2 s) (fun s =>
    and_then (literal "-" s) (fun s =>
    and_then (digits 2 s) (fun s =>
    and_then (literal "T" s) (fun s =>
    and_then (digits 2 s) (fun s =>
    and_then (literal ":" s) (fun s =>
    and_then (digits 2 s) (fun s =>
    and_then (literal ":" s) (fun s =>
    digits 2 s))))))))))
  with
  | Some "" => true
  | Some rest =>
      match and_then (literal "." rest) (digits 6) with
      | Some "" => true
      | _ => false
      end
  | None => false
  end.

(** What the specification says of the history order: a record whose
    time stamp is missing or malformed is followed by such records only. *)
Definition malformed_last (l : list (string * json)) : Prop :=
  forall l1 x l2,
    l = (l1 ++ x :: l2)%list ->
    iso_shaped (key_of x) = false ->
    forall y, In y l2 -> iso_shaped (key_of y) = false.

(** What the sort gives: a record without a time stamp is followed by
    such records only. *)
Definition missing_last (l : list (string * json)) : Prop :=
  forall l1 x l2,
    l = (l1 ++ x :: l2)%list ->
    key_of x = "" ->
    forall y, In y l2 -> key_of y = "".

(** Newest first, on the raw strings. *)
Definition newer_or_equal (x y : string * json) : Prop :=
  String.leb (key_of y) (key_of x) = true.

(** The fields the specification lists for a stored record. *)
Definition spec_fields : list string :=
  ["participant"; "job_title"; "questions"; "answers"; "feedback";
   "evaluation"; "model"; "timestamp"].

(** The fields the script writes. *)
Definition code_fields : list string :=
  ["user"; "job_title"; "questions"; "answers"; "feedback";
   "evaluation"; "model"; "timestamp"].

Definition has_exactly_fields (names : list string) (d : json) : Prop :=
  exists fields,
    d = JObj fields /\ forall k, In k (dict_keys fields) <-> In k names.

(** ** A sample run *)

Module Sample.

Definition sb1 : sidebar :=
  {| sb_db_ref := Some Interviews; sb_api_key := "sk-test";
     sb_model_name := "z-ai/glm-4.5-air"; sb_max_questions := 1;
     sb_user_name := ""; sb_job_title := "Backend Engineer";
     sb_interview_type := "Technical" |}.

Definition sb2 : sidebar :=
  {| sb_db_ref := None; sb_api_key := "sk-test";
     sb_model_name := "z-ai/glm-4.5-air"; sb_max_questions := 2;
     sb_user_name := "Ada"; sb_job_title := "Backend Engineer";
     sb_interview_type := "General" |}.

Definition noon : datetime :=
  {| year := 2024; month := 5; day := 7; hour := 12; minute := 0;
     second := 9; microsecond := 0 |}.

(** A provider that answers from a script, one entry per call, and
    raises once the script is used up. *)
Definition scripted (l : list api_result) : env :=
  {| provider := fun n _ _ => nth n l (OtherException "connection lost");
     OpenAI_raises := fun _ => None;
     utcnow := noon;
     push_raises := fun _ => None |}.

(** One question; the evaluation request raises. *)
Definition E_eval_fails : env := scripted [Reply "Q1"; Reply "F1"].

(** One question; every request succeeds. *)
Definition E_ok : env := scripted [Reply "Q1"; Reply "F1"; Reply " Good. "].

(** Two questions; the feedback request raises, the rest succeeds. *)
Definition E_no_feedback : env :=
  scripted [Reply "Q1"; RateLimitError; Reply "Q2"].

(** Two questions; the request for the second one raises. *)
Definition E_next_fails : env := scripted [Reply "Q1"; Reply "F1"; RateLimitError].

(** The first question comes back as blanks. *)
Definition E_blank : env := scripted [Reply "   "].

Definition after (E : env) (sb : sidebar) (acts : list ui_action) : world :=
  fold_left (fun w a => snd (interact E sb a w)) acts initial_world.

Definition started_session (max : Z) : session :=
  {| interview_started := true; questions := ["Q1"]; answers := [];
     evaluation := "";
     ss_client := Some {| api_key := "sk-test"; base_url := OPENROUTER_URL |};
     max_questions := max; feedback := [];
     job_title := Some "Backend Engineer" |}.

Definition started_world (max : Z) : world :=
  {| session_state := Some (started_session max); api_calls := 1; trace := [] |}.

Definition stored : list (string * json) :=
  [("-a", JObj [("job_title", JStr "A"); ("timestamp", JStr "2024-05-07T12:00:09")]);
   ("-b", JObj [("job_title", JStr "B"); ("timestamp", JStr "not a date")]);
   ("-c", JObj [("job_title", JStr "C")])].

End Sample.

(** ** Further vocabulary *)



(** The records written to the database, in order. *)
Fixpoint pushed_records (tr : list effect) : list json :=
  match tr with
  | [] => []
  | DbPush d :: tr' => d :: pushed_records tr'
  | _ :: tr' => pushed_records tr'
  end.

(** The session right after a successful Start. *)
Definition started_with (q : string) (cl : client) (sb : sidebar) (s : session)
  : session :=
  set_interview_started true
    (set_questions [q] (reset_for_start cl sb s)).

(** What else holds of a session between two runs: a started interview
    has its job title, its client and a first question; no question is
    empty and no answer is blank; an evaluation is only present once
    every question is answered. *)
Definition session_ok (s : session) : Prop :=
  (interview_started s = true ->
   job_title s <> None /\ ss_client s <> None /\ questions s <> [])
  /\ Forall (fun q => truthy q = true) (questions s)
  /\ Forall (fun a => blank a = false) (answers s)
  /\ (truthy (evaluation s) = true ->
      interview_started s = true /\ length (answers s) = length (questions s)).

(** Between two runs: the session, when there is one, is in shape. *)
Definition good (w : world) : Prop :=
  forall s, session_state w = Some s -> session_inv s /\ session_ok s.

(** Within a run, once initialised: there is a session and it is in
    shape. *)
Definition live (w : world) : Prop :=
  exists s, session_state w = Some s /\ session_inv s /\ session_ok s.

(** A piece of script that, started within a run, never ends in an
    exception, leaves a session in shape, and leaves one to the rest of
    the run when it ends normally. *)
Definition safe {A} (m : M A) : Prop :=
  forall w o w',
    live w -> m w = (o, w') ->
    (forall e, o <> Raised e) /\ good w' /\ (forall a, o = Done a -> live w').

(** A provider that answers every request with a text that is not blank. *)
Definition always_replies (E : env) : Prop :=
  forall n c r, exists t, provider E n c r = Reply t /\ blank t = false.

(** The world after Start and the answers [done], on the way to a
    target that is not reached yet. *)
Definition underway (sb : sidebar) (done : list string) (w : world) : Prop :=
  exists s,
    session_state w = Some s
    /\ phase_of s = InProgress
    /\ ss_client s = Some {| api_key := sb_api_key sb; base_url := OPENROUTER_URL |}
    /\ job_title s = Some (sb_job_title sb)
    /\ max_questions s = sb_max_questions sb
    /\ answers s = done
    /\ length (questions s) = S (length done)
    /\ length (feedback s) = length done
    /\ stored_records (trace w) = []
    /\ api_calls w = S (2 * length done).

(** The world of a completed interview with the answers [all]. *)
Definition finished (all : list string) (w : world) : Prop :=
  exists s d,
    session_state w = Some s
    /\ phase_of s = Completed
    /\ answers s = all
    /\ length (questions s) = length all
    /\ length (feedback s) = length all
    /\ stored_records (trace w) = [d]
    /\ api_calls w = S (2 * length all).

(** The run ended in an exception nobody caught. *)
Definition ended_in_exception {A} (o : outcome A) : bool :=
  match o with Raised _ => true | _ => false end.

(** The number of requests sent to the provider so far. *)
Definition requests_sent (w : world) : nat := length (api_requests (trace w)).

(** A piece of script that sends at most [k] requests, however it ends. *)
Definition sends_at_most {A} (k : nat) (m : M A) : Prop :=
  forall w o w',
    m w = (o, w') ->
    requests_sent w <= requests_sent w' <= requests_sent w + k.

(** The requests an action may cost: one for Start, two for an answer. *)
Definition request_budget (act : ui_action) : nat :=
  match act with
  | ClickStartInterview => 1
  | SubmitAnswer _ => 2
  | NoAction | ClickNewInterview => 0
  end.

(** ** The chat drawn by the script *)

(** One chat message: the interviewer's, the user's, or the coach's (the
    assistant message with the teacher avatar). *)
Inductive chat_item :=
| AssistantSays (text : string)
| UserSays (text : string)
| CoachSays (text : string).

(** The feedback drawn for turn [i]:
    [if i < len(feedback) and feedback[i]]. *)
Definition coach_row (fb : list (option string)) (i : nat) : list chat_item :=
  match nth_error fb i with
  | Some (Some f) => if truthy f then [CoachSays f] else []
  | _ => []
  end.

(** The loop [for i in range(len(answers))] from turn [i] on, over the
    answers still to draw; [None] when [questions[i]] is out of range. *)
Fixpoint chat_rows (qs : list string) (fb : list (option string)) (i : nat)
    (rest : list string) : option (list chat_item) :=
  match rest with
  | [] => Some []
  | a :: rest' =>
      match nth_error qs i with
      | None => None
      | Some q =>
          match chat_rows qs fb (S i) rest' with
          | Some l => Some (AssistantSays q :: UserSays a :: coach_row fb i ++ l)%list
          | None => None
          end
      end
  end.

(** What the block under [if st.session_state.interview_started:] draws:
    the turns, then the last question when it waits for its answer. *)
Definition chat_history (s : session) : option (list chat_item) :=
  if interview_started s then
    match chat_rows (questions s) (feedback s) 0 (answers s) with
    | Some l =>
        Some (l ++ (if (length (answers s) <? length (questions s))%nat
                    then [AssistantSays (last (questions s) "")]
                    else []))%list
    | None => None
    end
  else Some [].

Fixpoint asked (l : list chat_item) : list string :=
  match l with
  | [] => []
  | AssistantSays q :: r => q :: asked r
  | _ :: r => asked r
  end.

Fixpoint replied (l : list chat_item) : list string :=
  match l with
  | [] => []
  | UserSays a :: r => a :: replied r
  | _ :: r => replied r
  end.

Fixpoint coached (l : list chat_item) : list string :=
  match l with
  | [] => []
  | CoachSays f :: r => f :: coached r
  | _ :: r => coached r
  end.

(** The feedback entries that are drawn: the present, non-empty ones. *)
Definition drawn_feedback (fb : list (option string)) : list string :=
  flat_map (fun o => match o with
                     | Some f => if truthy f then [f] else []
                     | None => []
                     end) fb.


(** ** The transcript drawn on the history page *)

(** One element of the transcript of a stored record. *)
Inductive transcript_item :=
| TQuestion (markdown : string)
| TAnswer (markdown : string)
| TFeedback (markdown : string)
| TDivider.

(** The loop [for i in range(len(questions))] of
    [show_interview_history], from turn [i] on, over the questions still
    to draw. *)
Fixpoint history_rows (answers_ : list string) (feedback_list : list (option string))
    (i : nat) (rest : list string) : list transcript_item :=
  match rest with
  | [] => []
  | q :: rest' =>
      (TQuestion ("**Q:** " ++ q)
       :: match nth_error answers_ i with
          | Some a => [TAnswer ("**A:** " ++ a)]
          | None => []
          end
       ++ match nth_error feedback_list i with
          | Some (Some f) =>
              if truthy f then [TFeedback ("**Feedback:** " ++ f)] else []
          | _ => []
          end
       ++ TDivider :: history_rows answers_ feedback_list (S i) rest')%list
  end.

Definition history_transcript (questions_ answers_ : list string)
    (feedback_list : list (option string)) : list transcript_item :=
  history_rows answers_ feedback_list 0 questions_.

Fixpoint shown_questions (l : list transcript_item) : list string :=
  match l with
  | [] => []
  | TQuestion m :: r => m :: shown_questions r
  | _ :: r => shown_questions r
  end.

Fixpoint shown_answers (l : list transcript_item) : list string :=
  match l with
  | [] => []
  | TAnswer m :: r => m :: shown_answers r
  | _ :: r => shown_answers r
  end.

Fixpoint shown_feedback (l : list transcript_item) : list string :=
  match l with
  | [] => []
  | TFeedback m :: r => m :: shown_feedback r
  | _ :: r => shown_feedback r
  end.

Fixpoint dividers (l : list transcript_item) : nat :=
  match l with
  | [] => 0
  | TDivider :: r => S (dividers r)
  | _ :: r => dividers r
  end.

(** * Properties *)

(** ** Strings *)

Lemma lstrip_blank (s : string) : blank s = true -> lstrip s = "".
Proof.
  induction s as [|c r IH]; simpl; [reflexivity|].
  destruct (isspace c); simpl; [exact IH | discriminate].
Qed.

(** [answer.strip()] is true exactly when the answer is not blank. *)
Lemma truthy_strip (s : string) : truthy (strip s) = negb (blank s).
Proof.
  unfold strip.
  induction s as [|c r IH]; simpl; [reflexivity|].
  destruct (isspace c) eqn:Hc; simpl; [exact IH|].
  destruct (rstrip r); [rewrite Hc|]; reflexivity.
Qed.

Lemma strip_blank (s : string) : blank s = true <-> strip s = "".
Proof.
  pose proof (truthy_strip s) as H.
  destruct (strip s), (blank s); simpl in H; split; congruence.
Qed.

(** ** Lists *)

Lemma pop_app {A} (l : list A) (x : A) : pop (l ++ [x])%list = Some l.
Proof.
  unfold pop. destruct (l ++ [x])%list eqn:H.
  - destruct l; discriminate.
  - rewrite <- H, removelast_last. reflexivity.
Qed.

Lemma nth_error_pending {A} (l : list A) (n : nat) :
  (n <? length l)%nat = true -> exists x, nth_error l n = Some x.
Proof.
  intros H. apply Nat.ltb_lt in H.
  destruct (nth_error l n) eqn:Hn; [eauto|].
  apply nth_error_None in Hn. lia.
Qed.

Lemma phase_in_progress (s : session) :
  phase_of s = InProgress ->
  interview_started s = true /\ evaluation s = "".
Proof.
  unfold phase_of.
  destruct (evaluation s); simpl; [|discriminate].
  destruct (interview_started s); [auto | discriminate].
Qed.

(** ** Running the helpers *)

#[local] Arguments String.append : simpl never.
#[local] Arguments strip : simpl never.
#[local] Arguments question_request : simpl never.
#[local] Arguments feedback_request : simpl never.
#[local] Arguments evaluation_request : simpl never.
#[local] Arguments session_data_of : simpl never.
#[local] Arguments isoformat : simpl never.
#[local] Arguments Z.of_nat : simpl never.
#[local] Arguments Z.ltb : simpl never.
#[local] Arguments Z.eqb : simpl never.
#[local] Arguments Nat.ltb : simpl never.

Lemma request_failed_text (r : api_result) :
  request_failed r = negb (truthy_opt (text_of r)).
Proof. destruct r; reflexivity. Qed.

Lemma api_requests_app (l1 l2 : list effect) :
  api_requests (l1 ++ l2)%list = (api_requests l1 ++ api_requests l2)%list.
Proof.
  induction l1 as [|e l1 IH]; simpl; [reflexivity|].
  destruct e; simpl; rewrite IH; reflexivity.
Qed.

Lemma stored_records_app (l1 l2 : list effect) :
  stored_records (l1 ++ l2)%list = (stored_records l1 ++ stored_records l2)%list.
Proof.
  induction l1 as [|e l1 IH]; simpl; [reflexivity|].
  destruct e; simpl; rewrite IH; reflexivity.
Qed.

Lemma quiet_app (l1 l2 : list effect) : quiet l1 -> quiet l2 -> quiet (l1 ++ l2).
Proof.
  unfold quiet. intros [H1 H2] [H3 H4].
  rewrite api_requests_app, stored_records_app, H1, H2, H3, H4. auto.
Qed.

Lemma bind_Done {A B} (m : M A) (k : A -> M B) (w w' : world) (a : A) :
  m w = (Done a, w') -> bind m k w = k a w'.
Proof. unfold bind. intros ->. reflexivity. Qed.

Section Helpers.

Variable E : env.
Variables (c : client) (s : session) (n : nat) (tr : list effect).

Let w0 : world := {| session_state := Some s; api_calls := n; trace := tr |}.

Lemma generate_question_run job model_name max it qs as_ :
  let req := question_request job model_name max it qs as_ in
  exists l,
    generate_question E (Some c) job model_name max it qs as_ w0
    = (Done (text_of (provider E n c req)),
       {| session_state := Some s; api_calls := S n;
          trace := (tr ++ ApiCall c req :: l)%list |})
    /\ quiet l
    /\ (truthy_opt (text_of (provider E n c req)) = true -> l = []).
Proof.
  intros req. unfold generate_question, chat_completions_create, bind, w0.
  simpl. fold req.
  destruct (provider E n c req); simpl; unfold emit_in; simpl;
    rewrite <- ?app_assoc; simpl;
    eexists; (split; [reflexivity | split; [split; reflexivity|]]);
    intros; try discriminate; reflexivity.
Qed.

Lemma get_feedback_run model_name q a :
  let req := feedback_request model_name q a in
  exists l,
    get_feedback_for_answer E (Some c) model_name q a w0
    = (Done (text_of (provider E n c req)),
       {| session_state := Some s; api_calls := S n;
          trace := (tr ++ ApiCall c req :: l)%list |})
    /\ quiet l.
Proof.
  intros req. unfold get_feedback_for_answer, chat_completions_create, bind, w0.
  simpl. fold req.
  destruct (provider E n c req); simpl; unfold emit_in; simpl;
    rewrite <- ?app_assoc; simpl;
    eexists; (split; [reflexivity | split; reflexivity]).
Qed.

Lemma evaluate_answers_run job model_name qs as_ :
  let req := evaluation_request job model_name qs as_ in
  exists l,
    evaluate_answers E (Some c) job model_name qs as_ w0
    = (Done (text_of (provider E n c req)),
       {| session_state := Some s; api_calls := S n;
          trace := (tr ++ ApiCall c req :: l)%list |})
    /\ quiet l.
Proof.
  intros req. unfold evaluate_answers, chat_completions_create, bind, w0.
  simpl. fold req.
  destruct (provider E n c req); simpl; unfold emit_in; simpl;
    rewrite <- ?app_assoc; simpl;
    eexists; (split; [reflexivity | split; reflexivity]).
Qed.

End Helpers.

(** ** Stepping through a run *)

Lemma bind_assoc {A B C} (m : M A) (f : A -> M B) (g : B -> M C) (w : world) :
  bind (bind m f) g w = bind m (fun a => bind (f a) g) w.
Proof. unfold bind. destruct (m w) as [[a| |e] w']; reflexivity. Qed.

Ltac step :=
  cbv beta;
  rewrite ?bind_assoc;
  lazymatch goal with
  | |- bind ?m ?k ?w = _ =>
      erewrite (bind_Done m k w) by (simpl; reflexivity);
      cbv beta;
      unfold with_session, emit_in, count_call;
      cbn [session_state api_calls trace]
  end.


Ltac norm :=
  unfold emit, ret, pass;
  unfold with_session, emit_in, count_call;
  cbn [session_state api_calls trace];
  rewrite <- ?app_assoc; cbn [app].

(** ** The blocks of the script *)

Section Blocks.
Variables (E : env) (sb : sidebar).
Variables (s : session) (n : nat) (tr : list effect).
Let w0 : world := {| session_state := Some s; api_calls := n; trace := tr |}.

Lemma display_ok :
  (length (answers s) <= length (questions s))%nat ->
  display_chat_history w0 = (Done tt, w0).
Proof.
  intros H. apply Nat.ltb_ge in H.
  unfold display_chat_history, w0. step.
  destruct (interview_started s); [|reflexivity].
  step. step. rewrite H. reflexivity.
Qed.

Lemma progress_submit a :
  phase_of s = InProgress -> pending s = true ->
  progress_block E sb (SubmitAnswer a) w0
  = on_submit E sb (length (answers s)) a w0.
Proof.
  intros Hph Hp. apply phase_in_progress in Hph. destruct Hph as [Hst Hev].
  unfold progress_block, w0. step. step. rewrite Hst, Hev. simpl.
  step. step. unfold pending in Hp. rewrite Hp. reflexivity.
Qed.

Lemma completed_idle act :
  evaluation s = "" -> completed_block act w0 = (Done tt, w0).
Proof.
  intros Hev. unfold completed_block, w0. step. rewrite Hev. reflexivity.
Qed.

Lemma run_submit a :
  phase_of s = InProgress -> pending s = true ->
  run_interview_app E sb (SubmitAnswer a) w0
  = bind (on_submit E sb (length (answers s)) a)
      (fun _ => completed_block (SubmitAnswer a)) w0.
Proof.
  intros Hph Hp.
  unfold run_interview_app, w0. step. step.
  erewrite bind_Done.
  2:{ apply display_ok. unfold pending in Hp. apply Nat.ltb_lt in Hp. lia. }
  unfold bind. rewrite progress_submit by assumption. reflexivity.
Qed.

Lemma on_submit_blank a :
  blank a = true ->
  on_submit E sb (length (answers s)) a w0
  = (Done tt, {| session_state := Some s; api_calls := n;
                 trace := (tr ++ [StWarning "Please provide an answer."])%list |}).
Proof.
  intros Hb. unfold on_submit. rewrite truthy_strip, Hb. reflexivity.
Qed.

Lemma on_submit_feedback a q c :
  blank a = false ->
  nth_error (questions s) (length (answers s)) = Some q ->
  ss_client s = Some c ->
  let r := provider E n c (feedback_request (sb_model_name sb) q a) in
  exists l,
    quiet l /\
    on_submit E sb (length (answers s)) a w0
    = advance E sb
        {| session_state := Some (recorded a (text_of r) s);
           api_calls := S n;
           trace := (tr ++ ApiCall c (feedback_request (sb_model_name sb) q a) :: l)%list |}.
Proof.
  intros Hb Hq Hc r.
  destruct (get_feedback_run E c (set_answers (answers s ++ [a]) s) n tr
              (sb_model_name sb) q a) as (l & Hrun & Hl).
  exists l. split; [exact Hl|].
  unfold on_submit, w0. rewrite truthy_strip, Hb. cbn [negb].
  step. step. step. cbn [questions ss_client set_answers]. rewrite Hq, Hc.
  erewrite bind_Done by (exact Hrun). step. reflexivity.
Qed.

End Blocks.

(** ** After the answer is recorded *)

Section Advance.
Variables (E : env) (sb : sidebar).
Variables (s : session) (n : nat) (tr : list effect).
Variables (c : client) (jt : string).
Hypothesis Hc : ss_client s = Some c.
Hypothesis Hj : job_title s = Some jt.

Let w1 : world := {| session_state := Some s; api_calls := n; trace := tr |}.
Let qreq : request :=
  question_request jt (sb_model_name sb) (max_questions s)
    (sb_interview_type sb) (questions s) (answers s).
Let ereq : request :=
  evaluation_request jt (sb_model_name sb) (questions s) (answers s).

Lemma read_job_title_run : read_job_title w1 = (Done jt, w1).
Proof. unfold read_job_title, w1. step. rewrite Hj. reflexivity. Qed.

Lemma ask_next_failed as_ a fb f :
  answers s = (as_ ++ [a])%list -> feedback s = (fb ++ [f])%list ->
  request_failed (provider E n c qreq) = true ->
  exists l,
    ask_next_question E sb w1
    = (Done (text_of (provider E n c qreq)),
       {| session_state := Some (set_feedback fb (set_answers as_ s));
          api_calls := S n;
          trace := (tr ++ ApiCall c qreq :: l)%list |})
    /\ quiet l /\ In next_question_error l.
Proof.
  intros Ha Hf Hfail. rewrite request_failed_text in Hfail.
  apply negb_true_iff in Hfail.
  destruct (generate_question_run E c s n tr jt (sb_model_name sb)
              (max_questions s) (sb_interview_type sb) (questions s) (answers s))
    as (l & Hrun & Hl & _).
  exists (l ++ [next_question_error])%list. split; [|split].
  - unfold ask_next_question. fold w1. step. rewrite Hc.
    erewrite bind_Done by (apply read_job_title_run).
    unfold w1. step. step. step.
    erewrite bind_Done by (exact Hrun). cbv beta.
    fold qreq. rewrite Hfail.
    unfold pop_answers, pop_feedback. step.
    rewrite Ha, pop_app. step. step. cbn [feedback set_answers].
    rewrite Hf, pop_app. step. step. norm. reflexivity.
  - apply quiet_app; [exact Hl | split; reflexivity].
  - apply in_or_app. right. left. reflexivity.
Qed.

Lemma ask_next_ok q :
  text_of (provider E n c qreq) = Some q -> truthy q = true ->
  ask_next_question E sb w1
  = (Done (Some q),
     {| session_state := Some (set_questions (questions s ++ [q]) s);
        api_calls := S n;
        trace := (tr ++ [ApiCall c qreq])%list |}).
Proof.
  intros Hq Ht.
  destruct (generate_question_run E c s n tr jt (sb_model_name sb)
              (max_questions s) (sb_interview_type sb) (questions s) (answers s))
    as (l & Hrun & _ & Hl).
  fold qreq in Hrun, Hl. rewrite Hq in Hrun, Hl. specialize (Hl Ht). subst l.
  unfold ask_next_question. fold w1. step. rewrite Hc.
  erewrite bind_Done by (apply read_job_title_run).
  unfold w1. step. step. step.
  erewrite bind_Done by (exact Hrun). cbv beta.
  cbn [truthy_opt]. rewrite Ht. step. reflexivity.
Qed.

Lemma finish_failed :
  request_failed (provider E n c ereq) = true ->
  exists l,
    finish_interview E sb w1
    = (Done tt,
       {| session_state := Some s; api_calls := S n;
          trace := (tr ++ ApiCall c ereq :: l)%list |})
    /\ quiet l /\ In (StError "Failed to get final evaluation.") l.
Proof.
  intros Hfail.
  destruct (evaluate_answers_run E c s n tr jt (sb_model_name sb)
              (questions s) (answers s)) as (l & Hrun & Hl).
  fold ereq in Hrun.
  exists (l ++ [StError "Failed to get final evaluation."])%list.
  split; [|split].
  - unfold finish_interview. fold w1. step. rewrite Hc.
    erewrite bind_Done by (apply read_job_title_run).
    unfold w1. step. step.
    erewrite bind_Done by (exact Hrun). cbv beta.
    unfold request_failed in Hfail.
    destruct (provider E n c ereq) as [t| | |]; cbn [text_of];
      try (norm; reflexivity).
    apply negb_true_iff in Hfail. rewrite Hfail. norm. reflexivity.
  - apply quiet_app; [exact Hl | split; reflexivity].
  - apply in_or_app. right. left. reflexivity.
Qed.

Lemma store_session_run db d (s' : session) (n' : nat) (tr' : list effect) :
  exists l,
    store_session E db d
      {| session_state := Some s'; api_calls := n'; trace := tr' |}
    = (Done tt, {| session_state := Some s'; api_calls := n';
                   trace := (tr' ++ StoreSession d :: l)%list |})
    /\ quiet l.
Proof.
  unfold store_session. destruct db as [r|].
  - destruct (push_raises E d) eqn:Hp.
    + eexists. split; [step; norm; reflexivity | split; reflexivity].
    + eexists. split; [step; step; norm; reflexivity | split; reflexivity].
  - eexists. split; [step; norm; reflexivity | split; reflexivity].
Qed.

Lemma finish_ok e :
  text_of (provider E n c ereq) = Some e -> truthy e = true ->
  exists l,
    finish_interview E sb w1
    = (Done tt,
       {| session_state := Some (set_evaluation e s); api_calls := S n;
          trace := (tr ++ ApiCall c ereq :: l)%list |})
    /\ api_requests l = []
    /\ stored_records l
       = [session_data_of (sb_user_name sb) jt (sb_model_name sb) e
            (isoformat (utcnow E)) (questions s) (answers s) (feedback s)].
Proof.
  intros He Ht.
  destruct (evaluate_answers_run E c s n tr jt (sb_model_name sb)
              (questions s) (answers s)) as (l & Hrun & Hl1 & Hl2).
  fold ereq in Hrun. rewrite He in Hrun.
  set (d := session_data_of (sb_user_name sb) jt (sb_model_name sb) e
              (isoformat (utcnow E)) (questions s) (answers s) (feedback s)).
  destruct (store_session_run (sb_db_ref sb) d (set_evaluation e s) (S n)
              (tr ++ ApiCall c ereq :: l)) as (l' & Hst & Hq1 & Hq2).
  exists (l ++ StoreSession d :: l')%list. split; [|split].
  - unfold finish_interview. fold w1. step. rewrite Hc.
    erewrite bind_Done by (apply read_job_title_run).
    unfold w1. step. step.
    erewrite bind_Done by (exact Hrun). cbv beta iota.
    rewrite Ht. step.
    unfold read_job_title. step. cbn [job_title set_evaluation].
    rewrite Hj. step. step. step. step.
    cbn [questions answers feedback set_evaluation]. fold d.
    rewrite Hst. rewrite <- app_assoc. reflexivity.
  - rewrite api_requests_app. cbn [api_requests]. rewrite Hl1, Hq1. reflexivity.
  - rewrite stored_records_app. cbn [stored_records]. rewrite Hl2, Hq2. reflexivity.
Qed.

(** The four ways [advance] can go. *)

Lemma advance_rollback as_ a fb f :
  answers s = (as_ ++ [a])%list -> feedback s = (fb ++ [f])%list ->
  (Z.of_nat (length (answers s)) < max_questions s)%Z ->
  request_failed (provider E n c qreq) = true ->
  exists l,
    advance E sb w1
    = (Done tt,
       {| session_state := Some (set_feedback fb (set_answers as_ s));
          api_calls := S n;
          trace := (tr ++ ApiCall c qreq :: l)%list |})
    /\ quiet l /\ In next_question_error l.
Proof.
  intros Ha Hf Hlt Hfail.
  destruct (ask_next_failed as_ a fb f Ha Hf Hfail) as (l & Hrun & Hl & Hin).
  exists l. split; [|auto].
  unfold advance. fold w1. unfold w1. step. step.
  apply Z.ltb_lt in Hlt. rewrite Hlt.
  erewrite bind_Done by (exact Hrun). step. step.
  rewrite request_failed_text in Hfail. apply negb_true_iff in Hfail.
  fold qreq. rewrite Hfail.
  cbn [answers max_questions set_feedback set_answers orb].
  replace (Z.of_nat (length as_) =? max_questions s)%Z with false; [reflexivity|].
  symmetry. apply Z.eqb_neq. apply Z.ltb_lt in Hlt.
  rewrite Ha, length_app in Hlt. simpl length in Hlt. lia.
Qed.

Lemma advance_next q :
  (Z.of_nat (length (answers s)) < max_questions s)%Z ->
  text_of (provider E n c qreq) = Some q -> truthy q = true ->
  advance E sb w1
  = (Rerun,
     {| session_state := Some (set_questions (questions s ++ [q]) s);
        api_calls := S n;
        trace := (tr ++ [ApiCall c qreq])%list |}).
Proof.
  intros Hlt Hq Ht.
  unfold advance. fold w1. unfold w1. step. step.
  apply Z.ltb_lt in Hlt. rewrite Hlt.
  erewrite bind_Done by (apply ask_next_ok; eassumption).
  step. step. cbn [truthy_opt]. rewrite Ht. reflexivity.
Qed.

Lemma advance_evaluation_failed :
  (max_questions s <= Z.of_nat (length (answers s)))%Z ->
  request_failed (provider E n c ereq) = true ->
  exists l,
    advance E sb w1
    = (after_evaluation s,
       {| session_state := Some s; api_calls := S n;
          trace := (tr ++ ApiCall c ereq :: l)%list |})
    /\ quiet l /\ In (StError "Failed to get final evaluation.") l.
Proof.
  intros Hge Hfail.
  destruct (finish_failed Hfail) as (l & Hrun & Hl & Hin).
  exists l. split; [|auto].
  unfold advance. fold w1. unfold w1. step. step.
  replace (Z.of_nat (length (answers s)) <? max_questions s)%Z with false
    by (symmetry; apply Z.ltb_ge; exact Hge).
  cbv iota. rewrite bind_assoc.
  erewrite bind_Done by (exact Hrun). step. step. step.
  cbn [truthy_opt orb]. unfold after_evaluation.
  destruct (Z.of_nat (length (answers s)) =? max_questions s)%Z; reflexivity.
Qed.

Lemma advance_evaluation_ok e :
  (max_questions s <= Z.of_nat (length (answers s)))%Z ->
  text_of (provider E n c ereq) = Some e -> truthy e = true ->
  exists l,
    advance E sb w1
    = (after_evaluation s,
       {| session_state := Some (set_evaluation e s); api_calls := S n;
          trace := (tr ++ ApiCall c ereq :: l)%list |})
    /\ api_requests l = []
    /\ stored_records l
       = [session_data_of (sb_user_name sb) jt (sb_model_name sb) e
            (isoformat (utcnow E)) (questions s) (answers s) (feedback s)].
Proof.
  intros Hge He Ht.
  destruct (finish_ok e He Ht) as (l & Hrun & Hl).
  exists l. split; [|exact Hl].
  unfold advance. fold w1. unfold w1. step. step.
  replace (Z.of_nat (length (answers s)) <? max_questions s)%Z with false
    by (symmetry; apply Z.ltb_ge; exact Hge).
  cbv iota. rewrite bind_assoc.
  erewrite bind_Done by (exact Hrun). step. step. step.
  cbn [truthy_opt orb answers max_questions set_evaluation].
  unfold after_evaluation.
  destruct (Z.of_nat (length (answers s)) =? max_questions s)%Z; reflexivity.
Qed.

End Advance.

(** ** The transcript keeps its shape *)

Lemma pop_length {A} (l l' : list A) : pop l = Some l' -> length l = S (length l').
Proof.
  destruct l as [|x l] using rev_ind; [discriminate|].
  rewrite pop_app. intros [= <-]. rewrite length_app. simpl. lia.
Qed.


Lemma keeps_bind {A B} (m : M A) (k : A -> M B) :
  keeps m -> (forall a, keeps (k a)) -> keeps (bind m k).
Proof.
  intros Hm Hk w o w' Hw. unfold bind.
  destruct (m w) as [[a| |e] w1] eqn:Hmw; intros H.
  - eapply Hk; [eapply Hm; eassumption | exact H].
  - inversion H; subst. eapply Hm; eassumption.
  - inversion H; subst. eapply Hm; eassumption.
Qed.

Section Frames.
Variable E : env.

Lemma generate_question_frame co j m x i q a w :
exists r n' tr',
  generate_question E co j m x i q a w
  = (Done r, {| session_state := session_state w; api_calls := n'; trace := tr' |}).
Proof.
destruct w as [so n tr]. unfold generate_question, bind. destruct co as [c|]; simpl.
- destruct (provider E n c _); simpl; do 3 eexists; reflexivity.
- do 3 eexists; reflexivity.
Qed.

Lemma get_feedback_frame co m q a w :
exists r n' tr',
  get_feedback_for_answer E co m q a w
  = (Done r, {| session_state := session_state w; api_calls := n'; trace := tr' |}).
Proof.
destruct w as [so n tr]. unfold get_feedback_for_answer, bind. destruct co as [c|]; simpl.
- destruct (provider E n c _); simpl; do 3 eexists; reflexivity.
- do 3 eexists; reflexivity.
Qed.

Lemma evaluate_answers_frame co j m q a w :
exists r n' tr',
  evaluate_answers E co j m q a w
  = (Done r, {| session_state := session_state w; api_calls := n'; trace := tr' |}).
Proof.
destruct w as [so n tr]. unfold evaluate_answers, bind. destruct co as [c|]; simpl.
- destruct (provider E n c _); simpl; do 3 eexists; reflexivity.
- do 3 eexists; reflexivity.
Qed.

Lemma store_session_frame db d w :
exists tr',
  store_session E db d w
  = (Done tt, {| session_state := session_state w; api_calls := api_calls w; trace := tr' |}).
Proof.
destruct w as [so n tr]. unfold store_session, bind, emit. simpl. destruct db; simpl.
- destruct (push_raises E d); simpl; eexists; reflexivity.
- eexists; reflexivity.
Qed.

Lemma get_client_frame k w :
exists r tr',
  get_openrouter_client E k w
  = (Done r, {| session_state := session_state w; api_calls := api_calls w; trace := tr' |}).
Proof.
destruct w as [so n tr]. unfold get_openrouter_client, bind, emit, ret.
destruct (negb (truthy k)); simpl.
- do 2 eexists; reflexivity.
- destruct (OpenAI_raises E k); simpl; do 2 eexists; reflexivity.
Qed.

End Frames.

Ltac frame H :=
  match type of H with
  | context [generate_question ?E ?c ?j ?m ?x ?i ?q ?a ?w] =>
      let H' := fresh in
      destruct (generate_question_frame E c j m x i q a w) as (? & ? & ? & H');
      rewrite H' in H; clear H'
  | context [get_feedback_for_answer ?E ?c ?m ?q ?a ?w] =>
      let H' := fresh in
      destruct (get_feedback_frame E c m q a w) as (? & ? & ? & H');
      rewrite H' in H; clear H'
  | context [evaluate_answers ?E ?c ?j ?m ?q ?a ?w] =>
      let H' := fresh in
      destruct (evaluate_answers_frame E c j m q a w) as (? & ? & ? & H');
      rewrite H' in H; clear H'
  | context [store_session ?E ?db ?d ?w] =>
      let H' := fresh in
      destruct (store_session_frame E db d w) as (? & H');
      rewrite H' in H; clear H'
  | context [get_openrouter_client ?E ?k ?w] =>
      let H' := fresh in
      destruct (get_client_frame E k w) as (? & ? & H');
      rewrite H' in H; clear H'
  end.

Ltac crunch H :=
  repeat first
    [ progress (cbn [session_state api_calls trace fst snd
                     interview_started questions answers evaluation ss_client
                     max_questions feedback job_title
                     set_interview_started set_questions set_answers
                     set_evaluation set_client set_max_questions set_feedback
                     set_job_title] in H)
    | frame H
    | match type of H with
      | (_, _) = (_, _) => inversion H; subst; clear H
      | context [match job_title ?s with _ => _ end] => destruct (job_title s) eqn:?
      | context [match ss_client ?s with _ => _ end] => destruct (ss_client s) eqn:?
      | context [match pop ?l with _ => _ end] => destruct (pop l) eqn:?
      | context [match nth_error ?l ?n with _ => _ end] => destruct (nth_error l n) eqn:?
      | context [if ?b then _ else _] => destruct b eqn:?
      | context [match ?x with _ => _ end] => is_var x; destruct x
      end ].

Ltac open_script H :=
  unfold pass, st_rerun, raise, emit, read, update in H;
  unfold ret, bind in H;
  unfold with_session, emit_in, count_call in H.

Lemma keeps_initialise : keeps initialise.
Proof.
  intros [[s|] n tr] o w' Hw H; unfold initialise in H; simpl in H;
    inversion H; subst; [exact Hw|].
  intros s [= <-]. split; simpl; lia.
Qed.

Lemma keeps_display : keeps display_chat_history.
Proof.
  intros w o w' Hw H. destruct w as [[s|] n tr];
    unfold display_chat_history in H; open_script H; crunch H; exact Hw.
Qed.

Lemma keeps_completed act : keeps (completed_block act).
Proof.
  intros w o w' Hw H. destruct w as [[s|] n tr];
    unfold completed_block, clear_session in H; open_script H; crunch H;
    try exact Hw.
  all: intros s'; simpl; discriminate.
Qed.

Lemma keeps_start E sb act : keeps (start_block E sb act).
Proof.
  intros w o w' Hw H. destruct w as [[s|] n tr];
    unfold start_block in H; open_script H; crunch H; try exact Hw.
  all: intros s' [= <-]; split; simpl; try rewrite length_app; simpl; lia.
Qed.

Lemma keeps_progress E sb act : keeps (progress_block E sb act).
Proof.
  intros w o w' Hw H. destruct w as [[s|] n tr];
  unfold progress_block, on_submit, advance, ask_next_question, finish_interview,
    pop_answers, pop_feedback, read_job_title in H;
  open_script H; crunch H; try exact Hw.
  all: try match goal with
           | H : pop (_ ++ [_]) = None |- _ => rewrite pop_app in H; discriminate
           end.
  all: pose proof (Hw _ eq_refl) as [Hf Hq];
    intros s' [= <-]; unfold session_inv;
    cbn [interview_started questions answers evaluation ss_client
         max_questions feedback job_title
         set_interview_started set_questions set_answers
         set_evaluation set_client set_max_questions set_feedback
         set_job_title];
    repeat match goal with
           | H : pop _ = Some _ |- _ => apply pop_length in H
           | H : (_ <? _)%nat = true |- _ => apply Nat.ltb_lt in H
           | H : nth_error _ _ = None |- _ => apply nth_error_None in H
           end;
    rewrite ?length_app in *; simpl length in *; lia.
Qed.

Lemma run_keeps_inv E sb act : keeps (run_interview_app E sb act).
Proof.
  unfold run_interview_app.
  apply keeps_bind; [apply keeps_initialise | intros _].
  apply keeps_bind; [apply keeps_start | intros _].
  apply keeps_bind; [apply keeps_display | intros _].
  apply keeps_bind; [apply keeps_progress | intros _].
  apply keeps_completed.
Qed.

Lemma reachable_inv E w : reachable E w -> world_inv w.
Proof.
  induction 1 as [|sb act w w' o Hr IH Hrun].
  - intros s; discriminate.
  - eapply run_keeps_inv; eassumption.
Qed.

(** ** Submitting an answer *)

Lemma recorded_undo (a : string) (f : option string) (s : session) :
  set_feedback (feedback s) (set_answers (answers s) (recorded a f s)) = s.
Proof. destruct s; reflexivity. Qed.

Lemma pending_question (s : session) (q : string) :
  nth_error (questions s) (length (answers s)) = Some q -> pending s = true.
Proof.
  intros H. apply Nat.ltb_lt. apply nth_error_Some. congruence.
Qed.

Lemma completed_shown (s : session) (n : nat) (tr : list effect) (a : string) :
  truthy (evaluation s) = true ->
  completed_block (SubmitAnswer a)
    {| session_state := Some s; api_calls := n; trace := tr |}
  = (Done tt, {| session_state := Some s; api_calls := n;
                 trace := (tr ++ [StSuccess "Interview completed!"])%list |}).
Proof.
  intros He. unfold completed_block. step. rewrite He. step. reflexivity.
Qed.

Section Submit.

Variables (E : env) (sb : sidebar).
Variables (s : session) (n : nat) (tr : list effect).
Variables (c : client) (jt q answer : string).
Hypothesis Hph : phase_of s = InProgress.
Hypothesis Hq : nth_error (questions s) (length (answers s)) = Some q.
Hypothesis Hc : ss_client s = Some c.
Hypothesis Hj : job_title s = Some jt.
Hypothesis Hb : blank answer = false.

Let w0 : world := {| session_state := Some s; api_calls := n; trace := tr |}.
Let freq : request := feedback_request (sb_model_name sb) q answer.
Let fb : option string := text_of (provider E n c freq).
Let qreq : request :=
  question_request jt (sb_model_name sb) (max_questions s)
    (sb_interview_type sb) (questions s) (answers s ++ [answer]).
Let ereq : request :=
  evaluation_request jt (sb_model_name sb) (questions s) (answers s ++ [answer]).

Lemma submit_rollback :
  (Z.of_nat (length (answers s) + 1) < max_questions s)%Z ->
  request_failed (provider E (S n) c qreq) = true ->
  exists l,
    run_interview_app E sb (SubmitAnswer answer) w0
    = (Done tt, {| session_state := Some s; api_calls := S (S n);
                   trace := (tr ++ l)%list |})
    /\ In next_question_error l
    /\ api_requests l = [freq; qreq].
Proof.
  intros Hlt Hfail.
  destruct (on_submit_feedback E sb s n tr answer q c Hb Hq Hc) as (l1 & Hl1 & Hsub).
  fold freq fb in Hsub.
  destruct (advance_rollback E sb (recorded answer fb s) (S n)
              (tr ++ ApiCall c freq :: l1) c jt Hc Hj (answers s) answer
              (feedback s) fb eq_refl eq_refl) as (l2 & Hadv & Hl2 & Hin).
  { cbn [answers recorded set_feedback set_answers max_questions].
    rewrite length_app. exact Hlt. }
  { exact Hfail. }
  rewrite recorded_undo in Hadv.
  exists (ApiCall c freq :: l1 ++ ApiCall c qreq :: l2)%list.
  split; [|split].
  - unfold w0. rewrite run_submit by eauto using pending_question.
    erewrite bind_Done.
    2:{ rewrite Hsub. exact Hadv. }
    rewrite completed_idle by (apply phase_in_progress; exact Hph).
    rewrite <- app_assoc. reflexivity.
  - right. apply in_or_app. right. right. exact Hin.
  - cbn [api_requests]. rewrite api_requests_app. cbn [api_requests].
    destruct Hl1 as [-> _]. destruct Hl2 as [-> _]. reflexivity.
Qed.

Lemma submit_next t :
  (Z.of_nat (length (answers s) + 1) < max_questions s)%Z ->
  provider E (S n) c qreq = Reply t -> blank t = false ->
  exists l,
    run_interview_app E sb (SubmitAnswer answer) w0
    = (Rerun,
       {| session_state :=
            Some (set_questions (questions s ++ [strip t]) (recorded answer fb s));
          api_calls := S (S n); trace := (tr ++ l)%list |})
    /\ api_requests l = [freq; qreq] /\ stored_records l = [].
Proof.
  intros Hlt Hr Ht.
  destruct (on_submit_feedback E sb s n tr answer q c Hb Hq Hc) as (l1 & Hl1 & Hsub).
  fold freq fb in Hsub.
  exists (ApiCall c freq :: l1 ++ [ApiCall c qreq])%list. split; [|split].
  - unfold w0. rewrite run_submit by eauto using pending_question.
    unfold bind. rewrite Hsub.
    rewrite (advance_next E sb (recorded answer fb s) (S n) _ c jt Hc Hj (strip t)).
    + rewrite <- app_assoc. reflexivity.
    + cbn [answers recorded set_feedback set_answers max_questions].
      rewrite length_app. exact Hlt.
    + cbn [answers questions recorded set_feedback set_answers max_questions].
      fold qreq. rewrite Hr. reflexivity.
    + rewrite truthy_strip, Ht. reflexivity.
  - cbn [api_requests]. rewrite api_requests_app. cbn [api_requests].
    destruct Hl1 as [-> _]. reflexivity.
  - cbn [stored_records]. rewrite stored_records_app. cbn [stored_records].
    destruct Hl1 as [_ ->]. reflexivity.
Qed.

Lemma submit_evaluation_failed :
  (max_questions s <= Z.of_nat (length (answers s) + 1))%Z ->
  request_failed (provider E (S n) c ereq) = true ->
  exists l,
    run_interview_app E sb (SubmitAnswer answer) w0
    = (after_evaluation (recorded answer fb s),
       {| session_state := Some (recorded answer fb s);
          api_calls := S (S n); trace := (tr ++ l)%list |})
    /\ In (StError "Failed to get final evaluation.") l
    /\ api_requests l = [freq; ereq] /\ stored_records l = [].
Proof.
  intros Hge Hfail.
  destruct (on_submit_feedback E sb s n tr answer q c Hb Hq Hc) as (l1 & Hl1 & Hsub).
  fold freq fb in Hsub.
  destruct (advance_evaluation_failed E sb (recorded answer fb s) (S n)
              (tr ++ ApiCall c freq :: l1) c jt Hc Hj) as (l2 & Hadv & Hl2 & Hin).
  { cbn [answers recorded set_feedback set_answers max_questions].
    rewrite length_app. exact Hge. }
  { exact Hfail. }
  exists (ApiCall c freq :: l1 ++ ApiCall c ereq :: l2)%list.
  split; [|split; [|split]].
  - unfold w0. rewrite run_submit by eauto using pending_question.
    unfold bind. rewrite Hsub, Hadv.
    destruct (after_evaluation (recorded answer fb s)) as [[]| |e] eqn:Ha.
    + rewrite completed_idle by (apply phase_in_progress; exact Hph).
      rewrite <- app_assoc. reflexivity.
    + rewrite <- app_assoc. reflexivity.
    + rewrite <- app_assoc. reflexivity.
  - right. apply in_or_app. right. right. exact Hin.
  - cbn [api_requests]. rewrite api_requests_app. cbn [api_requests].
    destruct Hl1 as [-> _]. destruct Hl2 as [-> _]. reflexivity.
  - cbn [stored_records]. rewrite stored_records_app. cbn [stored_records].
    destruct Hl1 as [_ ->]. destruct Hl2 as [_ ->]. reflexivity.
Qed.

Lemma submit_evaluation_ok t :
  (max_questions s <= Z.of_nat (length (answers s) + 1))%Z ->
  provider E (S n) c ereq = Reply t -> blank t = false ->
  exists l,
    run_interview_app E sb (SubmitAnswer answer) w0
    = (after_evaluation (recorded answer fb s),
       {| session_state := Some (set_evaluation (strip t) (recorded answer fb s));
          api_calls := S (S n); trace := (tr ++ l)%list |})
    /\ api_requests l = [freq; ereq]
    /\ stored_records l
       = [session_data_of (sb_user_name sb) jt (sb_model_name sb) (strip t)
            (isoformat (utcnow E)) (questions s) (answers s ++ [answer])
            (feedback s ++ [fb])].
Proof.
  intros Hge Hr Ht.
  destruct (on_submit_feedback E sb s n tr answer q c Hb Hq Hc) as (l1 & Hl1 & Hsub).
  fold freq fb in Hsub.
  destruct (advance_evaluation_ok E sb (recorded answer fb s) (S n)
              (tr ++ ApiCall c freq :: l1) c jt Hc Hj (strip t))
    as (l2 & Hadv & Hl2 & Hst).
  { cbn [answers recorded set_feedback set_answers max_questions].
    rewrite length_app. exact Hge. }
  { cbn [answers questions recorded set_feedback set_answers].
    fold ereq. rewrite Hr. reflexivity. }
  { rewrite truthy_strip, Ht. reflexivity. }
  assert (Hte : truthy (strip t) = true) by (rewrite truthy_strip, Ht; reflexivity).
  destruct (after_evaluation (recorded answer fb s)) as [[]| |e] eqn:Ha.
  - exists (ApiCall c freq :: l1 ++ ApiCall c ereq :: l2
            ++ [StSuccess "Interview completed!"])%list.
    split; [|split].
    + unfold w0. rewrite run_submit by eauto using pending_question.
      unfold bind. rewrite Hsub, Hadv.
      rewrite completed_shown by exact Hte.
      rewrite <- !app_assoc. cbn [app]. reflexivity.
    + cbn [api_requests]. rewrite !api_requests_app. cbn [api_requests].
      rewrite api_requests_app.
      destruct Hl1 as [-> _]. rewrite Hl2. reflexivity.
    + cbn [stored_records]. rewrite !stored_records_app. cbn [stored_records].
      rewrite stored_records_app.
      destruct Hl1 as [_ ->]. rewrite Hst. reflexivity.
  - exists (ApiCall c freq :: l1 ++ ApiCall c ereq :: l2)%list.
    split; [|split].
    + unfold w0. rewrite run_submit by eauto using pending_question.
      unfold bind. rewrite Hsub, Hadv.
      rewrite <- !app_assoc. reflexivity.
    + cbn [api_requests]. rewrite !api_requests_app. cbn [api_requests].
      destruct Hl1 as [-> _]. rewrite Hl2. reflexivity.
    + cbn [stored_records]. rewrite !stored_records_app. cbn [stored_records].
      destruct Hl1 as [_ ->]. rewrite Hst. reflexivity.
  - unfold after_evaluation in Ha.
    destruct (Z.of_nat _ =? _)%Z; discriminate.
Qed.

End Submit.

(** ** Starting the interview *)

Section Start.

Variables (E : env) (sb : sidebar) (s : session) (n : nat) (tr : list effect).
Hypothesis Hst : interview_started s = false.
Hypothesis Hk : truthy (sb_api_key sb) = true.
Hypothesis Hj : truthy (sb_job_title sb) = true.
Hypothesis Hcl : OpenAI_raises E (sb_api_key sb) = None.

Let cl : client := {| api_key := sb_api_key sb; base_url := OPENROUTER_URL |}.
Let req : request :=
  question_request (sb_job_title sb) (sb_model_name sb) (sb_max_questions sb)
    (sb_interview_type sb) [] [].

(** A first question that is missing or empty once stripped. *)
Lemma start_failed :
  request_failed (provider E n cl req) = true ->
  exists l,
    run_interview_app E sb ClickStartInterview
      {| session_state := Some s; api_calls := n; trace := tr |}
    = (Done tt, {| session_state := Some (reset_for_start cl sb s);
                   api_calls := S n;
                   trace := (tr ++ ApiCall cl req :: l ++ [start_error])%list |})
    /\ quiet l
    /\ (raised (provider E n cl req) = false -> l = []).
Proof.
  intros Hf.
  destruct (generate_question_run E cl (reset_for_start cl sb s) n tr
              (sb_job_title sb) (sb_model_name sb) (sb_max_questions sb)
              (sb_interview_type sb) [] []) as (l & Hrun & Hl & _).
  fold req in Hrun.
  exists l. split; [|split; [exact Hl|]].
  - unfold run_interview_app. step.
    erewrite bind_Done.
    2:{ unfold start_block. step. rewrite Hst. cbn [st_button clicked_start negb andb].
        rewrite Hk, Hj. cbn [andb].
        erewrite bind_Done.
        2:{ unfold get_openrouter_client. rewrite Hk, Hcl. reflexivity. }
        cbv beta iota. fold cl.
        step. step. step. step. step. step. step.
        erewrite bind_Done by (exact Hrun). cbv beta.
        rewrite request_failed_text in Hf. apply negb_true_iff in Hf.
        instantiate (1 := {| session_state := Some (reset_for_start cl sb s);
                             api_calls := S n;
                             trace := (tr ++ ApiCall cl req :: l ++ [start_error])%list |}).
        instantiate (1 := tt).
        destruct (text_of (provider E n cl req)) as [x|].
        - cbn [truthy_opt] in Hf. rewrite Hf. norm. reflexivity.
        - norm. reflexivity. }
    erewrite bind_Done.
    2:{ unfold display_chat_history. step.
        cbn [interview_started reset_for_start set_max_questions set_job_title
             set_client set_evaluation set_feedback set_answers set_questions].
        rewrite Hst. reflexivity. }
    erewrite bind_Done.
    2:{ unfold progress_block. step. step.
        cbn [interview_started reset_for_start set_max_questions set_job_title
             set_client set_evaluation set_feedback set_answers set_questions].
        rewrite Hst. reflexivity. }
    apply completed_idle. reflexivity.
  - intros Hr. revert Hrun.
    unfold generate_question, chat_completions_create, bind.
    cbn [api_calls]. fold req.
    destruct (provider E n cl req); try discriminate Hr.
    norm. intros [= H]. clear - H.
    assert (Hlen : length (tr ++ [ApiCall cl req])%list
                   = length (tr ++ ApiCall cl req :: l)%list) by (rewrite H; reflexivity).
    rewrite !length_app in Hlen. cbn [length] in Hlen.
    destruct l; [reflexivity | cbn [length] in Hlen; lia].
Qed.

End Start.

(** ** The history page *)

Lemma ascii_compare_cases (a b : ascii) :
  (Ascii.compare a b = Eq /\ N_of_ascii a = N_of_ascii b)
  \/ (Ascii.compare a b = Lt /\ (N_of_ascii a < N_of_ascii b)%N)
  \/ (Ascii.compare a b = Gt /\ (N_of_ascii b < N_of_ascii a)%N).
Proof.
  destruct (Ascii.compare a b) eqn:H.
  - left. split; [reflexivity|].
    apply Ascii.compare_eq_iff in H. rewrite H. reflexivity.
  - right. left. split; [reflexivity | apply N.compare_lt_iff; exact H].
  - right. right. split; [reflexivity | apply N.compare_gt_iff; exact H].
Qed.

Lemma string_leb_trans (s1 s2 s3 : string) :
  String.leb s1 s2 = true -> String.leb s2 s3 = true -> String.leb s1 s3 = true.
Proof.
  unfold String.leb. revert s2 s3.
  induction s1 as [|c1 s1 IH]; intros [|c2 s2] [|c3 s3]; simpl; try congruence.
  specialize (IH s2 s3).
  destruct (ascii_compare_cases c1 c2) as [[E12 H12]|[[E12 H12]|[E12 H12]]];
    destruct (ascii_compare_cases c2 c3) as [[E23 H23]|[[E23 H23]|[E23 H23]]];
    destruct (ascii_compare_cases c1 c3) as [[E13 H13]|[[E13 H13]|[E13 H13]]];
    rewrite E12, E23, E13; try congruence; try exact IH; lia.
Qed.

Lemma string_leb_empty (s : string) : String.leb s "" = true -> s = "".
Proof. destruct s; [reflexivity | discriminate]. Qed.

Section SortedReverseFacts.

Context {A : Type}.
Variable key : A -> string.

Let ge (x y : A) : Prop := String.leb (key y) (key x) = true.

Lemma insert_reverse_perm (x : A) (l : list A) :
  Permutation (x :: l) (insert_reverse key x l).
Proof.
  induction l as [|y r IH]; simpl; [apply Permutation_refl|].
  destruct (String.leb (key y) (key x)); [apply Permutation_refl|].
  eapply perm_trans; [apply perm_swap | apply perm_skip; exact IH].
Qed.

Lemma sorted_reverse_perm (l : list A) : Permutation l (sorted_reverse key l).
Proof.
  induction l as [|x r IH]; simpl; [apply Permutation_refl|].
  eapply perm_trans; [apply perm_skip; exact IH | apply insert_reverse_perm].
Qed.

Lemma insert_reverse_sorted (x : A) (l : list A) :
  StronglySorted ge l -> StronglySorted ge (insert_reverse key x l).
Proof.
  induction 1 as [|y r Hr IH Hy]; simpl.
  - constructor; constructor.
  - destruct (String.leb (key y) (key x)) eqn:Hyx.
    + constructor; [constructor; assumption|].
      constructor; [exact Hyx|].
      rewrite Forall_forall in Hy |- *. intros z Hz.
      unfold ge. eapply string_leb_trans; [apply Hy; exact Hz | exact Hyx].
    + constructor; [exact IH|].
      rewrite Forall_forall in Hy |- *. intros z Hz.
      apply (Permutation_in _ (Permutation_sym (insert_reverse_perm x r))) in Hz.
      destruct Hz as [<-|Hz]; [|apply Hy; exact Hz].
      unfold ge. destruct (String.leb_total (key x) (key y)) as [H|H];
        [exact H | congruence].
Qed.

Lemma sorted_reverse_sorted (l : list A) : StronglySorted ge (sorted_reverse key l).
Proof.
  induction l as [|x r IH]; simpl; [constructor|].
  apply insert_reverse_sorted. exact IH.
Qed.

End SortedReverseFacts.

Lemma keyed_spec (items : list (string * json)) (kl : list (string * (string * json))) :
  keyed items = Some kl ->
  map snd kl = items /\ Forall (fun p => key_of (snd p) = fst p) kl.
Proof.
  revert kl. induction items as [|it r IH]; simpl; intros kl H.
  - injection H as <-. split; [reflexivity | constructor].
  - destruct (timestamp_key it) as [k|] eqn:Hk; [|discriminate].
    destruct (keyed r) as [r'|]; [|discriminate].
    injection H as <-. destruct (IH r' eq_refl) as [Hm Hf].
    split; [simpl; rewrite Hm; reflexivity|].
    constructor; [|exact Hf]. unfold key_of. simpl. rewrite Hk. reflexivity.
Qed.

Lemma sorted_missing_last (l : list (string * json)) :
  StronglySorted newer_or_equal l -> missing_last l.
Proof.
  intros Hs l1 x l2 -> Hx y Hy.
  induction l1 as [|z l1 IH]; simpl in Hs; inversion Hs as [|? ? Hr Hall]; subst.
  - rewrite Forall_forall in Hall. specialize (Hall y Hy).
    unfold newer_or_equal in Hall. rewrite Hx in Hall.
    apply string_leb_empty. exact Hall.
  - apply IH. exact Hr.
Qed.

Lemma sorted_by_key_of (l : list (string * (string * json))) :
  Forall (fun p => key_of (snd p) = fst p) l ->
  StronglySorted (fun x y => String.leb (fst y) (fst x) = true) l ->
  StronglySorted newer_or_equal (map snd l).
Proof.
  intros Hf Hs. induction Hs as [|p r Hr IH Hall]; simpl; [constructor|].
  inversion Hf as [|? ? Hp0 Hr0]; subst.
  constructor; [apply IH; exact Hr0|].
  rewrite Forall_forall in Hall, Hr0 |- *.
  intros y Hy. apply in_map_iff in Hy. destruct Hy as (p' & <- & Hp').
  unfold newer_or_equal. rewrite Hp0, (Hr0 p' Hp'). apply Hall. exact Hp'.
Qed.


(** * The claims *)

(** C1. In a session in progress with a pending question, when a
    non-blank answer is submitted, the number of answers then recorded is
    below the target and the request for the next question fails (it
    raises, or its text is blank), the run pops the answer and its
    feedback again and shows the retry message: the session, hence its
    questions, answers, feedback and phase, is exactly the one before the
    submission.  Two requests were sent, for the feedback and for the
    question. *)
Theorem C1_next_question_failure_rolls_back :
  forall (E : env) (sb : sidebar) (s : session) (n : nat) (tr : list effect)
         (c : client) (jt q answer : string),
    phase_of s = InProgress ->
    nth_error (questions s) (length (answers s)) = Some q ->
    ss_client s = Some c ->
    job_title s = Some jt ->
    blank answer = false ->
    (Z.of_nat (length (answers s) + 1) < max_questions s)%Z ->
    request_failed
      (provider E (S n) c
         (question_request jt (sb_model_name sb) (max_questions s)
            (sb_interview_type sb) (questions s) (answers s ++ [answer])%list))
    = true ->
    exists l,
      run_interview_app E sb (SubmitAnswer answer)
        {| session_state := Some s; api_calls := n; trace := tr |}
      = (Done tt, {| session_state := Some s; api_calls := S (S n);
                     trace := (tr ++ l)%list |})
      /\ In next_question_error l
      /\ api_requests l
         = [feedback_request (sb_model_name sb) q answer;
            question_request jt (sb_model_name sb) (max_questions s)
              (sb_interview_type sb) (questions s) (answers s ++ [answer])%list].
Proof.
  intros E sb s n tr c jt q answer Hph Hq Hc Hj Hb Hlt Hfail.
  exact (submit_rollback E sb s n tr c jt q answer Hph Hq Hc Hj Hb Hlt Hfail).
Qed.

Lemma C1_witness :
  exists l,
    run_interview_app Sample.E_next_fails Sample.sb2 (SubmitAnswer "A1")
      (Sample.started_world 2)
    = (Done tt, {| session_state := Some (Sample.started_session 2);
                   api_calls := 3; trace := ([] ++ l)%list |})
    /\ In next_question_error l
    /\ api_requests l
       = [feedback_request "z-ai/glm-4.5-air" "Q1" "A1";
          question_request "Backend Engineer" "z-ai/glm-4.5-air" 2 "General"
            ["Q1"] ["A1"]].
Proof.
  apply (C1_next_question_failure_rolls_back Sample.E_next_fails Sample.sb2
           (Sample.started_session 2) 1 []
           {| api_key := "sk-test"; base_url := OPENROUTER_URL |}
           "Backend Engineer" "Q1" "A1");
    reflexivity.
Defined.

(** C4. When the feedback request raises, the answer is recorded with an
    absent feedback entry and the submission goes on: if the next
    question comes back non-blank it is appended, and if the answer was
    the last one and the evaluation comes back non-blank it is stored and
    the record is handed to the store.  In both cases the run ends in
    [st.rerun()], with the answer kept. *)
Theorem C4_feedback_failure_is_not_fatal :
  forall (E : env) (sb : sidebar) (s : session) (n : nat) (tr : list effect)
         (c : client) (jt q answer : string),
    phase_of s = InProgress ->
    nth_error (questions s) (length (answers s)) = Some q ->
    ss_client s = Some c ->
    job_title s = Some jt ->
    blank answer = false ->
    raised (provider E n c (feedback_request (sb_model_name sb) q answer)) = true ->
    let w0 := {| session_state := Some s; api_calls := n; trace := tr |} in
    let kept := recorded answer None s in
    ((Z.of_nat (length (answers s) + 1) < max_questions s)%Z ->
     forall t,
       provider E (S n) c
         (question_request jt (sb_model_name sb) (max_questions s)
            (sb_interview_type sb) (questions s) (answers s ++ [answer])%list)
       = Reply t ->
       blank t = false ->
       exists l,
         run_interview_app E sb (SubmitAnswer answer) w0
         = (Rerun,
            {| session_state :=
                 Some (set_questions (questions s ++ [strip t])%list kept);
               api_calls := S (S n); trace := (tr ++ l)%list |}))
    /\
    (Z.of_nat (length (answers s) + 1) = max_questions s ->
     forall t,
       provider E (S n) c
         (evaluation_request jt (sb_model_name sb) (questions s)
            (answers s ++ [answer])%list)
       = Reply t ->
       blank t = false ->
       exists l,
         run_interview_app E sb (SubmitAnswer answer) w0
         = (Rerun,
            {| session_state := Some (set_evaluation (strip t) kept);
               api_calls := S (S n); trace := (tr ++ l)%list |})
         /\ stored_records l
            = [session_data_of (sb_user_name sb) jt (sb_model_name sb) (strip t)
                 (isoformat (utcnow E)) (questions s) (answers s ++ [answer])%list
                 (feedback s ++ [None])%list]).
Proof.
  intros E sb s n tr c jt q answer Hph Hq Hc Hj Hb Hr w0 kept. subst w0 kept.
  assert (Hfb : text_of (provider E n c (feedback_request (sb_model_name sb) q answer))
                = None).
  { destruct (provider E n c _); [discriminate Hr | reflexivity ..]. }
  split.
  - intros Hlt t Ht Hbt.
    destruct (submit_next E sb s n tr c jt q answer Hph Hq Hc Hj Hb t Hlt Ht Hbt)
      as (l & Hrun & _).
    rewrite Hfb in Hrun. exists l. exact Hrun.
  - intros Heq t Ht Hbt.
    destruct (submit_evaluation_ok E sb s n tr c jt q answer Hph Hq Hc Hj Hb t)
      as (l & Hrun & _ & Hst); [lia | exact Ht | exact Hbt |].
    rewrite Hfb in Hrun, Hst. exists l. split; [|exact Hst].
    rewrite Hrun. unfold after_evaluation.
    cbn [answers recorded set_feedback set_answers max_questions].
    rewrite length_app. cbn [length].
    replace (Z.of_nat (length (answers s) + 1) =? max_questions s)%Z with true;
      [reflexivity | symmetry; apply Z.eqb_eq; exact Heq].
Qed.

Lemma C4_witness :
  exists l,
    run_interview_app Sample.E_no_feedback Sample.sb2 (SubmitAnswer "A1")
      (Sample.started_world 2)
    = (Rerun,
       {| session_state :=
            Some (set_questions ["Q1"; strip "Q2"]
                    (recorded "A1" None (Sample.started_session 2)));
          api_calls := 3; trace := ([] ++ l)%list |}).
Proof.
  refine (proj1 (C4_feedback_failure_is_not_fatal Sample.E_no_feedback Sample.sb2
                   (Sample.started_session 2) 1 []
                   {| api_key := "sk-test"; base_url := OPENROUTER_URL |}
                   "Backend Engineer" "Q1" "A1" _ _ _ _ _ _) _ "Q2" _ _);
    reflexivity.
Defined.

(** A session whose questions are all answered and whose evaluation is
    missing offers no widget that acts: whatever the user does, the run
    changes nothing and calls nobody. *)
Lemma stuck_after_last_answer (E : env) (sb : sidebar) (act : ui_action)
    (s : session) (n : nat) (tr : list effect) :
  interview_started s = true ->
  evaluation s = "" ->
  length (answers s) = length (questions s) ->
  run_interview_app E sb act
    {| session_state := Some s; api_calls := n; trace := tr |}
  = (Done tt, {| session_state := Some s; api_calls := n; trace := tr |}).
Proof.
  intros Hst Hev Hlen.
  unfold run_interview_app. step.
  erewrite bind_Done.
  2:{ unfold start_block. step. rewrite Hst.
      unfold st_button. rewrite andb_false_r. reflexivity. }
  erewrite bind_Done by (apply display_ok; lia).
  erewrite bind_Done.
  2:{ unfold progress_block. step. step. rewrite Hst, Hev. cbn [truthy negb andb].
      step. step. rewrite Hlen.
      replace (length (questions s) <? length (questions s))%nat with false
        by (symmetry; apply Nat.ltb_irrefl).
      reflexivity. }
  apply completed_idle. exact Hev.
Qed.

(** C3. One question is asked, the answer is given, and the evaluation
    request raises.  The answer and its feedback stay recorded, the
    evaluation stays empty, the error was shown; and from then on no
    action of the user makes the script do anything: the evaluation
    cannot be requested again. *)
Theorem C3_evaluation_failure_dead_end :
  let w := Sample.after Sample.E_eval_fails Sample.sb1
             [ClickStartInterview; SubmitAnswer "A1"] in
  session_state w = Some (recorded "A1" (Some "F1") (Sample.started_session 1))
  /\ phase_of (recorded "A1" (Some "F1") (Sample.started_session 1)) = InProgress
  /\ In (StError "Failed to get final evaluation.") (trace w)
  /\ forall (E : env) (sb : sidebar) (act : ui_action),
       run_interview_app E sb act w = (Done tt, w).
Proof.
  split; [reflexivity | split; [reflexivity | split]].
  - vm_compute. do 4 right. left. reflexivity.
  - intros E sb act.
    change (Sample.after Sample.E_eval_fails Sample.sb1
              [ClickStartInterview; SubmitAnswer "A1"])
      with {| session_state :=
                Some (recorded "A1" (Some "F1") (Sample.started_session 1));
              api_calls := 3;
              trace := trace (Sample.after Sample.E_eval_fails Sample.sb1
                                [ClickStartInterview; SubmitAnswer "A1"]) |}.
    apply stuck_after_last_answer; reflexivity.
Qed.

(** C5. In a session in progress, submitting a blank answer (empty, or
    whitespace only) leaves the session as it is and sends no request;
    when the answer form is drawn, that is when a question is pending,
    the run ends normally having shown the warning and nothing else. *)
Theorem C5_blank_answer_is_rejected :
  forall (E : env) (sb : sidebar) (s : session) (n : nat) (tr : list effect)
         (answer : string),
    phase_of s = InProgress ->
    blank answer = true ->
    exists o l,
      run_interview_app E sb (SubmitAnswer answer)
        {| session_state := Some s; api_calls := n; trace := tr |}
      = (o, {| session_state := Some s; api_calls := n; trace := (tr ++ l)%list |})
      /\ api_requests l = []
      /\ stored_records l = []
      /\ (pending s = true ->
          o = Done tt /\ l = [StWarning "Please provide an answer."]).
Proof.
  intros E sb s n tr answer Hph Hb.
  destruct (pending s) eqn:Hp.
  - exists (Done tt), [StWarning "Please provide an answer."].
    split; [|auto].
    rewrite run_submit by assumption.
    erewrite bind_Done by (apply on_submit_blank; exact Hb).
    apply completed_idle. apply phase_in_progress. exact Hph.
  - destruct (phase_in_progress s Hph) as [Hst Hev].
    unfold pending in Hp.
    destruct (length (questions s) <? length (answers s))%nat eqn:Hd.
    + exists (Raised "IndexError"), []. rewrite app_nil_r.
      split; [|repeat split; discriminate].
      unfold run_interview_app. step. step.
      unfold display_chat_history. step. rewrite Hst. step. step. rewrite Hd.
      reflexivity.
    + exists (Done tt), []. rewrite app_nil_r.
      split; [|repeat split; discriminate].
      unfold run_interview_app. step. step.
      erewrite bind_Done by (apply display_ok; apply Nat.ltb_ge; exact Hd).
      erewrite bind_Done.
      2:{ unfold progress_block. step. step. rewrite Hst, Hev.
          cbn [truthy negb andb]. step. step. rewrite Hp. reflexivity. }
      apply completed_idle. exact Hev.
Qed.

Lemma C5_witness :
  exists o l,
    run_interview_app Sample.E_ok Sample.sb2 (SubmitAnswer "   ")
      (Sample.started_world 2)
    = (o, {| session_state := Some (Sample.started_session 2); api_calls := 1;
             trace := ([] ++ l)%list |})
    /\ api_requests l = []
    /\ stored_records l = []
    /\ (pending (Sample.started_session 2) = true ->
        o = Done tt /\ l = [StWarning "Please provide an answer."]).
Proof.
  apply (C5_blank_answer_is_rejected Sample.E_ok Sample.sb2
           (Sample.started_session 2) 1 [] "   "); reflexivity.
Defined.

(** The record written by the script has the fields of [code_fields]. *)
Lemma session_data_fields user job model ev ts qs as_ fb :
  has_exactly_fields code_fields
    (session_data_of user job model ev ts qs as_ fb).
Proof.
  eexists. split; [reflexivity|]. intros k. reflexivity.
Qed.

(** C6, as the specification states it, fails on a completed sample
    interview: the record handed to the store has no field named
    [participant]. *)
Lemma C6_counterexample :
  ~ (forall d,
       In d (stored_records
               (trace (Sample.after Sample.E_ok Sample.sb1
                         [ClickStartInterview; SubmitAnswer "A1"]))) ->
       has_exactly_fields spec_fields d).
Proof.
  intros H.
  destruct (H _ (or_introl eq_refl)) as (fields & Heq & Hk).
  injection Heq as <-.
  destruct (proj2 (Hk "participant") (or_introl eq_refl)) as [Hu|Hin].
  - discriminate Hu.
  - repeat (destruct Hin as [Hu|Hin]; [discriminate Hu|]). exact Hin.
Qed.

(** C6, amended.  When the last answer is submitted and the evaluation
    comes back non-blank, the session becomes completed and exactly one
    record is handed to the store.  It is a JSON object with exactly the
    fields user, job_title, questions, answers, feedback, evaluation,
    model and timestamp: the name typed in the sidebar (or Anonymous),
    the job title, the session's questions and answers as strings, its
    feedback entries as strings or null, its evaluation, the model name,
    and the ISO format of the UTC clock reading. *)
Theorem C6_completed_record :
  forall (E : env) (sb : sidebar) (s : session) (n : nat) (tr : list effect)
         (c : client) (jt q answer t : string),
    phase_of s = InProgress ->
    nth_error (questions s) (length (answers s)) = Some q ->
    ss_client s = Some c ->
    job_title s = Some jt ->
    blank answer = false ->
    (max_questions s <= Z.of_nat (length (answers s) + 1))%Z ->
    provider E (S n) c
      (evaluation_request jt (sb_model_name sb) (questions s)
         (answers s ++ [answer])%list) = Reply t ->
    blank t = false ->
    exists o w' s' d,
      run_interview_app E sb (SubmitAnswer answer)
        {| session_state := Some s; api_calls := n; trace := tr |} = (o, w')
      /\ session_state w' = Some s'
      /\ phase_of s' = Completed
      /\ questions s' = questions s
      /\ answers s' = (answers s ++ [answer])%list
      /\ stored_records (trace w') = (stored_records tr ++ [d])%list
      /\ d = JObj [("user", JStr (or_else (sb_user_name sb) "Anonymous"));
                   ("job_title", JStr jt);
                   ("questions", JList (map JStr (questions s')));
                   ("answers", JList (map JStr (answers s')));
                   ("feedback", JList (map json_of_opt (feedback s')));
                   ("evaluation", JStr (evaluation s'));
                   ("model", JStr (sb_model_name sb));
                   ("timestamp", JStr (isoformat (utcnow E)))]
      /\ has_exactly_fields code_fields d.
Proof.
  intros E sb s n tr c jt q answer t Hph Hq Hc Hj Hb Hge Hr Hbt.
  destruct (submit_evaluation_ok E sb s n tr c jt q answer Hph Hq Hc Hj Hb t
              Hge Hr Hbt) as (l & Hrun & _ & Hst).
  do 4 eexists.
  split; [exact Hrun|].
  split; [reflexivity|].
  split.
  { unfold phase_of. cbn [evaluation set_evaluation].
    rewrite truthy_strip, Hbt. reflexivity. }
  split; [reflexivity|].
  split; [reflexivity|].
  split.
  { cbn [trace]. rewrite stored_records_app, Hst. reflexivity. }
  split; [reflexivity|].
  apply session_data_fields.
Qed.

Lemma C6_witness :
  exists o w' s' d,
    run_interview_app Sample.E_ok Sample.sb1 (SubmitAnswer "A1")
      (Sample.started_world 1) = (o, w')
    /\ session_state w' = Some s'
    /\ phase_of s' = Completed
    /\ questions s' = ["Q1"]
    /\ answers s' = ["A1"]
    /\ stored_records (trace w') = [d]
    /\ d = JObj [("user", JStr "Anonymous");
                 ("job_title", JStr "Backend Engineer");
                 ("questions", JList (map JStr (questions s')));
                 ("answers", JList (map JStr (answers s')));
                 ("feedback", JList (map json_of_opt (feedback s')));
                 ("evaluation", JStr (evaluation s'));
                 ("model", JStr "z-ai/glm-4.5-air");
                 ("timestamp", JStr "2024-05-07T12:00:09")]
    /\ has_exactly_fields code_fields d.
Proof.
  apply (C6_completed_record Sample.E_ok Sample.sb1 (Sample.started_session 1)
           1 [] {| api_key := "sk-test"; base_url := OPENROUTER_URL |}
           "Backend Engineer" "Q1" "A1" " Good. ");
    solve [reflexivity | discriminate].
Defined.

(** The requests sent when the last answer is submitted: one for the
    feedback and one for the evaluation, whatever the provider returns. *)
Lemma final_submit_requests (E : env) (sb : sidebar) (s : session) (n : nat)
    (tr : list effect) (c : client) (jt q answer : string) :
  phase_of s = InProgress ->
  nth_error (questions s) (length (answers s)) = Some q ->
  ss_client s = Some c ->
  job_title s = Some jt ->
  blank answer = false ->
  (max_questions s <= Z.of_nat (length (answers s) + 1))%Z ->
  exists o w',
    run_interview_app E sb (SubmitAnswer answer)
      {| session_state := Some s; api_calls := n; trace := tr |} = (o, w')
    /\ api_requests (trace w')
       = (api_requests tr
          ++ [feedback_request (sb_model_name sb) q answer;
              evaluation_request jt (sb_model_name sb) (questions s)
                (answers s ++ [answer])])%list.
Proof.
  intros Hph Hq Hc Hj Hb Hge.
  destruct (request_failed
              (provider E (S n) c
                 (evaluation_request jt (sb_model_name sb) (questions s)
                    (answers s ++ [answer])%list))) eqn:Hf.
  - destruct (submit_evaluation_failed E sb s n tr c jt q answer Hph Hq Hc Hj Hb
                Hge Hf) as (l & Hrun & _ & Hreq & _).
    do 2 eexists. split; [exact Hrun|].
    cbn [trace]. rewrite api_requests_app, Hreq. reflexivity.
  - destruct (provider E (S n) c _) as [t| | |] eqn:Hr; try discriminate Hf.
    cbn [request_failed] in Hf. rewrite truthy_strip, negb_involutive in Hf.
    destruct (submit_evaluation_ok E sb s n tr c jt q answer Hph Hq Hc Hj Hb t
                Hge Hr Hf) as (l & Hrun & Hreq & _).
    do 2 eexists. split; [exact Hrun|].
    cbn [trace]. rewrite api_requests_app, Hreq. reflexivity.
Qed.

(** C8. Two sessions with the same questions, answers and job title, and
    any feedback lists, any providers and any histories, send the very
    same evaluation request when the same last answer is submitted: it
    is built from the job title, the model name and the question and
    answer pairs only. *)
Theorem C8_evaluation_prompt_ignores_feedback :
  forall (E1 E2 : env) (sb : sidebar) (s1 s2 : session) (n1 n2 : nat)
         (tr1 tr2 : list effect) (c1 c2 : client) (jt q answer : string),
    questions s1 = questions s2 ->
    answers s1 = answers s2 ->
    job_title s1 = Some jt -> job_title s2 = Some jt ->
    ss_client s1 = Some c1 -> ss_client s2 = Some c2 ->
    phase_of s1 = InProgress -> phase_of s2 = InProgress ->
    nth_error (questions s1) (length (answers s1)) = Some q ->
    blank answer = false ->
    (max_questions s1 <= Z.of_nat (length (answers s1) + 1))%Z ->
    (max_questions s2 <= Z.of_nat (length (answers s2) + 1))%Z ->
    exists ev o1 w1 o2 w2,
      run_interview_app E1 sb (SubmitAnswer answer)
        {| session_state := Some s1; api_calls := n1; trace := tr1 |} = (o1, w1)
      /\ run_interview_app E2 sb (SubmitAnswer answer)
           {| session_state := Some s2; api_calls := n2; trace := tr2 |} = (o2, w2)
      /\ api_requests (trace w1)
         = (api_requests tr1
            ++ [feedback_request (sb_model_name sb) q answer; ev])%list
      /\ api_requests (trace w2)
         = (api_requests tr2
            ++ [feedback_request (sb_model_name sb) q answer; ev])%list
      /\ ev = evaluation_request jt (sb_model_name sb) (questions s1)
                (answers s1 ++ [answer])%list.
Proof.
  intros E1 E2 sb s1 s2 n1 n2 tr1 tr2 c1 c2 jt q answer
    Hqs Has Hj1 Hj2 Hc1 Hc2 Hp1 Hp2 Hq Hb Hm1 Hm2.
  destruct (final_submit_requests E1 sb s1 n1 tr1 c1 jt q answer
              Hp1 Hq Hc1 Hj1 Hb Hm1) as (o1 & w1 & Hr1 & Ha1).
  assert (Hq2 : nth_error (questions s2) (length (answers s2)) = Some q)
    by (rewrite <- Hqs, <- Has; exact Hq).
  destruct (final_submit_requests E2 sb s2 n2 tr2 c2 jt q answer
              Hp2 Hq2 Hc2 Hj2 Hb Hm2) as (o2 & w2 & Hr2 & Ha2).
  rewrite <- Hqs, <- Has in Ha2.
  exists (evaluation_request jt (sb_model_name sb) (questions s1)
            (answers s1 ++ [answer])%list), o1, w1, o2, w2.
  auto.
Qed.

Lemma C8_witness :
  exists ev o1 w1 o2 w2,
    run_interview_app Sample.E_ok Sample.sb1 (SubmitAnswer "A1")
      (Sample.started_world 1) = (o1, w1)
    /\ run_interview_app Sample.E_eval_fails Sample.sb1 (SubmitAnswer "A1")
         {| session_state :=
              Some (set_feedback [Some "stale"; None] (Sample.started_session 1));
            api_calls := 7; trace := [] |} = (o2, w2)
    /\ api_requests (trace w1)
       = ([] ++ [feedback_request "z-ai/glm-4.5-air" "Q1" "A1"; ev])%list
    /\ api_requests (trace w2)
       = ([] ++ [feedback_request "z-ai/glm-4.5-air" "Q1" "A1"; ev])%list
    /\ ev = evaluation_request "Backend Engineer" "z-ai/glm-4.5-air" ["Q1"] ["A1"].
Proof.
  apply (C8_evaluation_prompt_ignores_feedback Sample.E_ok Sample.E_eval_fails
           Sample.sb1 (Sample.started_session 1)
           (set_feedback [Some "stale"; None] (Sample.started_session 1))
           1 7 [] []
           {| api_key := "sk-test"; base_url := OPENROUTER_URL |}
           {| api_key := "sk-test"; base_url := OPENROUTER_URL |}
           "Backend Engineer" "Q1" "A1");
    solve [reflexivity | discriminate].
Defined.

(** C7, as the specification states it, fails on a store of three
    records: the record with the malformed time stamp comes first, before
    a well-formed one. *)
Lemma C7_counterexample :
  ~ (forall l, sorted_interviews Sample.stored = Some l -> malformed_last l).
Proof.
  intros H.
  specialize (H _ eq_refl [] _ _ eq_refl eq_refl _ (or_introl eq_refl)).
  discriminate H.
Qed.

(** C7, amended.  The history page orders the stored records by the raw
    time stamp string, the missing one counting as the empty string,
    greatest first: the result is a rearrangement of the records in which
    every record is followed only by records whose string is smaller or
    equal, so that the records without a time stamp come last.  Where a
    malformed time stamp lands depends on its characters alone. *)
Theorem C7_history_order :
  forall (interviews l : list (string * json)),
    sorted_interviews interviews = Some l ->
    Permutation interviews l
    /\ StronglySorted newer_or_equal l
    /\ missing_last l.
Proof.
  intros interviews l H. unfold sorted_interviews in H.
  destruct (keyed interviews) as [kl|] eqn:Hk; [|discriminate].
  injection H as <-.
  destruct (keyed_spec _ _ Hk) as [Hm Hf].
  assert (Hp : Permutation kl (sorted_reverse fst kl)) by apply sorted_reverse_perm.
  assert (Hs : StronglySorted newer_or_equal (map snd (sorted_reverse fst kl))).
  { apply sorted_by_key_of; [|apply sorted_reverse_sorted].
    rewrite Forall_forall in Hf |- *. intros p Hp'. apply Hf.
    eapply Permutation_in; [apply Permutation_sym; exact Hp | exact Hp']. }
  split; [|split].
  - rewrite <- Hm. apply Permutation_map. exact Hp.
  - exact Hs.
  - apply sorted_missing_last. exact Hs.
Qed.

Lemma C7_witness :
  Permutation Sample.stored
    [("-b", JObj [("job_title", JStr "B"); ("timestamp", JStr "not a date")]);
     ("-a", JObj [("job_title", JStr "A"); ("timestamp", JStr "2024-05-07T12:00:09")]);
     ("-c", JObj [("job_title", JStr "C")])]
  /\ StronglySorted newer_or_equal
       [("-b", JObj [("job_title", JStr "B"); ("timestamp", JStr "not a date")]);
        ("-a", JObj [("job_title", JStr "A"); ("timestamp", JStr "2024-05-07T12:00:09")]);
        ("-c", JObj [("job_title", JStr "C")])]
  /\ missing_last
       [("-b", JObj [("job_title", JStr "B"); ("timestamp", JStr "not a date")]);
        ("-a", JObj [("job_title", JStr "A"); ("timestamp", JStr "2024-05-07T12:00:09")]);
        ("-c", JObj [("job_title", JStr "C")])].
Proof.
  apply (C7_history_order Sample.stored). reflexivity.
Defined.
(** ** Reachable sessions *)

Lemma interact_reachable (E : env) (sb : sidebar) (act : ui_action) (w : world) :
  reachable E w -> reachable E (snd (interact E sb act w)).
Proof.
  intros Hr. unfold interact.
  destruct (run_interview_app E sb act w) as [o w1] eqn:H1.
  assert (R1 : reachable E w1) by (eapply reach_run; eassumption).
  destruct o as [[]| |e]; try exact R1.
  destruct (run_interview_app E sb NoAction w1) as [o2 w2] eqn:H2.
  eapply reach_run; eassumption.
Qed.

(** C2. Between two runs of the script, in every session the script can
    reach that is in progress, there are at least as many questions as
    answers and at most one more: at most one question is pending. *)
Theorem C2_at_most_one_pending_question :
  forall (E : env) (w : world) (s : session),
    reachable E w ->
    session_state w = Some s ->
    phase_of s = InProgress ->
    (length (answers s) <= length (questions s) <= length (answers s) + 1)%nat.
Proof.
  intros E w s Hr Hs _.
  exact (proj2 (reachable_inv E w Hr s Hs)).
Qed.

Lemma C2_witness :
  (length (answers (Sample.started_session 2))
   <= length (questions (Sample.started_session 2))
   <= length (answers (Sample.started_session 2)) + 1)%nat.
Proof.
  apply (C2_at_most_one_pending_question Sample.E_ok
           (snd (run_interview_app Sample.E_ok Sample.sb2 ClickStartInterview
                   initial_world))).
  - eapply reach_run with (sb := Sample.sb2) (act := ClickStartInterview)
                          (o := Rerun); [apply reach_initial | reflexivity].
  - reflexivity.
  - reflexivity.
Defined.

(** C9. After a submission made in a session the script can reach,
    whichever way it ends (next question appended, interview completed,
    answer rolled back, evaluation failed, answer rejected), the session
    has exactly one feedback entry per answer. *)
Theorem C9_one_feedback_entry_per_answer :
  forall (E : env) (sb : sidebar) (answer : string) (w : world) (s' : session),
    reachable E w ->
    session_state (snd (interact E sb (SubmitAnswer answer) w)) = Some s' ->
    length (feedback s') = length (answers s').
Proof.
  intros E sb answer w s' Hr Hs.
  exact (proj1 (reachable_inv E _ (interact_reachable E sb _ w Hr) s' Hs)).
Qed.

Lemma C9_witness :
  length (feedback (recorded "A1" None
                      (set_questions ["Q1"; "Q2"] (Sample.started_session 2))))
  = length (answers (recorded "A1" None
                       (set_questions ["Q1"; "Q2"] (Sample.started_session 2)))).
Proof.
  apply (C9_one_feedback_entry_per_answer Sample.E_no_feedback Sample.sb2 "A1"
           (snd (run_interview_app Sample.E_no_feedback Sample.sb2
                   ClickStartInterview initial_world))).
  - eapply reach_run with (sb := Sample.sb2) (act := ClickStartInterview)
                          (o := Rerun); [apply reach_initial | reflexivity].
  - reflexivity.
Defined.

(** C10. When the provider answers the first-question request with a
    blank text, the Start button leaves the session exactly as a raised
    request does: the lists are empty (no turn), the interview is not
    started, and the start error is shown after the request. *)
Theorem C10_blank_first_question_is_a_failure :
  forall (E : env) (sb : sidebar) (s : session) (n : nat) (tr : list effect)
         (t : string),
    interview_started s = false ->
    truthy (sb_api_key sb) = true ->
    truthy (sb_job_title sb) = true ->
    OpenAI_raises E (sb_api_key sb) = None ->
    let cl := {| api_key := sb_api_key sb; base_url := OPENROUTER_URL |} in
    let req := question_request (sb_job_title sb) (sb_model_name sb)
                 (sb_max_questions sb) (sb_interview_type sb) [] [] in
    let s' := reset_for_start cl sb s in
    provider E n cl req = Reply t ->
    blank t = true ->
    run_interview_app E sb ClickStartInterview
      {| session_state := Some s; api_calls := n; trace := tr |}
    = (Done tt, {| session_state := Some s'; api_calls := S n;
                   trace := (tr ++ [ApiCall cl req; start_error])%list |})
    /\ questions s' = [] /\ answers s' = []
    /\ phase_of s' = NotStarted
    /\ forall (E' : env) (n' : nat) (tr' : list effect),
         OpenAI_raises E' (sb_api_key sb) = None ->
         raised (provider E' n' cl req) = true ->
         exists l,
           run_interview_app E' sb ClickStartInterview
             {| session_state := Some s; api_calls := n'; trace := tr' |}
           = (Done tt, {| session_state := Some s'; api_calls := S n';
                          trace := (tr' ++ ApiCall cl req :: l ++ [start_error])%list |}).
Proof.
  intros E sb s n tr t Hst Hk Hj Hcl cl req s' Hr Hb.
  split; [|split; [reflexivity | split; [reflexivity | split]]].
  - destruct (start_failed E sb s n tr Hst Hk Hj Hcl) as (l & Hrun & _ & Hl).
    + fold cl req. rewrite Hr. cbn [request_failed].
      rewrite truthy_strip, Hb. reflexivity.
    + fold cl req in Hrun, Hl. rewrite Hr in Hl. rewrite (Hl eq_refl) in Hrun.
      exact Hrun.
  - unfold phase_of, s'. cbn. rewrite Hst. reflexivity.
  - intros E' n' tr' Hcl' Hr'.
    destruct (start_failed E' sb s n' tr' Hst Hk Hj Hcl') as (l & Hrun & _).
    + fold cl req. destruct (provider E' n' cl req); [discriminate Hr' | reflexivity ..].
    + exists l. exact Hrun.
Qed.

Lemma C10_witness :
  run_interview_app Sample.E_blank Sample.sb2 ClickStartInterview
    {| session_state := Some fresh_session; api_calls := 0; trace := [] |}
  = (Done tt,
     {| session_state :=
          Some (reset_for_start
                  {| api_key := "sk-test"; base_url := OPENROUTER_URL |}
                  Sample.sb2 fresh_session);
        api_calls := 1;
        trace :=
          [ApiCall {| api_key := "sk-test"; base_url := OPENROUTER_URL |}
             (question_request "Backend Engineer" "z-ai/glm-4.5-air" 2 "General"
                [] []);
           start_error] |}).
Proof.
  exact (proj1 (C10_blank_first_question_is_a_failure Sample.E_blank Sample.sb2
                  fresh_session 0 [] "   " eq_refl eq_refl eq_refl eq_refl
                  eq_refl eq_refl)).
Defined.


(** The time stamp of the sample clock has the shape the program writes. *)
Example isoformat_noon_shaped :
  isoformat Sample.noon = "2024-05-07T12:00:09"
  /\ iso_shaped (isoformat Sample.noon) = true.
Proof. split; reflexivity. Qed.

(** * Further properties of the script *)

(** ** Time stamps *)



















(** ** The Start button *)

Lemma run_initialises (E : env) (sb : sidebar) (act : ui_action)
    (n : nat) (tr : list effect) :
  run_interview_app E sb act {| session_state := None; api_calls := n; trace := tr |}
  = run_interview_app E sb act
      {| session_state := Some fresh_session; api_calls := n; trace := tr |}.
Proof. unfold run_interview_app. step. symmetry. step. reflexivity. Qed.

Lemma idle_blocks (E : env) (sb : sidebar) (act : ui_action) (s : session)
    (n : nat) (tr : list effect) :
  interview_started s = false ->
  evaluation s = "" ->
  bind display_chat_history
    (fun _ => bind (progress_block E sb act) (fun _ => completed_block act))
    {| session_state := Some s; api_calls := n; trace := tr |}
  = (Done tt, {| session_state := Some s; api_calls := n; trace := tr |}).
Proof.
  intros Hst Hev.
  erewrite bind_Done.
  2:{ unfold display_chat_history. step. rewrite Hst. reflexivity. }
  erewrite bind_Done.
  2:{ unfold progress_block. step. step. rewrite Hst. reflexivity. }
  apply completed_idle. exact Hev.
Qed.

Lemma start_succeeds :
  forall (E : env) (sb : sidebar) (s : session) (n : nat) (tr : list effect)
         (t : string),
    interview_started s = false ->
    truthy (sb_api_key sb) = true ->
    truthy (sb_job_title sb) = true ->
    OpenAI_raises E (sb_api_key sb) = None ->
    let cl := {| api_key := sb_api_key sb; base_url := OPENROUTER_URL |} in
    let req := question_request (sb_job_title sb) (sb_model_name sb)
                 (sb_max_questions sb) (sb_interview_type sb) [] [] in
    provider E n cl req = Reply t ->
    blank t = false ->
    run_interview_app E sb ClickStartInterview
      {| session_state := Some s; api_calls := n; trace := tr |}
    = (Rerun, {| session_state := Some (started_with (strip t) cl sb s);
                 api_calls := S n;
                 trace := (tr ++ [ApiCall cl req])%list |})
    /\ phase_of (started_with (strip t) cl sb s) = InProgress
    /\ pending (started_with (strip t) cl sb s) = true.
Proof.
  intros E sb s n tr t Hst Hk Hj Hcl cl req Hr Hb.
  split; [|split; reflexivity].
  assert (Ht : truthy (strip t) = true) by (rewrite truthy_strip, Hb; reflexivity).
  destruct (generate_question_run E cl (reset_for_start cl sb s) n tr
              (sb_job_title sb) (sb_model_name sb) (sb_max_questions sb)
              (sb_interview_type sb) [] []) as (l & Hrun & _ & Hl).
  fold req in Hrun, Hl. rewrite Hr in Hrun, Hl. cbn [text_of truthy_opt] in Hrun, Hl.
  rewrite (Hl Ht) in Hrun.
  unfold run_interview_app. step.
  unfold bind at 1.
  replace (start_block E sb ClickStartInterview
             {| session_state := Some s; api_calls := n; trace := tr |})
    with (@Rerun unit,
          {| session_state := Some (started_with (strip t) cl sb s);
             api_calls := S n; trace := (tr ++ [ApiCall cl req])%list |});
    [reflexivity|].
  symmetry. unfold start_block. step. rewrite Hst.
  cbn [st_button clicked_start negb andb]. rewrite Hk, Hj. cbn [andb].
  erewrite bind_Done.
  2:{ unfold get_openrouter_client. rewrite Hk, Hcl. reflexivity. }
  cbv beta iota. fold cl.
  step. step. step. step. step. step. step.
  erewrite bind_Done by (exact Hrun). cbv beta iota.
  rewrite Ht. step. step. reflexivity.
Qed.

(** X2. Start on a session that is not started, with a key, a job title
    and a client, when the provider returns a non-blank first question:
    the lists are reset, the stripped question becomes the only
    question, the interview is started and the run ends in a rerun,
    having sent exactly that one request. *)
Theorem X2_start_asks_the_first_question :
  forall (E : env) (sb : sidebar) (s : session) (n : nat) (tr : list effect)
         (t : string),
    interview_started s = false ->
    truthy (sb_api_key sb) = true ->
    truthy (sb_job_title sb) = true ->
    OpenAI_raises E (sb_api_key sb) = None ->
    let cl := {| api_key := sb_api_key sb; base_url := OPENROUTER_URL |} in
    let req := question_request (sb_job_title sb) (sb_model_name sb)
                 (sb_max_questions sb) (sb_interview_type sb) [] [] in
    provider E n cl req = Reply t ->
    blank t = false ->
    run_interview_app E sb ClickStartInterview
      {| session_state := Some s; api_calls := n; trace := tr |}
    = (Rerun, {| session_state := Some (started_with (strip t) cl sb s);
                 api_calls := S n;
                 trace := (tr ++ [ApiCall cl req])%list |})
    /\ phase_of (started_with (strip t) cl sb s) = InProgress
    /\ pending (started_with (strip t) cl sb s) = true.
Proof.
  intros E sb s n tr t Hst Hk Hj Hcl cl req Hr Hb.
  exact (start_succeeds E sb s n tr t Hst Hk Hj Hcl Hr Hb).
Qed.

Lemma X2_witness :
  run_interview_app Sample.E_ok Sample.sb2 ClickStartInterview
    {| session_state := Some fresh_session; api_calls := 0; trace := [] |}
  = (Rerun,
     {| session_state :=
          Some (started_with (strip "Q1")
                  {| api_key := "sk-test"; base_url := OPENROUTER_URL |}
                  Sample.sb2 fresh_session);
        api_calls := 1;
        trace :=
          ([] ++ [ApiCall {| api_key := "sk-test"; base_url := OPENROUTER_URL |}
                    (question_request "Backend Engineer" "z-ai/glm-4.5-air" 2
                       "General" [] [])])%list |}).
Proof.
  exact (proj1 (X2_start_asks_the_first_question Sample.E_ok Sample.sb2
                  fresh_session 0 [] "Q1" eq_refl eq_refl eq_refl eq_refl
                  eq_refl eq_refl)).
Defined.

(** X3. Start without an API key or without a job title only shows the
    warning: the session is untouched and nothing is requested, not even
    a client. *)
Theorem X3_start_needs_key_and_title :
  forall (E : env) (sb : sidebar) (s : session) (n : nat) (tr : list effect),
    phase_of s = NotStarted ->
    truthy (sb_api_key sb) && truthy (sb_job_title sb) = false ->
    run_interview_app E sb ClickStartInterview
      {| session_state := Some s; api_calls := n; trace := tr |}
    = (Done tt,
       {| session_state := Some s; api_calls := n;
          trace := (tr ++ [StWarning
                             "Please enter your API Key and a Job Title in the sidebar."])%list |}).
Proof.
  intros E sb s n tr Hph Hkt.
  assert (Hst : interview_started s = false /\ evaluation s = "").
  { unfold phase_of in Hph. destruct (evaluation s); [|discriminate Hph].
    destruct (interview_started s); [discriminate Hph | auto]. }
  destruct Hst as [Hst Hev].
  unfold run_interview_app. step.
  erewrite bind_Done.
  2:{ unfold start_block. step. rewrite Hst.
      cbn [st_button clicked_start negb andb]. rewrite Hkt. reflexivity. }
  norm. apply idle_blocks; assumption.
Qed.

Lemma X3_witness :
  run_interview_app Sample.E_ok
    {| sb_db_ref := None; sb_api_key := "sk-test"; sb_model_name := "m";
       sb_max_questions := 3; sb_user_name := ""; sb_job_title := "";
       sb_interview_type := "General" |}
    ClickStartInterview
    {| session_state := Some fresh_session; api_calls := 0; trace := [] |}
  = (Done tt,
     {| session_state := Some fresh_session; api_calls := 0;
        trace := ([] ++ [StWarning
                           "Please enter your API Key and a Job Title in the sidebar."])%list |}).
Proof.
  apply (X3_start_needs_key_and_title Sample.E_ok _ fresh_session 0 []);
    reflexivity.
Defined.

(** X4. Start when the client cannot be built (the key is there but the
    constructor raises): the error is shown, the session is untouched,
    in particular its lists are not reset, and nothing is requested. *)
Theorem X4_start_without_client :
  forall (E : env) (sb : sidebar) (s : session) (n : nat) (tr : list effect)
         (e : string),
    phase_of s = NotStarted ->
    truthy (sb_api_key sb) = true ->
    truthy (sb_job_title sb) = true ->
    OpenAI_raises E (sb_api_key sb) = Some e ->
    run_interview_app E sb ClickStartInterview
      {| session_state := Some s; api_calls := n; trace := tr |}
    = (Done tt,
       {| session_state := Some s; api_calls := n;
          trace := (tr ++ [StError ("Failed to create API client: " ++ e)])%list |}).
Proof.
  intros E sb s n tr e Hph Hk Hj Hcl.
  assert (Hst : interview_started s = false /\ evaluation s = "").
  { unfold phase_of in Hph. destruct (evaluation s); [|discriminate Hph].
    destruct (interview_started s); [discriminate Hph | auto]. }
  destruct Hst as [Hst Hev].
  unfold run_interview_app. step.
  erewrite bind_Done.
  2:{ unfold start_block. step. rewrite Hst.
      cbn [st_button clicked_start negb andb]. rewrite Hk, Hj. cbn [andb].
      erewrite bind_Done.
      2:{ unfold get_openrouter_client. rewrite Hk, Hcl. cbn [negb].
          step. reflexivity. }
      reflexivity. }
  norm. apply idle_blocks; assumption.
Qed.

Lemma X4_witness :
  run_interview_app
    {| provider := fun _ _ _ => Reply "Q";
       OpenAI_raises := fun _ => Some "bad proxy";
       utcnow := Sample.noon; push_raises := fun _ => None |}
    Sample.sb2 ClickStartInterview
    {| session_state := Some fresh_session; api_calls := 0; trace := [] |}
  = (Done tt,
     {| session_state := Some fresh_session; api_calls := 0;
        trace := ([] ++ [StError ("Failed to create API client: " ++ "bad proxy")])%list |}).
Proof.
  apply (X4_start_without_client _ Sample.sb2 fresh_session 0 [] "bad proxy");
    reflexivity.
Defined.

Lemma start_block_disabled (E : env) (sb : sidebar) (act : ui_action)
    (s : session) (n : nat) (tr : list effect) :
  interview_started s = true ->
  start_block E sb act {| session_state := Some s; api_calls := n; trace := tr |}
  = (Done tt, {| session_state := Some s; api_calls := n; trace := tr |}).
Proof.
  intros Hst. unfold start_block. step. rewrite Hst.
  unfold st_button. rewrite andb_false_r. reflexivity.
Qed.

(** X5. In a started session the Start button is disabled: a click on it
    is a run in which no widget was used. *)
Theorem X5_start_is_disabled_once_started :
  forall (E : env) (sb : sidebar) (s : session) (n : nat) (tr : list effect),
    interview_started s = true ->
    run_interview_app E sb ClickStartInterview
      {| session_state := Some s; api_calls := n; trace := tr |}
    = run_interview_app E sb NoAction
        {| session_state := Some s; api_calls := n; trace := tr |}.
Proof.
  intros E sb s n tr Hst.
  unfold run_interview_app. step. symmetry. step.
  rewrite (bind_Done _ _ _ _ _ (start_block_disabled E sb NoAction s n tr Hst)).
  rewrite (bind_Done _ _ _ _ _
             (start_block_disabled E sb ClickStartInterview s n tr Hst)).
  reflexivity.
Qed.

Lemma X5_witness :
  run_interview_app Sample.E_ok Sample.sb2 ClickStartInterview
    (Sample.started_world 2)
  = run_interview_app Sample.E_ok Sample.sb2 NoAction (Sample.started_world 2).
Proof.
  apply (X5_start_is_disabled_once_started Sample.E_ok Sample.sb2
           (Sample.started_session 2) 1 []).
  reflexivity.
Defined.

(** ** A completed interview *)

Section Completed.

Variables (E : env) (sb : sidebar) (s : session) (n : nat) (tr : list effect).
Hypothesis Hst : interview_started s = true.
Hypothesis Hev : truthy (evaluation s) = true.
Hypothesis Hlen : length (answers s) <= length (questions s).

Let w0 : world := {| session_state := Some s; api_calls := n; trace := tr |}.

Lemma completed_prefix (act : ui_action) :
  run_interview_app E sb act w0 = completed_block act w0.
Proof.
  unfold run_interview_app, w0. step.
  rewrite (bind_Done _ _ _ _ _ (start_block_disabled E sb act s n tr Hst)).
  erewrite bind_Done by (apply display_ok; exact Hlen).
  erewrite bind_Done.
  2:{ unfold progress_block. step. step. rewrite Hst, Hev. reflexivity. }
  reflexivity.
Qed.

Lemma completed_stays (act : ui_action) :
  act <> ClickNewInterview ->
  run_interview_app E sb act w0
  = (Done tt, {| session_state := Some s; api_calls := n;
                 trace := (tr ++ [StSuccess "Interview completed!"])%list |}).
Proof.
  intros Hact. rewrite completed_prefix.
  unfold completed_block, w0. step. rewrite Hev. step.
  destruct act; try reflexivity. congruence.
Qed.

Lemma completed_reset :
  run_interview_app E sb ClickNewInterview w0
  = (Rerun, {| session_state := None; api_calls := n;
               trace := (tr ++ [StSuccess "Interview completed!"])%list |}).
Proof.
  rewrite completed_prefix.
  unfold completed_block, clear_session, w0. step. rewrite Hev. step.
  cbn [st_button clicked_new negb andb]. step. reflexivity.
Qed.

End Completed.

(** X6. A completed interview is final for everything but the New
    Interview button: whatever else the user does, an answer submitted
    or Start clicked, the run only shows the completion banner; the
    session is untouched and nothing is requested or stored. *)
Theorem X6_completed_session_is_final :
  forall (E : env) (sb : sidebar) (s : session) (n : nat) (tr : list effect)
         (act : ui_action),
    interview_started s = true ->
    truthy (evaluation s) = true ->
    length (answers s) <= length (questions s) ->
    act <> ClickNewInterview ->
    run_interview_app E sb act
      {| session_state := Some s; api_calls := n; trace := tr |}
    = (Done tt, {| session_state := Some s; api_calls := n;
                   trace := (tr ++ [StSuccess "Interview completed!"])%list |}).
Proof.
  intros E sb s n tr act Hst Hev Hlen Hact.
  exact (completed_stays E sb s n tr Hst Hev Hlen act Hact).
Qed.

Lemma X6_witness :
  run_interview_app Sample.E_ok Sample.sb1 (SubmitAnswer "one more")
    {| session_state :=
         Some (set_evaluation "Good." (recorded "A1" (Some "F1")
                                         (Sample.started_session 1)));
       api_calls := 3; trace := [] |}
  = (Done tt,
     {| session_state :=
          Some (set_evaluation "Good." (recorded "A1" (Some "F1")
                                          (Sample.started_session 1)));
        api_calls := 3;
        trace := ([] ++ [StSuccess "Interview completed!"])%list |}).
Proof.
  apply (X6_completed_session_is_final Sample.E_ok Sample.sb1
           (set_evaluation "Good." (recorded "A1" (Some "F1")
                                      (Sample.started_session 1)))
           3 [] (SubmitAnswer "one more"));
    first [reflexivity | discriminate | (cbn; lia)].
Defined.

(** X7. The New Interview button of a completed interview clears the
    session; the run that follows at once starts from the initial
    values: not started, empty lists, no evaluation, no client, three
    questions.  Nothing is requested and the stored records are left
    alone. *)
Theorem X7_new_interview_resets :
  forall (E : env) (sb : sidebar) (s : session) (n : nat) (tr : list effect),
    interview_started s = true ->
    truthy (evaluation s) = true ->
    length (answers s) <= length (questions s) ->
    interact E sb ClickNewInterview
      {| session_state := Some s; api_calls := n; trace := tr |}
    = (Done tt, {| session_state := Some fresh_session; api_calls := n;
                   trace := (tr ++ [StSuccess "Interview completed!"])%list |}).
Proof.
  intros E sb s n tr Hst Hev Hlen.
  unfold interact. rewrite (completed_reset E sb s n tr Hst Hev Hlen).
  rewrite run_initialises.
  unfold run_interview_app. step.
  erewrite bind_Done.
  2:{ unfold start_block. step. reflexivity. }
  apply idle_blocks; reflexivity.
Qed.

Lemma X7_witness :
  interact Sample.E_ok Sample.sb1 ClickNewInterview
    {| session_state :=
         Some (set_evaluation "Good." (recorded "A1" (Some "F1")
                                         (Sample.started_session 1)));
       api_calls := 3; trace := [] |}
  = (Done tt, {| session_state := Some fresh_session; api_calls := 3;
                 trace := ([] ++ [StSuccess "Interview completed!"])%list |}).
Proof.
  apply (X7_new_interview_resets Sample.E_ok Sample.sb1
           (set_evaluation "Good." (recorded "A1" (Some "F1")
                                      (Sample.started_session 1))) 3 []);
    first [reflexivity | (cbn; lia)].
Defined.

(** ** The last answer *)

(** X8. When the answer that reaches the target is submitted and the
    evaluation request fails (it raises, or the text is blank), the
    answer and its feedback stay recorded, the evaluation stays as it
    was, the error is shown, nothing is handed to the store, and the run
    ends in a rerun.  Two requests were sent. *)
Theorem X8_evaluation_failure_keeps_the_answer :
  forall (E : env) (sb : sidebar) (s : session) (n : nat) (tr : list effect)
         (c : client) (jt q answer : string),
    phase_of s = InProgress ->
    nth_error (questions s) (length (answers s)) = Some q ->
    ss_client s = Some c ->
    job_title s = Some jt ->
    blank answer = false ->
    Z.of_nat (length (answers s) + 1) = max_questions s ->
    request_failed
      (provider E (S n) c
         (evaluation_request jt (sb_model_name sb) (questions s)
            (answers s ++ [answer])%list)) = true ->
    let fb := text_of (provider E n c
                         (feedback_request (sb_model_name sb) q answer)) in
    exists l,
      run_interview_app E sb (SubmitAnswer answer)
        {| session_state := Some s; api_calls := n; trace := tr |}
      = (Rerun, {| session_state := Some (recorded answer fb s);
                   api_calls := S (S n); trace := (tr ++ l)%list |})
      /\ In (StError "Failed to get final evaluation.") l
      /\ stored_records l = []
      /\ phase_of (recorded answer fb s) = InProgress.
Proof.
  intros E sb s n tr c jt q answer Hph Hq Hc Hj Hb Hmax Hf fb.
  destruct (submit_evaluation_failed E sb s n tr c jt q answer Hph Hq Hc Hj Hb)
    as (l & Hrun & Hin & _ & Hst); [lia | exact Hf |].
  exists l. split; [|split; [exact Hin | split; [exact Hst|]]].
  - rewrite Hrun. unfold after_evaluation.
    cbn [answers recorded set_feedback set_answers max_questions].
    rewrite length_app. cbn [length].
    replace (Z.of_nat (length (answers s) + 1) =? max_questions s)%Z with true;
      [reflexivity | symmetry; apply Z.eqb_eq; exact Hmax].
  - destruct (phase_in_progress s Hph) as [Hst' Hev].
    unfold phase_of. cbn [evaluation interview_started recorded set_feedback set_answers].
    rewrite Hev, Hst'. reflexivity.
Qed.

Lemma X8_witness :
  exists l,
    run_interview_app Sample.E_eval_fails Sample.sb1 (SubmitAnswer "A1")
      (Sample.started_world 1)
    = (Rerun,
       {| session_state :=
            Some (recorded "A1"
                    (text_of (provider Sample.E_eval_fails 1
                                {| api_key := "sk-test"; base_url := OPENROUTER_URL |}
                                (feedback_request "z-ai/glm-4.5-air" "Q1" "A1")))
                    (Sample.started_session 1));
          api_calls := 3; trace := ([] ++ l)%list |})
    /\ In (StError "Failed to get final evaluation.") l
    /\ stored_records l = []
    /\ phase_of (recorded "A1"
                   (text_of (provider Sample.E_eval_fails 1
                               {| api_key := "sk-test"; base_url := OPENROUTER_URL |}
                               (feedback_request "z-ai/glm-4.5-air" "Q1" "A1")))
                   (Sample.started_session 1)) = InProgress.
Proof.
  apply (X8_evaluation_failure_keeps_the_answer Sample.E_eval_fails Sample.sb1
           (Sample.started_session 1) 1 []
           {| api_key := "sk-test"; base_url := OPENROUTER_URL |}
           "Backend Engineer" "Q1" "A1"); reflexivity.
Defined.

(** X9. A started session without evaluation in which every question is
    answered draws no widget that acts: for every action, sidebar and
    provider the run ends normally with the same session, the same call
    count and the same trace. *)
Theorem X9_answered_without_evaluation_is_stuck :
  forall (E : env) (sb : sidebar) (act : ui_action) (s : session) (n : nat)
         (tr : list effect),
    interview_started s = true ->
    evaluation s = "" ->
    length (answers s) = length (questions s) ->
    run_interview_app E sb act
      {| session_state := Some s; api_calls := n; trace := tr |}
    = (Done tt, {| session_state := Some s; api_calls := n; trace := tr |}).
Proof.
  intros E sb act s n tr Hst Hev Hlen.
  exact (stuck_after_last_answer E sb act s n tr Hst Hev Hlen).
Qed.

Lemma X9_witness :
  run_interview_app Sample.E_ok Sample.sb1 (SubmitAnswer "again")
    {| session_state := Some (recorded "A1" None (Sample.started_session 1));
       api_calls := 3; trace := [] |}
  = (Done tt,
     {| session_state := Some (recorded "A1" None (Sample.started_session 1));
        api_calls := 3; trace := [] |}).
Proof.
  apply (X9_answered_without_evaluation_is_stuck Sample.E_ok Sample.sb1
           (SubmitAnswer "again") (recorded "A1" None (Sample.started_session 1))
           3 []); reflexivity.
Defined.

(** ** Requests *)

(** X10. An interview type that is neither Technical nor the behavioural
    one gets the messages of a General interview. *)
Theorem X10_unknown_interview_type_is_general :
  forall (job : string) (max : Z) (interview_type : string)
         (qs as_ : list string),
    interview_type <> "Technical" ->
    interview_type <> "Behavioral (STAR format)" ->
    question_messages job max interview_type qs as_
    = question_messages job max "General" qs as_.
Proof.
  intros job max it qs as_ Ht Hb.
  unfold question_messages, question_system_prompt.
  apply String.eqb_neq in Ht. apply String.eqb_neq in Hb.
  rewrite Ht, Hb. reflexivity.
Qed.

Lemma X10_witness :
  question_messages "Cook" 3 "Panel" ["Q1"] ["A1"]
  = question_messages "Cook" 3 "General" ["Q1"] ["A1"].
Proof.
  apply (X10_unknown_interview_type_is_general "Cook" 3 "Panel" ["Q1"] ["A1"]);
    discriminate.
Defined.

Lemma history_roles (qs as_ : list string) :
  map msg_role (history_messages qs as_)
  = concat (repeat [assistant; user] (Nat.min (length qs) (length as_))).
Proof.
  revert as_. induction qs as [|q qs IH]; intros [|a as_]; simpl;
    try reflexivity.
  rewrite IH. reflexivity.
Qed.

(** X11. The messages of a question request are one system message, then
    an assistant and a user message for every question that has an
    answer, then one user message; this last one asks for the first
    question exactly when no question was asked so far. *)
Theorem X11_question_request_shape :
  forall (job : string) (max : Z) (interview_type : string)
         (qs as_ : list string),
    let k := Nat.min (length qs) (length as_) in
    map msg_role (question_messages job max interview_type qs as_)
    = (system :: concat (repeat [assistant; user] k) ++ [user])%list
    /\ length (question_messages job max interview_type qs as_) = 2 * k + 2
    /\ (msg_content
          (last (question_messages job max interview_type qs as_)
             {| msg_role := system; msg_content := "" |})
        = "Please ask me the first question." <-> qs = []).
Proof.
  intros job max it qs as_ k.
  assert (Hroles :
            map msg_role (question_messages job max it qs as_)
            = (system :: concat (repeat [assistant; user] k) ++ [user])%list).
  { unfold question_messages. cbn [app map]. rewrite map_app, history_roles.
    reflexivity. }
  split; [exact Hroles | split].
  - rewrite <- (length_map msg_role), Hroles. cbn [length].
    rewrite length_app.
    assert (Hs : forall j, length (concat (repeat [assistant; user] j)) = 2 * j).
    { induction j as [|j IHj]; [reflexivity|].
      cbn [repeat concat app length]. rewrite IHj. lia. }
    rewrite Hs. cbn [length]. lia.
  - unfold question_messages. rewrite app_assoc, last_last.
    cbn [msg_content]. destruct qs; split; intros H;
      first [reflexivity | discriminate H].
Qed.

Lemma history_ignores_unanswered (qs extra as_ : list string) :
  length qs = length as_ ->
  history_messages (qs ++ extra) as_ = history_messages qs as_.
Proof.
  revert as_. induction qs as [|q qs IH]; intros [|a as_] H;
    try discriminate H.
  - destruct extra; reflexivity.
  - cbn [app history_messages]. rewrite IH by (injection H; auto). reflexivity.
Qed.

Lemma transcript_ignores_unanswered (i : nat) (qs extra as_ : list string) :
  length qs = length as_ ->
  transcript_from i (qs ++ extra) as_ = transcript_from i qs as_.
Proof.
  revert i as_. induction qs as [|q qs IH]; intros i [|a as_] H;
    try discriminate H.
  - destruct extra; reflexivity.
  - cbn [app transcript_from]. rewrite IH by (injection H; auto). reflexivity.
Qed.

(** X12. Questions beyond the answered ones never enter a prompt: with
    as many answers as questions, appending further questions changes
    neither the evaluation request nor, when some question was already
    asked, the request for the next question. *)
Theorem X12_unanswered_questions_stay_out_of_prompts :
  forall (job model_name : string) (max : Z) (interview_type : string)
         (qs extra as_ : list string),
    length qs = length as_ ->
    evaluation_request job model_name (qs ++ extra) as_
    = evaluation_request job model_name qs as_
    /\ (qs <> [] ->
        question_request job model_name max interview_type (qs ++ extra) as_
        = question_request job model_name max interview_type qs as_).
Proof.
  intros job m max it qs extra as_ H. split.
  - unfold evaluation_request.
    rewrite transcript_ignores_unanswered by exact H. reflexivity.
  - intros Hne. unfold question_request, question_messages.
    rewrite history_ignores_unanswered by exact H.
    destruct qs; [congruence | reflexivity].
Qed.

Lemma X12_witness :
  evaluation_request "Cook" "m" (["Q1"] ++ ["Q2"]) ["A1"]
  = evaluation_request "Cook" "m" ["Q1"] ["A1"]
  /\ (["Q1"] <> [] ->
      question_request "Cook" "m" 3 "General" (["Q1"] ++ ["Q2"]) ["A1"]
      = question_request "Cook" "m" 3 "General" ["Q1"] ["A1"]).
Proof.
  apply (X12_unanswered_questions_stay_out_of_prompts "Cook" "m" 3 "General"
           ["Q1"] ["Q2"] ["A1"]).
  reflexivity.
Defined.

(** ** The store *)

Lemma store_session_quiet (E : env) (db_ref : option db_reference) (d : json)
    (w : world) :
  exists l,
    store_session E db_ref d w
    = (Done tt, {| session_state := session_state w; api_calls := api_calls w;
                   trace := (trace w ++ l)%list |})
    /\ api_requests l = [].
Proof.
  destruct w as [so n tr]. unfold store_session.
  destruct db_ref as [r|].
  - destruct (push_raises E d) as [e|].
    + eexists. split; [step; norm; reflexivity | reflexivity].
    + eexists. split; [step; step; norm; reflexivity | reflexivity].
  - eexists. split; [step; norm; reflexivity | reflexivity].
Qed.

(** X13. [store_session] always ends normally and touches neither the
    session nor the call counter.  It writes the record it is given, once,
    exactly when a database is configured and the write does not raise;
    when the write raises a warning with the error text is shown
    instead, and without a database nothing is shown on the page. *)
Theorem X13_store_session_outcomes :
  forall (E : env) (db_ref : option db_reference) (d : json) (w : world),
    exists l,
      store_session E db_ref d w
      = (Done tt, {| session_state := session_state w; api_calls := api_calls w;
                     trace := (trace w ++ l)%list |})
      /\ api_requests l = []
      /\ pushed_records l
         = match db_ref, push_raises E d with
           | Some _, None => [d]
           | _, _ => []
           end
      /\ (forall e, db_ref <> None -> push_raises E d = Some e ->
          In (StWarning ("Warning: Failed to store interview session: " ++ e)) l)
      /\ (db_ref = None ->
          forall m, ~ In (StWarning m) l /\ ~ In (StError m) l /\ ~ In (StSuccess m) l).
Proof.
  intros E db d [so n tr]. unfold store_session.
  destruct db as [r|].
  - destruct (push_raises E d) as [e|] eqn:Hp.
    + eexists. split; [step; norm; reflexivity|].
      split; [reflexivity | split; [reflexivity | split]].
      * intros e' _ [= <-]. right. left. reflexivity.
      * intros H. discriminate H.
    + eexists. split; [step; step; norm; reflexivity|].
      split; [reflexivity | split; [reflexivity | split]].
      * intros e' _ H. discriminate H.
      * intros H. discriminate H.
  - eexists. split; [step; norm; reflexivity|].
    split; [reflexivity | split; [reflexivity | split]].
    * intros e' H. congruence.
    * intros _ m. repeat split; intros [H|[H|[]]]; discriminate H.
Qed.

Lemma X13_witness :
  exists l,
    store_session Sample.E_ok (Some Interviews) (JStr "r") initial_world
    = (Done tt, {| session_state := session_state initial_world;
                   api_calls := api_calls initial_world;
                   trace := (trace initial_world ++ l)%list |})
    /\ api_requests l = []
    /\ pushed_records l = [JStr "r"].
Proof.
  destruct (X13_store_session_outcomes Sample.E_ok (Some Interviews) (JStr "r")
              initial_world) as (l & H1 & H2 & H3 & _).
  exists l. auto.
Defined.

(** ** The order of the history, continued *)

Lemma string_leb_refl (s : string) : String.leb s s = true.
Proof. destruct (String.leb_total s s); assumption. Qed.

Section Stable.

Context {A : Type}.
Variable key : A -> string.
Variable k : string.

Let has_key (x : A) : bool := String.eqb (key x) k.

Lemma filter_insert_reverse (x : A) (l : list A) :
  filter has_key (insert_reverse key x l) = filter has_key (x :: l).
Proof.
  induction l as [|y r IH]; [reflexivity|].
  cbn [insert_reverse].
  destruct (String.leb (key y) (key x)) eqn:Hyx; [reflexivity|].
  cbn [filter] in IH |- *. rewrite IH.
  destruct (has_key x) eqn:Hx; [|reflexivity].
  destruct (has_key y) eqn:Hy; [|reflexivity].
  unfold has_key in Hx, Hy.
  apply String.eqb_eq in Hx. apply String.eqb_eq in Hy.
  rewrite Hx, Hy, string_leb_refl in Hyx. discriminate Hyx.
Qed.

Lemma filter_sorted_reverse (l : list A) :
  filter has_key (sorted_reverse key l) = filter has_key l.
Proof.
  induction l as [|x r IH]; [reflexivity|].
  cbn [sorted_reverse]. rewrite filter_insert_reverse.
  cbn [filter]. rewrite IH. reflexivity.
Qed.

End Stable.

Lemma filter_map_snd {A B : Type} (p : B -> bool) (l : list (A * B)) :
  filter p (map snd l) = map snd (filter (fun x => p (snd x)) l).
Proof.
  induction l as [|x l IH]; [reflexivity|].
  cbn [map filter]. destruct (p (snd x)); cbn [map]; rewrite IH; reflexivity.
Qed.

(** X14. The sort of the history page is stable: the records that carry
    the same time stamp string (or all lack one) come out in the order
    in which the database listed them. *)
Theorem X14_history_sort_is_stable :
  forall (interviews l : list (string * json)) (k : string),
    sorted_interviews interviews = Some l ->
    filter (fun it => String.eqb (key_of it) k) l
    = filter (fun it => String.eqb (key_of it) k) interviews.
Proof.
  intros interviews l k H. unfold sorted_interviews in H.
  destruct (keyed interviews) as [kl|] eqn:Hk; [|discriminate].
  injection H as <-.
  destruct (keyed_spec _ _ Hk) as [Hm Hf].
  rewrite <- Hm, !filter_map_snd. f_equal.
  assert (Hp : Permutation kl (sorted_reverse fst kl)) by apply sorted_reverse_perm.
  rewrite Forall_forall in Hf.
  rewrite (filter_ext_in (fun x => String.eqb (key_of (snd x)) k)
             (fun x => String.eqb (fst x) k) (sorted_reverse fst kl)).
  2:{ intros p Hin. rewrite Hf; [reflexivity|].
      eapply Permutation_in; [apply Permutation_sym; exact Hp | exact Hin]. }
  rewrite (filter_ext_in (fun x => String.eqb (key_of (snd x)) k)
             (fun x => String.eqb (fst x) k) kl).
  2:{ intros p Hin. rewrite Hf; [reflexivity | exact Hin]. }
  apply filter_sorted_reverse.
Qed.

Lemma X14_witness :
  filter (fun it => String.eqb (key_of it) "")
    [("-z", JObj [("timestamp", JStr "2024")]); ("-b", JObj []); ("-a", JObj [])]
  = filter (fun it => String.eqb (key_of it) "")
      [("-b", JObj []); ("-z", JObj [("timestamp", JStr "2024")]); ("-a", JObj [])].
Proof.
  apply (X14_history_sort_is_stable
           [("-b", JObj []); ("-z", JObj [("timestamp", JStr "2024")]);
            ("-a", JObj [])]).
  reflexivity.
Defined.

(** ** Runs never raise *)

Lemma safe_bind {A B} (m : M A) (k : A -> M B) :
  safe m -> (forall a, safe (k a)) -> safe (bind m k).
Proof.
  intros Hm Hk w o w' Hw. unfold bind.
  destruct (m w) as [[a| |e] w1] eqn:Hmw; intros H.
  - destruct (Hm _ _ _ Hw Hmw) as (_ & _ & Hl).
    eapply Hk; [apply (Hl a eq_refl) | exact H].
  - inversion H; subst. destruct (Hm _ _ _ Hw Hmw) as (Hn & Hg & _).
    split; [intros e; discriminate | split; [exact Hg | intros a; discriminate]].
  - destruct (Hm _ _ _ Hw Hmw) as (Hn & _). exfalso. exact (Hn e eq_refl).
Qed.

Lemma live_good (w : world) : live w -> good w.
Proof.
  intros (s & Hs & Hi & Ho) s' Hs'. rewrite Hs in Hs'. injection Hs' as <-. auto.
Qed.

Ltac settle :=
  lazymatch goal with
  | Hs : session_inv ?s, Ho : session_ok ?s |- _ =>
      destruct Hs as [Hfb Hlen];
      destruct Ho as (Hstarted & Hqs & Has & Hdone)
  end;
  repeat match goal with
         | H : pop (_ ++ [_]) = None |- _ => rewrite pop_app in H; discriminate H
         | H : pop (_ ++ [_]) = Some _ |- _ =>
             rewrite pop_app in H; injection H as <-
         | H : (_ <? _)%nat = true |- _ => apply Nat.ltb_lt in H
         | H : (_ <? _)%nat = false |- _ => apply Nat.ltb_ge in H
         | H : nth_error _ _ = None |- _ => apply nth_error_None in H
         | H : _ && _ = true |- _ => apply andb_true_iff in H; destruct H
         | H : negb _ = true |- _ => apply negb_true_iff in H
         | H : st_button _ _ = true |- _ =>
             unfold st_button in H; apply andb_true_iff in H; destruct H
         | H : truthy_opt (Some _) = true |- _ => cbn [truthy_opt] in H
         | H : truthy (strip _) = true |- _ =>
             rewrite truthy_strip in H; apply negb_true_iff in H
         end.

Ltac session_goal :=
  unfold session_inv, session_ok;
  cbn [interview_started questions answers evaluation ss_client
       max_questions feedback job_title truthy
       set_interview_started set_questions set_answers
       set_evaluation set_client set_max_questions set_feedback
       set_job_title] in *;
  rewrite ?length_app; cbn [length];
  repeat match goal with
         | |- _ /\ _ => split
         | |- _ -> _ => intro
         | |- (_ ++ [_])%list <> [] => intro
         | |- Forall _ (_ ++ _) => apply Forall_app; split
         | |- Forall _ (_ :: _) => constructor
         | |- Forall _ [] => constructor
         | H : ?P, Hs : ?P -> _ |- _ => specialize (Hs H)
         | H : _ /\ _ |- _ => destruct H
         | H : (_ ++ [_])%list = [] |- _ => apply app_eq_nil in H; destruct H
         end;
  try discriminate; try lia; try congruence; try assumption.

Ltac leaf :=
  first
    [ (* an exception would contradict the shape of the session *)
      exfalso; settle;
      first [ lia
            | match goal with
              | Hj : job_title ?s = None, Hst : interview_started ?s = true,
                Hs : interview_started ?s = true -> _ |- _ =>
                  destruct (Hs Hst) as (Hjt & _); exact (Hjt Hj)
              end ]
    | split; [intros e; discriminate|];
      split;
      [ intros s' Hs'; cbn [session_state] in Hs';
        first [ discriminate Hs'
              | injection Hs' as <-; settle; split; session_goal ]
      | intros a Ha;
        first [ discriminate Ha
              | eexists; split; [reflexivity|]; settle; split; session_goal ] ] ].

Lemma safe_display : safe display_chat_history.
Proof.
  intros w o w' (s & Hs & Hi & Ho) H. destruct w as [so n tr].
  cbn [session_state] in Hs. subst so.
  unfold display_chat_history in H. open_script H. crunch H.
  all: try (split; [intros e; discriminate|];
            split; [apply live_good|intros a _]; exists s; auto).
  exfalso. settle. lia.
Qed.

Lemma safe_completed act : safe (completed_block act).
Proof.
  intros w o w' (s & Hs & Hi & Ho) H. destruct w as [so n tr].
  cbn [session_state] in Hs. subst so.
  unfold completed_block, clear_session in H. open_script H. crunch H.
  all: split; [intros e; discriminate|].
  all: split;
    [ intros s' Hs'; cbn [session_state] in Hs'; try discriminate Hs';
      injection Hs' as <-; auto
    | intros a Ha; try discriminate Ha; exists s; auto ].
Qed.

Lemma safe_start E sb act : safe (start_block E sb act).
Proof.
  intros w o w' (s & Hs & Hi & Ho) H. destruct w as [so n tr].
  cbn [session_state] in Hs. subst so.
  unfold start_block in H. open_script H. crunch H.
  all: try (split; [intros e; discriminate|];
            split; [apply live_good|intros a _]; exists s; auto; fail).
  all: leaf.
Qed.

Lemma safe_progress E sb act : safe (progress_block E sb act).
Proof.
  intros w o w' (s & Hs & Hi & Ho) H. destruct w as [so n tr].
  cbn [session_state] in Hs. subst so.
  unfold progress_block, on_submit, advance, ask_next_question, finish_interview,
    pop_answers, pop_feedback, read_job_title in H.
  open_script H. crunch H.
  all: try (split; [intros e; discriminate|];
            split; [apply live_good|intros a _]; exists s; auto; fail).
  all: leaf.
Qed.

Lemma safe_initialise (w : world) (o : outcome unit) (w' : world) :
  good w -> initialise w = (o, w') -> o = Done tt /\ live w'.
Proof.
  intros Hg H. destruct w as [[s|] n tr]; unfold initialise in H;
    cbn [session_state with_session] in H; injection H as <- <-.
  - split; [reflexivity|]. exists s.
    destruct (Hg s eq_refl) as [Hi Ho]. auto.
  - split; [reflexivity|]. exists fresh_session.
    split; [reflexivity|]. split.
    + split; cbn; lia.
    + unfold session_ok. cbn [fresh_session interview_started questions answers
                               evaluation truthy].
      split; [intros H; discriminate H|].
      split; [apply Forall_nil|]. split; [apply Forall_nil|].
      intros H; discriminate H.
Qed.

Lemma run_is_safe (E : env) (sb : sidebar) (act : ui_action)
    (w : world) (o : outcome unit) (w' : world) :
  good w -> run_interview_app E sb act w = (o, w') ->
  (forall e, o <> Raised e) /\ good w'.
Proof.
  intros Hg H. unfold run_interview_app in H. unfold bind at 1 in H.
  destruct (initialise w) as [o1 w1] eqn:Hi.
  destruct (safe_initialise w o1 w1 Hg Hi) as [-> Hl].
  assert (Hs : safe (bind (start_block E sb act)
                       (fun _ => bind display_chat_history
                          (fun _ => bind (progress_block E sb act)
                             (fun _ => completed_block act))))).
  { apply safe_bind; [apply safe_start | intros _].
    apply safe_bind; [apply safe_display | intros _].
    apply safe_bind; [apply safe_progress | intros _].
    apply safe_completed. }
  destruct (Hs _ _ _ Hl H) as (Hn & Hg' & _). auto.
Qed.

Lemma reachable_good (E : env) (w : world) : reachable E w -> good w.
Proof.
  induction 1 as [|sb act w w' o Hr IH Hrun].
  - intros s H. discriminate H.
  - exact (proj2 (run_is_safe E sb act w o w' IH Hrun)).
Qed.

(** X15. No run of the script started from a world it can reach ends in
    an uncaught exception: no index is out of range, no key of the
    session state is missing, no list is popped when empty. *)
Theorem X15_reachable_runs_never_raise :
  forall (E : env) (sb : sidebar) (act : ui_action) (w : world),
    reachable E w ->
    ended_in_exception (fst (run_interview_app E sb act w)) = false.
Proof.
  intros E sb act w Hr.
  destruct (run_interview_app E sb act w) as [o w'] eqn:H.
  pose proof (proj1 (run_is_safe E sb act w o w' (reachable_good E w Hr) H)) as Hn.
  destruct o as [a| |e]; [reflexivity | reflexivity|].
  exfalso. exact (Hn e eq_refl).
Qed.

Lemma X15_witness :
  ended_in_exception
    (fst (run_interview_app Sample.E_next_fails Sample.sb2 (SubmitAnswer "A1")
            (snd (run_interview_app Sample.E_next_fails Sample.sb2
                    ClickStartInterview initial_world))))
  = false.
Proof.
  apply (X15_reachable_runs_never_raise Sample.E_next_fails Sample.sb2
           (SubmitAnswer "A1")).
  eapply reach_run with (sb := Sample.sb2) (act := ClickStartInterview)
                        (o := Rerun); [apply reach_initial | reflexivity].
Defined.

(** X16. In every session the script can reach, no recorded question is
    empty and no recorded answer is blank; a started interview has a job
    title, a client and at least one question; and an evaluation is
    present only in a started interview whose questions are all
    answered. *)
Theorem X16_reachable_transcript_is_clean :
  forall (E : env) (w : world) (s : session),
    reachable E w ->
    session_state w = Some s ->
    Forall (fun q => truthy q = true) (questions s)
    /\ Forall (fun a => blank a = false) (answers s)
    /\ (interview_started s = true ->
        job_title s <> None /\ ss_client s <> None /\ questions s <> [])
    /\ (truthy (evaluation s) = true ->
        interview_started s = true
        /\ length (answers s) = length (questions s)).
Proof.
  intros E w s Hr Hs.
  destruct (reachable_good E w Hr s Hs) as (_ & H1 & H2 & H3 & H4). auto.
Qed.

Lemma X16_witness :
  Forall (fun q => truthy q = true) (questions (Sample.started_session 2))
  /\ Forall (fun a => blank a = false) (answers (Sample.started_session 2))
  /\ (interview_started (Sample.started_session 2) = true ->
      job_title (Sample.started_session 2) <> None
      /\ ss_client (Sample.started_session 2) <> None
      /\ questions (Sample.started_session 2) <> [])
  /\ (truthy (evaluation (Sample.started_session 2)) = true ->
      interview_started (Sample.started_session 2) = true
      /\ length (answers (Sample.started_session 2))
         = length (questions (Sample.started_session 2))).
Proof.
  apply (X16_reachable_transcript_is_clean Sample.E_ok
           (snd (run_interview_app Sample.E_ok Sample.sb2 ClickStartInterview
                   initial_world))).
  - eapply reach_run with (sb := Sample.sb2) (act := ClickStartInterview)
                          (o := Rerun); [apply reach_initial | reflexivity].
  - reflexivity.
Defined.

(** ** From Start to the evaluation *)

Lemma noaction_idle (E : env) (sb : sidebar) (s : session) (n : nat)
    (tr : list effect) :
  evaluation s = "" ->
  length (answers s) <= length (questions s) ->
  run_interview_app E sb NoAction
    {| session_state := Some s; api_calls := n; trace := tr |}
  = (Done tt, {| session_state := Some s; api_calls := n; trace := tr |}).
Proof.
  intros Hev Hlen. unfold run_interview_app. step.
  erewrite bind_Done.
  2:{ unfold start_block. step. reflexivity. }
  erewrite bind_Done by (apply display_ok; exact Hlen).
  erewrite bind_Done.
  2:{ unfold progress_block. step. step.
      destruct (interview_started s && negb (truthy (evaluation s)));
        [|reflexivity].
      step. step.
      destruct (length (answers s) <? length (questions s))%nat; reflexivity. }
  apply completed_idle. exact Hev.
Qed.

Section HappyPath.

Variables (E : env) (sb : sidebar).
Hypothesis Hreplies : always_replies E.
Hypothesis Hk : truthy (sb_api_key sb) = true.
Hypothesis Hj : truthy (sb_job_title sb) = true.
Hypothesis Hcl : OpenAI_raises E (sb_api_key sb) = None.

Let cl : client := {| api_key := sb_api_key sb; base_url := OPENROUTER_URL |}.

Lemma start_underway :
  underway sb [] (snd (interact E sb ClickStartInterview initial_world)).
Proof.
  destruct (Hreplies 0 cl
              (question_request (sb_job_title sb) (sb_model_name sb)
                 (sb_max_questions sb) (sb_interview_type sb) [] []))
    as (t & Hr & Hb).
  destruct (start_succeeds E sb fresh_session 0 [] t
              eq_refl Hk Hj Hcl Hr Hb) as (Hrun & Hph & _).
  unfold interact, initial_world. rewrite run_initialises, Hrun.
  rewrite noaction_idle by (cbn; first [reflexivity | lia]).
  cbn [snd]. eexists.
  split; [reflexivity|]. split; [exact Hph|].
  repeat split.
Qed.

Lemma submit_underway (done : list string) (a : string) (w : world) :
  underway sb done w ->
  blank a = false ->
  (Z.of_nat (length done + 1) < sb_max_questions sb)%Z ->
  underway sb (done ++ [a]) (snd (interact E sb (SubmitAnswer a) w)).
Proof.
  intros (s & Hs & Hph & Hc & Hjt & Hmax & Han & Hql & Hfl & Hst & Hn) Hb Hlt.
  destruct w as [so n tr]. cbn [session_state trace api_calls] in Hs, Hst, Hn.
  subst so.
  assert (Hq : exists q, nth_error (questions s) (length (answers s)) = Some q).
  { apply nth_error_pending. apply Nat.ltb_lt. rewrite Han, Hql. lia. }
  destruct Hq as [q Hq].
  destruct (Hreplies (S n) cl
              (question_request (sb_job_title sb) (sb_model_name sb)
                 (max_questions s) (sb_interview_type sb) (questions s)
                 (answers s ++ [a])%list)) as (t & Hr & Hbt).
  destruct (submit_next E sb s n tr cl (sb_job_title sb) q a Hph Hq Hc Hjt Hb t)
    as (l & Hrun & Hreq & Hsto); [rewrite Han, Hmax; exact Hlt | exact Hr | exact Hbt |].
  destruct (phase_in_progress s Hph) as [Hstd Hev].
  unfold interact. rewrite Hrun.
  rewrite noaction_idle.
  2:{ cbn [evaluation set_questions recorded set_feedback set_answers]. exact Hev. }
  2:{ cbn [answers questions set_questions recorded set_feedback set_answers].
      rewrite !length_app. cbn [length]. rewrite Han, Hql. lia. }
  cbn [snd]. eexists. split; [reflexivity|].
  split.
  { unfold phase_of.
    cbn [evaluation interview_started set_questions recorded set_feedback set_answers].
    rewrite Hev, Hstd. reflexivity. }
  cbn [ss_client job_title max_questions answers questions feedback
       set_questions recorded set_feedback set_answers trace api_calls].
  rewrite !length_app, stored_records_app, Hst, Hsto, Han, Hql, Hfl, Hn.
  cbn [length app]. repeat split; try assumption; lia.
Qed.

Lemma submit_finished (done : list string) (a : string) (w : world) :
  underway sb done w ->
  blank a = false ->
  Z.of_nat (length done + 1) = sb_max_questions sb ->
  finished (done ++ [a]) (snd (interact E sb (SubmitAnswer a) w)).
Proof.
  intros (s & Hs & Hph & Hc & Hjt & Hmax & Han & Hql & Hfl & Hst & Hn) Hb Heq.
  destruct w as [so n tr]. cbn [session_state trace api_calls] in Hs, Hst, Hn.
  subst so.
  assert (Hq : exists q, nth_error (questions s) (length (answers s)) = Some q).
  { apply nth_error_pending. apply Nat.ltb_lt. rewrite Han, Hql. lia. }
  destruct Hq as [q Hq].
  destruct (Hreplies (S n) cl
              (evaluation_request (sb_job_title sb) (sb_model_name sb)
                 (questions s) (answers s ++ [a])%list)) as (t & Hr & Hbt).
  destruct (submit_evaluation_ok E sb s n tr cl (sb_job_title sb) q a Hph Hq Hc
              Hjt Hb t) as (l & Hrun & Hreq & Hsto);
    [rewrite Han, Hmax; lia | exact Hr | exact Hbt |].
  destruct (phase_in_progress s Hph) as [Hstd Hev].
  assert (Hte : truthy (strip t) = true) by (rewrite truthy_strip, Hbt; reflexivity).
  assert (Hafter : after_evaluation
                     (recorded a (text_of (provider E n cl
                                             (feedback_request (sb_model_name sb) q a)))
                        s) = Rerun).
  { unfold after_evaluation.
    cbn [answers recorded set_feedback set_answers max_questions].
    rewrite length_app. cbn [length]. rewrite Han, Hmax.
    replace (Z.of_nat (length done + 1) =? sb_max_questions sb)%Z with true;
      [reflexivity | symmetry; apply Z.eqb_eq; exact Heq]. }
  unfold interact. rewrite Hrun, Hafter.
  rewrite completed_stays.
  2:{ exact Hstd. }
  2:{ exact Hte. }
  2:{ cbn [answers questions set_evaluation recorded set_feedback set_answers].
      rewrite length_app. cbn [length]. rewrite Han, Hql. lia. }
  2:{ discriminate. }
  cbn [snd]. do 2 eexists. split; [reflexivity|].
  split.
  { unfold phase_of. cbn [evaluation set_evaluation]. rewrite Hte. reflexivity. }
  cbn [answers questions feedback set_evaluation recorded set_feedback set_answers
       trace api_calls].
  rewrite !length_app, !stored_records_app, Hst, Hsto, Han, Hql, Hfl, Hn.
  cbn [length app stored_records]. repeat split; try reflexivity; lia.
Qed.

Lemma answers_finish (rest done : list string) (w : world) :
  underway sb done w ->
  rest <> [] ->
  Forall (fun a => blank a = false) rest ->
  Z.of_nat (length done + length rest) = sb_max_questions sb ->
  finished (done ++ rest)
    (fold_left (fun w a => snd (interact E sb a w)) (map SubmitAnswer rest) w).
Proof.
  revert done w. induction rest as [|a rest IH]; intros done w Hu Hne Hall Hlen;
    [congruence|].
  inversion Hall as [|? ? Hb Hall']; subst.
  cbn [map fold_left]. destruct rest as [|a' rest].
  - cbn [map fold_left]. apply submit_finished; [exact Hu | exact Hb|].
    cbn [length] in Hlen. exact Hlen.
  - replace (done ++ a :: a' :: rest)%list with ((done ++ [a]) ++ a' :: rest)%list
      by (rewrite <- app_assoc; reflexivity).
    apply IH; [|discriminate | exact Hall'|].
    + apply submit_underway; [exact Hu | exact Hb|].
      cbn [length] in Hlen. lia.
    + rewrite length_app. cbn [length] in Hlen |- *. lia.
Qed.

End HappyPath.

(** X17. With a provider that answers every request with a non-blank
    text, a key, a job title and a client, Start followed by as many
    non-blank answers as the target asks for completes the interview:
    the evaluation is present, the answers are the submitted ones in
    order, there is one question and one feedback entry per answer,
    exactly one record was handed to the store, and one request was sent
    for the first question and two for every answer. *)
Theorem X17_answers_complete_the_interview :
  forall (E : env) (sb : sidebar) (all : list string),
    always_replies E ->
    truthy (sb_api_key sb) = true ->
    truthy (sb_job_title sb) = true ->
    OpenAI_raises E (sb_api_key sb) = None ->
    all <> [] ->
    Forall (fun a => blank a = false) all ->
    Z.of_nat (length all) = sb_max_questions sb ->
    finished all
      (Sample.after E sb (ClickStartInterview :: map SubmitAnswer all)).
Proof.
  intros E sb all Hrep Hk Hj Hcl Hne Hall Hlen.
  unfold Sample.after. cbn [fold_left].
  apply (answers_finish E sb Hrep all [] _
           (start_underway E sb Hrep Hk Hj Hcl) Hne Hall).
  exact Hlen.
Qed.

Lemma X17_witness :
  finished ["A1"; "A2"]
    (Sample.after
       {| provider := fun _ _ _ => Reply "fine";
          OpenAI_raises := fun _ => None;
          utcnow := Sample.noon; push_raises := fun _ => None |}
       Sample.sb2 (ClickStartInterview :: map SubmitAnswer ["A1"; "A2"])).
Proof.
  apply (X17_answers_complete_the_interview _ Sample.sb2 ["A1"; "A2"]).
  - intros n c r. exists "fine". split; reflexivity.
  - reflexivity.
  - reflexivity.
  - reflexivity.
  - discriminate.
  - repeat constructor.
  - reflexivity.
Defined.

(** ** The requests a run may send *)

Lemma sends_bind {A B} (a b : nat) (m : M A) (k : A -> M B) :
  sends_at_most a m -> (forall x, sends_at_most b (k x)) ->
  sends_at_most (a + b) (bind m k).
Proof.
  intros Hm Hk w o w'. unfold bind.
  destruct (m w) as [[x| |e] w1] eqn:Hmw; intros H.
  - pose proof (Hm _ _ _ Hmw). pose proof (Hk x _ _ _ H). lia.
  - inversion H; subst. pose proof (Hm _ _ _ Hmw). lia.
  - inversion H; subst. pose proof (Hm _ _ _ Hmw). lia.
Qed.

Section CallFrames.

Variable E : env.

Lemma generate_question_calls co j m x i q a (so : option session) n tr :
  exists r n' tr',
    generate_question E co j m x i q a
      {| session_state := so; api_calls := n; trace := tr |}
    = (Done r, {| session_state := so; api_calls := n'; trace := tr' |})
    /\ length (api_requests tr) <= length (api_requests tr')
       <= S (length (api_requests tr)).
Proof.
  unfold generate_question, bind, chat_completions_create.
  destruct co as [c|]; cbn [api_calls].
  - destruct (provider E n c _); do 3 eexists; (split; [reflexivity|]);
      unfold emit_in, count_call; cbn [trace];
      rewrite ?api_requests_app, ?length_app; cbn [api_requests length]; lia.
  - do 3 eexists; (split; [reflexivity|]);
      unfold emit_in; cbn [trace];
      rewrite ?api_requests_app, ?length_app; cbn [api_requests length]; lia.
Qed.

Lemma get_feedback_calls co m q a (so : option session) n tr :
  exists r n' tr',
    get_feedback_for_answer E co m q a
      {| session_state := so; api_calls := n; trace := tr |}
    = (Done r, {| session_state := so; api_calls := n'; trace := tr' |})
    /\ length (api_requests tr) <= length (api_requests tr')
       <= S (length (api_requests tr)).
Proof.
  unfold get_feedback_for_answer, bind, chat_completions_create.
  destruct co as [c|]; cbn [api_calls].
  - destruct (provider E n c _); do 3 eexists; (split; [reflexivity|]);
      unfold emit_in, count_call; cbn [trace];
      rewrite ?api_requests_app, ?length_app; cbn [api_requests length]; lia.
  - do 3 eexists; (split; [reflexivity|]);
      unfold emit_in; cbn [trace];
      rewrite ?api_requests_app, ?length_app; cbn [api_requests length]; lia.
Qed.

Lemma evaluate_answers_calls co j m q a (so : option session) n tr :
  exists r n' tr',
    evaluate_answers E co j m q a
      {| session_state := so; api_calls := n; trace := tr |}
    = (Done r, {| session_state := so; api_calls := n'; trace := tr' |})
    /\ length (api_requests tr) <= length (api_requests tr')
       <= S (length (api_requests tr)).
Proof.
  unfold evaluate_answers, bind, chat_completions_create.
  destruct co as [c|]; cbn [api_calls].
  - destruct (provider E n c _); do 3 eexists; (split; [reflexivity|]);
      unfold emit_in, count_call; cbn [trace];
      rewrite ?api_requests_app, ?length_app; cbn [api_requests length]; lia.
  - do 3 eexists; (split; [reflexivity|]);
      unfold emit_in; cbn [trace];
      rewrite ?api_requests_app, ?length_app; cbn [api_requests length]; lia.
Qed.

Lemma store_session_calls db d (so : option session) n tr :
  exists tr',
    store_session E db d {| session_state := so; api_calls := n; trace := tr |}
    = (Done tt, {| session_state := so; api_calls := n; trace := tr' |})
    /\ length (api_requests tr') = length (api_requests tr).
Proof.
  destruct (store_session_quiet E db d {| session_state := so; api_calls := n; trace := tr |})
    as (l & H & Hreq).
  eexists. split; [exact H|]. cbn [trace].
  rewrite api_requests_app, length_app, Hreq. cbn [length]. lia.
Qed.

Lemma get_client_calls k (so : option session) n tr :
  exists r tr',
    get_openrouter_client E k {| session_state := so; api_calls := n; trace := tr |}
    = (Done r, {| session_state := so; api_calls := n; trace := tr' |})
    /\ length (api_requests tr') = length (api_requests tr).
Proof.
  unfold get_openrouter_client, bind, emit, ret.
  destruct (negb (truthy k)); cbn.
  - do 2 eexists. split; [reflexivity|].
    rewrite api_requests_app, length_app. cbn. lia.
  - destruct (OpenAI_raises E k); cbn; do 2 eexists; (split; [reflexivity|]);
      rewrite ?api_requests_app, ?length_app; cbn; lia.
Qed.

End CallFrames.

Ltac frame_calls H :=
  match type of H with
  | context [generate_question ?E ?c ?j ?m ?x ?i ?q ?a
               {| session_state := ?so; api_calls := ?n; trace := ?tr |}] =>
      let H' := fresh in
      destruct (generate_question_calls E c j m x i q a so n tr)
        as (? & ? & ? & H' & ?);
      rewrite H' in H; clear H'
  | context [get_feedback_for_answer ?E ?c ?m ?q ?a
               {| session_state := ?so; api_calls := ?n; trace := ?tr |}] =>
      let H' := fresh in
      destruct (get_feedback_calls E c m q a so n tr) as (? & ? & ? & H' & ?);
      rewrite H' in H; clear H'
  | context [evaluate_answers ?E ?c ?j ?m ?q ?a
               {| session_state := ?so; api_calls := ?n; trace := ?tr |}] =>
      let H' := fresh in
      destruct (evaluate_answers_calls E c j m q a so n tr)
        as (? & ? & ? & H' & ?);
      rewrite H' in H; clear H'
  | context [store_session ?E ?db ?d
               {| session_state := ?so; api_calls := ?n; trace := ?tr |}] =>
      let H' := fresh in
      destruct (store_session_calls E db d so n tr) as (? & H' & ?);
      rewrite H' in H; clear H'
  | context [get_openrouter_client ?E ?k
               {| session_state := ?so; api_calls := ?n; trace := ?tr |}] =>
      let H' := fresh in
      destruct (get_client_calls E k so n tr) as (? & ? & H' & ?);
      rewrite H' in H; clear H'
  end.

Ltac crunch_calls H :=
  repeat first
    [ progress (cbn [session_state api_calls trace fst snd
                     interview_started questions answers evaluation ss_client
                     max_questions feedback job_title
                     set_interview_started set_questions set_answers
                     set_evaluation set_client set_max_questions set_feedback
                     set_job_title] in H)
    | frame_calls H
    | match type of H with
      | (_, _) = (_, _) => inversion H; subst; clear H
      | context [match job_title ?s with _ => _ end] => destruct (job_title s) eqn:?
      | context [match ss_client ?s with _ => _ end] => destruct (ss_client s) eqn:?
      | context [match pop ?l with _ => _ end] => destruct (pop l) eqn:?
      | context [match nth_error ?l ?n with _ => _ end] => destruct (nth_error l n) eqn:?
      | context [if ?b then _ else _] => destruct b eqn:?
      | context [match ?x with _ => _ end] => is_var x; destruct x
      end ].

Ltac count_requests :=
  unfold requests_sent, with_session, emit_in, count_call,
    next_question_error, start_error;
  cbn [trace];
  rewrite ?api_requests_app, ?length_app; cbn [api_requests length]; lia.

Lemma sends_initialise : sends_at_most 0 initialise.
Proof.
  intros [[s|] n tr] o w' H; unfold initialise in H; cbn in H;
    injection H as <- <-; count_requests.
Qed.

Lemma sends_display : sends_at_most 0 display_chat_history.
Proof.
  intros w o w' H. destruct w as [[s|] n tr];
    unfold display_chat_history in H; open_script H; crunch_calls H;
    count_requests.
Qed.

Lemma sends_completed act : sends_at_most 0 (completed_block act).
Proof.
  intros w o w' H. destruct w as [[s|] n tr];
    unfold completed_block, clear_session in H; open_script H; crunch_calls H;
    count_requests.
Qed.

Lemma sends_start E sb act :
  sends_at_most (if clicked_start act then 1 else 0) (start_block E sb act).
Proof.
  intros w o w' H. destruct w as [[s|] n tr];
    unfold start_block, st_button in H; open_script H;
    destruct act; cbn [clicked_start andb] in H |- *; crunch_calls H;
    count_requests.
Qed.

Lemma sends_progress E sb act :
  sends_at_most (match act with SubmitAnswer _ => 2 | _ => 0 end)
    (progress_block E sb act).
Proof.
  intros w o w' H. destruct w as [[s|] n tr];
    unfold progress_block, on_submit, advance, ask_next_question,
      finish_interview, pop_answers, pop_feedback, read_job_title in H;
    open_script H; destruct act; crunch_calls H; count_requests.
Qed.

(** X18. A run sends no request unless Start was clicked or an answer
    submitted, at most one for Start and at most two for an answer; it
    never takes a request back from the record. *)
Theorem X18_requests_per_run :
  forall (E : env) (sb : sidebar) (act : ui_action) (w w' : world)
         (o : outcome unit),
    run_interview_app E sb act w = (o, w') ->
    requests_sent w <= requests_sent w'
    <= requests_sent w + request_budget act.
Proof.
  intros E sb act w w' o H.
  assert (Hs : sends_at_most
                 (0 + ((if clicked_start act then 1 else 0)
                       + (0 + ((match act with SubmitAnswer _ => 2 | _ => 0 end)
                               + 0))))
                 (run_interview_app E sb act)).
  { unfold run_interview_app.
    apply sends_bind; [apply sends_initialise | intros _].
    apply sends_bind; [apply sends_start | intros _].
    apply sends_bind; [apply sends_display | intros _].
    apply sends_bind; [apply sends_progress | intros _].
    apply sends_completed. }
  specialize (Hs _ _ _ H). destruct act; cbn in Hs |- *; lia.
Qed.

Lemma X18_witness :
  requests_sent (Sample.started_world 2)
  <= requests_sent
       (snd (run_interview_app Sample.E_next_fails Sample.sb2 (SubmitAnswer "A1")
               (Sample.started_world 2)))
  <= requests_sent (Sample.started_world 2) + request_budget (SubmitAnswer "A1").
Proof.
  apply (X18_requests_per_run Sample.E_next_fails Sample.sb2 (SubmitAnswer "A1")
           (Sample.started_world 2) _ (Done tt)).
  reflexivity.
Defined.

(** ** The chat *)

Lemma asked_app (l r : list chat_item) : asked (l ++ r) = (asked l ++ asked r)%list.
Proof.
  induction l as [|x l IH]; [reflexivity|].
  destruct x; cbn [app asked]; rewrite IH; reflexivity.
Qed.

Lemma replied_app (l r : list chat_item) :
  replied (l ++ r) = (replied l ++ replied r)%list.
Proof.
  induction l as [|x l IH]; [reflexivity|].
  destruct x; cbn [app replied]; rewrite IH; reflexivity.
Qed.

Lemma coached_app (l r : list chat_item) :
  coached (l ++ r) = (coached l ++ coached r)%list.
Proof.
  induction l as [|x l IH]; [reflexivity|].
  destruct x; cbn [app coached]; rewrite IH; reflexivity.
Qed.

Lemma firstn_one_skipn {A} (l : list A) (i : nat) :
  firstn 1 (skipn i l)
  = match nth_error l i with Some x => [x] | None => [] end.
Proof.
  revert i. induction l as [|x l IH]; intros [|i]; try reflexivity.
  cbn [skipn nth_error]. apply IH.
Qed.

Lemma firstn_succ_skipn {A} (l : list A) (i k : nat) :
  firstn (S k) (skipn i l)
  = (firstn 1 (skipn i l) ++ firstn k (skipn (S i) l))%list.
Proof.
  revert i. induction l as [|x l IH]; intros [|i].
  - destruct k; reflexivity.
  - destruct k; reflexivity.
  - reflexivity.
  - cbn [skipn]. apply IH.
Qed.

Lemma coach_row_projections (fb : list (option string)) (i : nat) :
  asked (coach_row fb i) = [] /\ replied (coach_row fb i) = []
  /\ coached (coach_row fb i) = drawn_feedback (firstn 1 (skipn i fb)).
Proof.
  rewrite firstn_one_skipn. unfold coach_row.
  destruct (nth_error fb i) as [[f|]|]; cbn [drawn_feedback flat_map app];
    try (repeat split; fail).
  destruct (truthy f); repeat split.
Qed.

Lemma chat_rows_some (qs : list string) (fb : list (option string))
    (rest : list string) (i : nat) :
  i + length rest <= length qs ->
  exists l,
    chat_rows qs fb i rest = Some l
    /\ asked l = firstn (length rest) (skipn i qs)
    /\ replied l = rest
    /\ coached l = drawn_feedback (firstn (length rest) (skipn i fb)).
Proof.
  revert i. induction rest as [|a rest IH]; intros i Hlen.
  - exists []. repeat split.
  - cbn [length] in Hlen.
    destruct (nth_error qs i) as [q|] eqn:Hq.
    2:{ apply nth_error_None in Hq. lia. }
    destruct (IH (S i)) as (l & Hl & Ha & Hr & Hc); [lia|].
    destruct (coach_row_projections fb i) as (Hca & Hcr & Hcc).
    exists (AssistantSays q :: UserSays a :: coach_row fb i ++ l)%list.
    cbn [chat_rows]. rewrite Hq, Hl. split; [reflexivity|].
    cbn [asked replied coached length].
    rewrite asked_app, replied_app, coached_app, Hca, Hcr, Hcc, Ha, Hr, Hc.
    cbn [app].
    rewrite (firstn_succ_skipn qs i (length rest)),
      (firstn_succ_skipn fb i (length rest)), (firstn_one_skipn qs), Hq.
    unfold drawn_feedback. rewrite flat_map_app. repeat split.
Qed.

Lemma chat_rows_none (qs : list string) (fb : list (option string))
    (rest : list string) (i : nat) :
  i <= length qs -> length qs < i + length rest ->
  chat_rows qs fb i rest = None.
Proof.
  revert i. induction rest as [|a rest IH]; intros i Hi Hlen.
  - cbn [length] in Hlen. lia.
  - cbn [chat_rows length] in Hlen |- *.
    destruct (nth_error qs i) as [q|] eqn:Hq; [|reflexivity].
    assert (i < length qs) by (apply nth_error_Some; congruence).
    rewrite IH; [reflexivity | lia | lia].
Qed.

(** X19. The chat cannot be drawn exactly when some answer has no
    question at its position, that is when a started session holds more
    answers than questions; this is when the run ends in [IndexError]
    before the answer form is reached. *)
Theorem X19_chat_fails_on_orphan_answers :
  forall (s : session) (n : nat) (tr : list effect),
    (chat_history s = None
     <-> interview_started s = true /\ length (questions s) < length (answers s))
    /\ (chat_history s = None
        <-> display_chat_history
              {| session_state := Some s; api_calls := n; trace := tr |}
            = (Raised "IndexError",
               {| session_state := Some s; api_calls := n; trace := tr |})).
Proof.
  intros s n tr.
  assert (H1 : chat_history s = None
               <-> interview_started s = true
                   /\ length (questions s) < length (answers s)).
  { unfold chat_history. destruct (interview_started s).
    - destruct (Nat.lt_ge_cases (length (questions s)) (length (answers s)))
        as [Hlt|Hge].
      + rewrite chat_rows_none by (cbn; first [exact Hlt | lia]). tauto.
      + destruct (chat_rows_some (questions s) (feedback s) (answers s) 0)
          as (l & -> & _); [cbn; exact Hge|].
        split; [discriminate | intros [_ H]; lia].
    - split; [discriminate | intros [H _]; discriminate H]. }
  split; [exact H1|]. rewrite H1.
  assert (Hd : display_chat_history
                 {| session_state := Some s; api_calls := n; trace := tr |}
               = (if interview_started s
                     && (length (questions s) <? length (answers s))%nat
                  then Raised "IndexError" else Done tt,
                  {| session_state := Some s; api_calls := n; trace := tr |})).
  { unfold display_chat_history. step.
    destruct (interview_started s); [|reflexivity].
    step. step. cbn [andb].
    destruct (length (questions s) <? length (answers s))%nat; reflexivity. }
  rewrite Hd. destruct (interview_started s); cbn [andb].
  - destruct (length (questions s) <? length (answers s))%nat eqn:Hlt.
    + apply Nat.ltb_lt in Hlt. split; [reflexivity | auto].
    + apply Nat.ltb_ge in Hlt. split; [intros [_ H]; lia | discriminate].
  - split; [intros [H _]; discriminate H | discriminate].
Qed.

(** X20. For a started session with at least as many questions as
    answers and at most one more, the chat is drawn and shows every
    question once and in order, every answer once and in order, and the
    feedback entries that are present and not empty, for the answered
    turns; when a question is pending, the message drawn last is the
    question the next answer will be paired with. *)
Theorem X20_chat_shows_the_transcript :
  forall (s : session),
    interview_started s = true ->
    length (answers s) <= length (questions s) <= length (answers s) + 1 ->
    exists l,
      chat_history s = Some l
      /\ asked l = questions s
      /\ replied l = answers s
      /\ coached l = drawn_feedback (firstn (length (answers s)) (feedback s))
      /\ (forall q,
            nth_error (questions s) (length (answers s)) = Some q ->
            last l (UserSays "") = AssistantSays q).
Proof.
  intros s Hst [Hlo Hhi].
  destruct (chat_rows_some (questions s) (feedback s) (answers s) 0)
    as (l & Hl & Ha & Hr & Hc); [cbn; exact Hlo|].
  cbn [skipn] in Ha, Hc.
  unfold chat_history. rewrite Hst, Hl.
  eexists. split; [reflexivity|].
  rewrite asked_app, replied_app, coached_app, Ha, Hr, Hc.
  destruct (length (answers s) <? length (questions s))%nat eqn:Hp.
  - apply Nat.ltb_lt in Hp.
    assert (Hq : exists q0 prefix, questions s = (prefix ++ [q0])%list
                                   /\ length prefix = length (answers s)).
    { destruct (questions s) as [|x qs] eqn:Hqs using rev_ind;
        [cbn in Hp; lia|].
      exists x, qs. split; [reflexivity|].
      rewrite length_app in Hhi, Hp. cbn [length] in Hhi, Hp. lia. }
    destruct Hq as (q0 & prefix & Hqs & Hpl).
    rewrite Hqs, last_last. cbn [asked replied coached].
    rewrite <- Hpl, firstn_app, firstn_all, Nat.sub_diag. cbn [firstn].
    rewrite !app_nil_r.
    repeat split.
    intros q Hq. rewrite last_last.
    rewrite nth_error_app2 in Hq by lia. rewrite Nat.sub_diag in Hq.
    injection Hq as <-. reflexivity.
  - apply Nat.ltb_ge in Hp. cbn [asked replied coached].
    rewrite !app_nil_r, firstn_all2 by lia. repeat split.
    intros q Hq. exfalso.
    assert (length (answers s) < length (questions s))
      by (apply nth_error_Some; congruence).
    lia.
Qed.

Lemma X20_witness :
  exists l,
    chat_history (set_questions ["Q1"; "Q2"]
                    (recorded "A1" (Some "F1") (Sample.started_session 2)))
    = Some l
    /\ asked l = ["Q1"; "Q2"]
    /\ replied l = ["A1"]
    /\ coached l = drawn_feedback (firstn 1 [Some "F1"])
    /\ (forall q,
          nth_error ["Q1"; "Q2"] 1 = Some q ->
          last l (UserSays "") = AssistantSays q).
Proof.
  apply (X20_chat_shows_the_transcript
           (set_questions ["Q1"; "Q2"]
              (recorded "A1" (Some "F1") (Sample.started_session 2)))).
  - reflexivity.
  - cbn. lia.
Defined.

(** ** Retrying, and what the sidebar cannot change *)

(** X21. An answer rolled back because the next question could not be
    generated can be submitted again as it is: if this time the question
    comes back non-blank, the session is the one a first-time success
    would have produced, with the answer, the feedback of the second
    attempt and the new question.  Four requests were sent in all. *)
Theorem X21_rolled_back_answer_can_be_resubmitted :
  forall (E : env) (sb : sidebar) (s : session) (n : nat) (tr : list effect)
         (c : client) (jt q answer t : string),
    phase_of s = InProgress ->
    nth_error (questions s) (length (answers s)) = Some q ->
    ss_client s = Some c ->
    job_title s = Some jt ->
    blank answer = false ->
    (Z.of_nat (length (answers s) + 1) < max_questions s)%Z ->
    let qreq := question_request jt (sb_model_name sb) (max_questions s)
                  (sb_interview_type sb) (questions s)
                  (answers s ++ [answer])%list in
    let freq := feedback_request (sb_model_name sb) q answer in
    request_failed (provider E (S n) c qreq) = true ->
    provider E (S (S (S n))) c qreq = Reply t ->
    blank t = false ->
    let w1 := snd (run_interview_app E sb (SubmitAnswer answer)
                     {| session_state := Some s; api_calls := n; trace := tr |}) in
    exists l,
      run_interview_app E sb (SubmitAnswer answer) w1
      = (Rerun,
         {| session_state :=
              Some (set_questions (questions s ++ [strip t])%list
                      (recorded answer
                         (text_of (provider E (S (S n)) c freq)) s));
            api_calls := S (S (S (S n)));
            trace := (tr ++ l)%list |})
      /\ api_requests l = [freq; qreq; freq; qreq].
Proof.
  intros E sb s n tr c jt q answer t Hph Hq Hc Hj Hb Hlt qreq freq Hf Hr Hbt w1.
  destruct (submit_rollback E sb s n tr c jt q answer Hph Hq Hc Hj Hb Hlt Hf)
    as (l1 & Hrun1 & _ & Hreq1).
  destruct (submit_next E sb s (S (S n)) (tr ++ l1) c jt q answer Hph Hq Hc Hj Hb
              t Hlt Hr Hbt) as (l2 & Hrun2 & Hreq2 & _).
  subst w1. rewrite Hrun1. cbn [snd].
  exists (l1 ++ l2)%list. split.
  - rewrite Hrun2, app_assoc. reflexivity.
  - rewrite api_requests_app, Hreq1, Hreq2. reflexivity.
Qed.

Lemma X21_witness :
  exists l,
    run_interview_app
      (Sample.scripted [Reply "Q1"; Reply "F1"; RateLimitError; Reply "F1b";
                        Reply "Q2"])
      Sample.sb2 (SubmitAnswer "A1")
      (snd (run_interview_app
              (Sample.scripted [Reply "Q1"; Reply "F1"; RateLimitError;
                                Reply "F1b"; Reply "Q2"])
              Sample.sb2 (SubmitAnswer "A1") (Sample.started_world 2)))
    = (Rerun,
       {| session_state :=
            Some (set_questions (["Q1"] ++ [strip "Q2"])%list
                    (recorded "A1"
                       (text_of
                          (provider
                             (Sample.scripted [Reply "Q1"; Reply "F1";
                                               RateLimitError; Reply "F1b";
                                               Reply "Q2"]) 3
                             {| api_key := "sk-test"; base_url := OPENROUTER_URL |}
                             (feedback_request "z-ai/glm-4.5-air" "Q1" "A1")))
                       (Sample.started_session 2)));
          api_calls := 5; trace := ([] ++ l)%list |})
    /\ api_requests l
       = [feedback_request "z-ai/glm-4.5-air" "Q1" "A1";
          question_request "Backend Engineer" "z-ai/glm-4.5-air" 2 "General"
            ["Q1"] ["A1"];
          feedback_request "z-ai/glm-4.5-air" "Q1" "A1";
          question_request "Backend Engineer" "z-ai/glm-4.5-air" 2 "General"
            ["Q1"] ["A1"]].
Proof.
  apply (X21_rolled_back_answer_can_be_resubmitted
           (Sample.scripted [Reply "Q1"; Reply "F1"; RateLimitError; Reply "F1b";
                             Reply "Q2"])
           Sample.sb2 (Sample.started_session 2) 1 []
           {| api_key := "sk-test"; base_url := OPENROUTER_URL |}
           "Backend Engineer" "Q1" "A1" "Q2"); reflexivity.
Defined.



(** ** The transcript on the history page *)

Lemma history_rows_shown (answers_ : list string)
    (feedback_list : list (option string)) (rest : list string) (i : nat) :
  let l := history_rows answers_ feedback_list i rest in
  shown_questions l = map (fun q => "**Q:** " ++ q) rest
  /\ shown_answers l
     = map (fun a => "**A:** " ++ a) (firstn (length rest) (skipn i answers_))
  /\ shown_feedback l
     = map (fun f => "**Feedback:** " ++ f)
         (drawn_feedback (firstn (length rest) (skipn i feedback_list)))
  /\ dividers l = length rest.
Proof.
  revert i. induction rest as [|q rest IH]; intros i; [repeat split|].
  destruct (IH (S i)) as (Hq & Ha & Hf & Hd).
  cbn [history_rows length].
  rewrite (firstn_succ_skipn answers_ i (length rest)),
    (firstn_succ_skipn feedback_list i (length rest)),
    !firstn_one_skipn.
  unfold drawn_feedback. rewrite flat_map_app, !map_app.
  fold (drawn_feedback (firstn (length rest) (skipn (S i) feedback_list))).
  destruct (nth_error answers_ i) as [a|];
    destruct (nth_error feedback_list i) as [[f|]|];
    cbn [app flat_map];
    try destruct (truthy f);
    cbn [app shown_questions shown_answers shown_feedback dividers map];
    rewrite Hq, Ha, Hf, Hd; repeat split.
Qed.

(** X23. The transcript of a stored record on the history page shows
    every question, in order, each followed by one divider; it shows the
    answers of the positions that have a question, so that answers
    beyond the questions are left out and a question without an answer
    is shown alone; and it shows the feedback entries of those positions
    that are present and not empty. *)
Theorem X23_history_transcript_shows_each_question :
  forall (questions_ answers_ : list string)
         (feedback_list : list (option string)),
    let l := history_transcript questions_ answers_ feedback_list in
    shown_questions l = map (fun q => "**Q:** " ++ q) questions_
    /\ shown_answers l
       = map (fun a => "**A:** " ++ a) (firstn (length questions_) answers_)
    /\ shown_feedback l
       = map (fun f => "**Feedback:** " ++ f)
           (drawn_feedback (firstn (length questions_) feedback_list))
    /\ dividers l = length questions_.
Proof.
  intros questions_ answers_ feedback_list.
  exact (history_rows_shown answers_ feedback_list questions_ 0).
Qed.
